(** * carnet_prises.py: a verified model of the catch log

    Shallow embedding of [carnet_prises.py] (a Streamlit form over a
    ';'-separated CSV file and a directory of photos) and the proofs of
    the properties its specification states.

    Conventions of the embedding.
    - Python [str] is [string]; every character stands for one code point
      below 256.  On that range the decimal digits known to [\d] and
      [int()] are exactly '0'..'9', and the characters removed by
      [str.strip()] are the ones of [isspace] below.
    - Exceptions are values: a function that can raise returns [result].
    - The clock ([datetime.now()], [datetime.today()]) is an argument.
    - The standard library's [_strptime] is embedded as the backtracking
      regular expression matcher it builds from a format string. *)

From Stdlib Require Import String Ascii List Bool Arith Lia ZArith QArith Qcanon Qround
  DecimalString DecimalNat Sorted Lqa.
Import ListNotations.

Open Scope string_scope.
Open Scope nat_scope.

(** ** Exceptions *)

Inductive exn : Type :=
| ValueError
| PermissionError
| KeyError
| IndexError
| TypeError.

Inductive result (A : Type) : Type :=
| Ok (a : A)
| Raise (e : exn).

Arguments Ok {A} a.
Arguments Raise {A} e.

Definition rbind {A B : Type} (r : result A) (k : A -> result B) : result B :=
  match r with
  | Ok a => k a
  | Raise e => Raise e
  end.

(** ** Python strings *)

Module Py.

(** [str.isspace] on the code points below 256. *)
Definition isspace (c : ascii) : bool :=
  let n := nat_of_ascii c in
  ((9 <=? n) && (n <=? 13)) || ((28 <=? n) && (n <=? 32))
  || (n =? 133) || (n =? 160).

Fixpoint lstrip (s : string) : string :=
  match s with
  | EmptyString => EmptyString
  | String c s' => if isspace c then lstrip s' else s
  end.

Fixpoint rstrip (s : string) : string :=
  match s with
  | EmptyString => EmptyString
  | String c s' =>
      match rstrip s' with
      | EmptyString => if isspace c then EmptyString else String c EmptyString
      | r => String c r
      end
  end.

(** [s.strip()] *)
Definition strip (s : string) : string := rstrip (lstrip s).

(** [c in s] for a one-character [c]. *)
Fixpoint contains (c : ascii) (s : string) : bool :=
  match s with
  | EmptyString => false
  | String d s' => Ascii.eqb d c || contains c s'
  end.

(** [s.split(sep)] for a one-character separator: never the empty list. *)
Fixpoint split (sep : ascii) (s : string) : list string :=
  match s with
  | EmptyString => [EmptyString]
  | String c s' =>
      if Ascii.eqb c sep then EmptyString :: split sep s'
      else match split sep s' with
           | p :: ps => String c p :: ps
           | [] => [String c EmptyString]
           end
  end.

(** [s.zfill(2)]: pads on the left with '0' up to width 2, after a
    leading sign if there is one. *)
Definition zfill2 (s : string) : string :=
  match s with
  | EmptyString => "00"
  | String c EmptyString =>
      if Ascii.eqb c "+" || Ascii.eqb c "-" then String c "0"
      else String "0" s
  | _ => s
  end.

(** [s.replace(a, b)] for one-character [a] and [b]. *)
Fixpoint replace (a b : ascii) (s : string) : string :=
  match s with
  | EmptyString => EmptyString
  | String c s' => String (if Ascii.eqb c a then b else c) (replace a b s')
  end.

(** Value of a decimal digit. *)
Definition digit (c : ascii) : option nat :=
  let n := nat_of_ascii c in
  if (48 <=? n) && (n <=? 57) then Some (n - 48) else None.

Definition isdigit (c : ascii) : bool :=
  match digit c with Some _ => true | None => false end.

(** [int(s)] on a string the matcher has already checked to be digits
    (a leading blank, which the day directive admits, counts as nothing). *)
Fixpoint int_acc (acc : nat) (s : string) : nat :=
  match s with
  | EmptyString => acc
  | String c s' =>
      match digit c with
      | Some d => int_acc (10 * acc + d) s'
      | None => int_acc acc s'
      end
  end.

Definition int (s : string) : nat := int_acc 0 s.

(** The character of a digit, and zero-padded decimal rendering as done
    by [strftime] for [%m %d %H %M %S] (width 2) and [%Y] (width 4). *)
Definition digit_char (d : nat) : ascii := ascii_of_nat (48 + d).

Definition show2 (n : nat) : string :=
  String (digit_char (n / 10 mod 10)) (String (digit_char (n mod 10)) EmptyString).

Definition show4 (n : nat) : string :=
  String (digit_char (n / 1000 mod 10))
    (String (digit_char (n / 100 mod 10)) (show2 n)).

End Py.

(** ** [datetime.strptime]

    [_strptime] turns a format into one regular expression, a named group
    per directive, and matches it at the start of the text with Python's
    backtracking matcher.  The first match found wins; text left over
    after it, or a date that does not exist, raises [ValueError]. *)

Module Strptime.

Inductive re : Type :=
| Chr (c : ascii)
| Cls (p : ascii -> bool)
| Seq (r1 r2 : re)
| Alt (r1 r2 : re).

(** [exec r s k] tries the ways [r] can match a prefix of [s], in the
    order of the alternatives, and answers with the first one that the
    continuation [k] accepts ([k] gets the text matched and the rest). *)
Fixpoint exec {A : Type} (r : re) (s : string)
         (k : string -> string -> option A) : option A :=
  match r with
  | Chr c =>
      match s with
      | String d s' => if Ascii.eqb d c then k (String d "") s' else None
      | EmptyString => None
      end
  | Cls p =>
      match s with
      | String d s' => if p d then k (String d "") s' else None
      | EmptyString => None
      end
  | Seq r1 r2 =>
      exec r1 s (fun t1 s1 => exec r2 s1 (fun t2 s2 => k (t1 ++ t2) s2))
  | Alt r1 r2 =>
      match exec r1 s k with
      | Some a => Some a
      | None => exec r2 s k
      end
  end.

(** Character class [[a-b]]. *)
Definition rng (a b : ascii) (c : ascii) : bool :=
  (nat_of_ascii a <=? nat_of_ascii c) && (nat_of_ascii c <=? nat_of_ascii b).

Definition D : re := Cls Py.isdigit.

Inductive directive : Type := dY | dm | dd | dH | dM | dS.

(** The groups of [TimeRE]:
    [%Y] is [\d\d\d\d], [%m] is [1[0-2]|0[1-9]|[1-9]],
    [%d] is [3[0-1]|[1-2]\d|0[1-9]|[1-9]| [1-9]],
    [%H] is [2[0-3]|[0-1]\d|\d], [%M] is [[0-5]\d|\d],
    [%S] is [6[0-1]|[0-5]\d|\d]. *)
Definition regex_of (d : directive) : re :=
  match d with
  | dY => Seq D (Seq D (Seq D D))
  | dm => Alt (Seq (Chr "1") (Cls (rng "0" "2")))
         (Alt (Seq (Chr "0") (Cls (rng "1" "9")))
              (Cls (rng "1" "9")))
  | dd => Alt (Seq (Chr "3") (Cls (rng "0" "1")))
         (Alt (Seq (Cls (rng "1" "2")) D)
         (Alt (Seq (Chr "0") (Cls (rng "1" "9")))
         (Alt (Cls (rng "1" "9"))
              (Seq (Chr " ") (Cls (rng "1" "9"))))))
  | dH => Alt (Seq (Chr "2") (Cls (rng "0" "3")))
         (Alt (Seq (Cls (rng "0" "1")) D)
              D)
  | dM => Alt (Seq (Cls (rng "0" "5")) D) D
  | dS => Alt (Seq (Chr "6") (Cls (rng "0" "1")))
         (Alt (Seq (Cls (rng "0" "5")) D)
              D)
  end.

Inductive item : Type :=
| Dir (d : directive)
| Lit (c : ascii).

Definition directive_of (c : ascii) : option directive :=
  if Ascii.eqb c "Y" then Some dY
  else if Ascii.eqb c "m" then Some dm
  else if Ascii.eqb c "d" then Some dd
  else if Ascii.eqb c "H" then Some dH
  else if Ascii.eqb c "M" then Some dM
  else if Ascii.eqb c "S" then Some dS
  else None.

(** A format string read as directives and literal characters; [None]
    for a directive this model does not know. *)
Fixpoint compile (f : string) : option (list item) :=
  match f with
  | EmptyString => Some []
  | String c f1 =>
      if Ascii.eqb c "%" then
        match f1 with
        | String x f2 =>
            match directive_of x, compile f2 with
            | Some d, Some l => Some (Dir d :: l)
            | _, _ => None
            end
        | EmptyString => None
        end
      else option_map (cons (Lit c)) (compile f1)
  end.

Record datetime : Type := mkdatetime
  { year : nat; month : nat; day : nat;
    hour : nat; minute : nat; second : nat }.

(** What [_strptime] starts from when a directive is absent. *)
Definition defaults : datetime := mkdatetime 1900 1 1 0 0 0.

Definition set_field (d : directive) (v : nat) (t : datetime) : datetime :=
  match d with
  | dY => mkdatetime v (month t) (day t) (hour t) (minute t) (second t)
  | dm => mkdatetime (year t) v (day t) (hour t) (minute t) (second t)
  | dd => mkdatetime (year t) (month t) v (hour t) (minute t) (second t)
  | dH => mkdatetime (year t) (month t) (day t) v (minute t) (second t)
  | dM => mkdatetime (year t) (month t) (day t) (hour t) v (second t)
  | dS => mkdatetime (year t) (month t) (day t) (hour t) (minute t) v
  end.

Fixpoint exec_format (fmt : list item) (s : string) (t : datetime)
  : option (datetime * string) :=
  match fmt with
  | [] => Some (t, s)
  | Dir d :: fmt' =>
      exec (regex_of d) s
           (fun txt s' => exec_format fmt' s' (set_field d (Py.int txt) t))
  | Lit c :: fmt' =>
      match s with
      | String x s' => if Ascii.eqb x c then exec_format fmt' s' t else None
      | EmptyString => None
      end
  end.

Definition is_leap (y : nat) : bool :=
  (y mod 4 =? 0) && (negb (y mod 100 =? 0) || (y mod 400 =? 0)).

Definition days_in_month (y m : nat) : nat :=
  match m with
  | 2 => if is_leap y then 29 else 28
  | 4 | 6 | 9 | 11 => 30
  | _ => 31
  end.

(** The check made by the constructor of [datetime.date]: the year lies
    between 1 and 9999, the day exists in the month. *)
Definition valid_date (y m d : nat) : bool :=
  (1 <=? y) && (y <? 10 * 1000) && (1 <=? m) && (m <=? 12)
  && (1 <=? d) && (d <=? days_in_month y m).

(** [datetime.strptime(s, fmt)] *)
Definition strptime (s fmt : string) : result datetime :=
  match compile fmt with
  | None => Raise ValueError
  | Some items =>
      match exec_format items s defaults with
      | None => Raise ValueError
      | Some (t, EmptyString) =>
          if valid_date (year t) (month t) (day t) then Ok t
          else Raise ValueError
      | Some (_, String _ _) => Raise ValueError
      end
  end.

End Strptime.

(** ** Dates and times of day *)

Record date : Type := mkdate { dyear : nat; dmonth : nat; dday : nat }.
Record time : Type := mktime { thour : nat; tminute : nat; tsecond : nat }.

(** [dt.date()] and [dt.time()] *)
Definition date_of (t : Strptime.datetime) : date :=
  mkdate (Strptime.year t) (Strptime.month t) (Strptime.day t).

Definition time_of (t : Strptime.datetime) : time :=
  mktime (Strptime.hour t) (Strptime.minute t) (Strptime.second t).

(** ** [parse_time_from_text] *)

(** The normalisation step: "7:5" becomes "07:05". *)
Definition normalise_time_text (s : string) : string :=
  if Py.contains ":" s then
    match Py.split ":" s with
    | [h; m] => Py.zfill2 h ++ ":" ++ Py.zfill2 m
    | _ => s
    end
  else s.

Definition parse_time_from_text (field_value : string) : result time :=
  let s := Py.strip field_value in
  let s := normalise_time_text s in
  rbind (Strptime.strptime s "%H:%M") (fun t => Ok (time_of t)).

(** The specification's notion of a text in the form HH:MM: exactly two digits,
    a colon, two digits, the hour below 24 and the minute below 60. *)
Definition hhmm (s : string) : option time :=
  match s with
  | String a (String b (String c (String d (String e EmptyString)))) =>
      match Py.digit a, Py.digit b, Py.digit d, Py.digit e with
      | Some x, Some y, Some z, Some w =>
          if Ascii.eqb c ":" && (10 * x + y <? 24) && (10 * z + w <? 60)
          then Some (mktime (10 * x + y) (10 * z + w) 0)
          else None
      | _, _, _, _ => None
      end
  | _ => None
  end.

(** ** [parse_date_str] and the rendering of dates

    Values met in the table are texts, numbers or the missing value
    [NaN].  A number is the rational its float holds, in canonical form,
    so that two cells are equal when their values are. *)

Inductive cell : Type :=
| Txt (s : string)
| Num (x : Qc)
| NaN.

(** [pd.isna(value)] *)
Definition isna (c : cell) : bool :=
  match c with
  | NaN => true
  | _ => false
  end.

(** The part of pandas and of Python's float formatting the program
    relies on, kept abstract: how a number is written as text, and what
    [read_csv] makes of the text fields of one column (its type inference
    works column by column).  Two facts are used: a column is read cell
    for cell, and an empty field is read as the missing value. *)
Class Pandas : Type := {
  float_str : Qc -> string;
  infer : list string -> list cell;
  infer_length : forall fs, List.length (infer fs) = List.length fs;
  infer_empty : forall fs i,
      nth_error fs i = Some EmptyString -> nth_error (infer fs) i = Some NaN
}.

(** [str(value)] *)
Definition py_str `{Pandas} (c : cell) : string :=
  match c with
  | Txt s => s
  | Num x => float_str x
  | NaN => "nan"
  end.

(** The loop over the formats: the first one that parses wins, a
    [ValueError] moves on to the next, anything else propagates. *)
Fixpoint try_formats (s : string) (fmts : list string) : result (option date) :=
  match fmts with
  | [] => Ok None
  | fmt :: fmts' =>
      match Strptime.strptime s fmt with
      | Ok t => Ok (Some (date_of t))
      | Raise ValueError => try_formats s fmts'
      | Raise e => Raise e
      end
  end.

Definition date_formats : list string := ["%Y-%m-%d"; "%d/%m/%Y"; "%d-%m-%Y"].

Definition parse_date_str `{Pandas} (today : date) (value : cell) : result date :=
  if isna value then Ok today
  else
    let s := Py.strip (py_str value) in
    rbind (try_formats s date_formats)
          (fun r => match r with
                    | Some d => Ok d
                    | None => Ok today
                    end).

(** [d.strftime("%Y-%m-%d")], the canonical form, and the two other
    renderings the parser accepts. *)
Definition to_canonical (d : date) : string :=
  Py.show4 (dyear d) ++ "-" ++ Py.show2 (dmonth d) ++ "-" ++ Py.show2 (dday d).

Definition render_dmy (sep : ascii) (d : date) : string :=
  Py.show2 (dday d) ++ String sep (Py.show2 (dmonth d) ++ String sep (Py.show4 (dyear d))).

Definition is_date (d : date) : bool :=
  Strptime.valid_date (dyear d) (dmonth d) (dday d).

(** [t.strftime("%H:%M")] *)
Definition strftime_HM (t : time) : string :=
  Py.show2 (thour t) ++ ":" ++ Py.show2 (tminute t).

(** ** Tables

    A [DataFrame] with the default integer index: the column labels and
    the rows in order, each row holding one cell per column.  The position
    of a row is its label, as after [reset_index(drop=True)]. *)

Definition COLUMNS : list string :=
  [ "date"; "heure"; "espece"; "taille_cm"; "poids"; "unite_poids"; "spot";
    "type_leurre"; "nom_leurre"; "conditions"; "remis_a_leau"; "commentaire";
    "photo_fichier" ].

Record DataFrame : Type := mkDF
  { columns : list string;
    rows : list (list cell) }.

Definition has_column (cols : list string) (c : string) : bool :=
  existsb (String.eqb c) cols.

Fixpoint index_of (c : string) (cols : list string) : option nat :=
  match cols with
  | [] => None
  | x :: xs => if String.eqb x c then Some 0 else option_map S (index_of c xs)
  end.

(** [row[c]] for a row laid out along [cols]. *)
Definition get (cols : list string) (r : list cell) (c : string) : result cell :=
  match index_of c cols with
  | Some j => Ok (nth j r NaN)
  | None => Raise KeyError
  end.

(** [df[c] = v] for a label [c] the table does not have yet: a new last
    column, the scalar [v] in every row. *)
Definition add_column (df : DataFrame) (c : string) (v : cell) : DataFrame :=
  mkDF (columns df ++ [c])%list (map (fun r => (r ++ [v])%list) (rows df)).

(** [df[cs]]: the columns [cs] in that order, [KeyError] if one is absent. *)
Definition select (df : DataFrame) (cs : list string) : result DataFrame :=
  if forallb (has_column (columns df)) cs then
    Ok (mkDF cs (map (fun r => map (fun c => match get (columns df) r c with
                                              | Ok v => v
                                              | Raise _ => NaN
                                              end) cs)
                     (rows df)))
  else Raise KeyError.

(** [pd.DataFrame(columns=COLUMNS)] *)
Definition empty_frame : DataFrame := mkDF COLUMNS [].

(** ** The persisted file

    The content of [carnet_prises.csv] as [to_csv(sep=";", index=False)]
    writes it and [read_csv(sep=";")] cuts it: a header line and the data
    lines, each a list of text fields.  Quoting of fields that contain the
    separator is below this level. *)

Record csv : Type := mkcsv
  { header : list string;
    lines : list (list string) }.

(** The text [to_csv] writes for a cell; the missing value is written as
    the empty field. *)
Definition field_text `{Pandas} (c : cell) : string :=
  match c with
  | Txt s => s
  | Num x => float_str x
  | NaN => EmptyString
  end.

Definition to_csv `{Pandas} (df : DataFrame) : csv :=
  mkcsv (columns df) (map (map field_text) (rows df)).

(** The fields of column [j], a short line counting as empty fields. *)
Definition column_texts (j : nat) (ls : list (list string)) : list string :=
  map (fun l => nth j l EmptyString) ls.

(** [pd.read_csv(DATA_FILE, sep=";", encoding="utf-8")] on a file that is
    a table: one row per line under the names of the header line, a short
    line being completed with missing values.  The files on which pandas
    does something else (it raises on a file without header line and on a
    line that is too long, skips blank lines, renames columns) are not
    tables of the program; [tabular] below says which files are. *)
Definition read_csv `{Pandas} (f : csv) : DataFrame :=
  let cols := map (fun j => infer (column_texts j (lines f)))
                  (seq 0 (List.length (header f))) in
  mkDF (header f)
       (map (fun i => map (fun col => nth i col NaN) cols)
            (seq 0 (List.length (lines f)))).

(** ** The world the program runs in *)

Inductive message : Type :=
| ErrStoreLocked       (* st.error: "Impossible d'ecrire dans le fichier ..." *)
| ErrHeureInvalideAdd  (* st.sidebar.error: "Heure invalide. ..." *)
| ErrHeureInvalideEdit (* st.error: "Heure invalide. ..." *)
| OkPriseEnregistree   (* st.sidebar.success *)
| OkPriseMiseAJour     (* st.success *)
| OkPriseSupprimee.    (* st.success *)

Record world : Type := mkworld
  { data_file : option csv;              (* carnet_prises.csv, if it exists *)
    writable : bool;                     (* can the file be written now? *)
    photo_files : list (string * string);(* files written: path, content *)
    cache : option DataFrame;            (* st.cache_data for load_data *)
    screen : list message }.             (* messages shown, oldest first *)

Definition set_data_file (f : option csv) (w : world) : world :=
  mkworld f (writable w) (photo_files w) (cache w) (screen w).

Definition set_cache (c : option DataFrame) (w : world) : world :=
  mkworld (data_file w) (writable w) (photo_files w) c (screen w).

Definition say (m : message) (w : world) : world :=
  mkworld (data_file w) (writable w) (photo_files w) (cache w) (screen w ++ [m])%list.

Definition write_file (path content : string) (w : world) : world :=
  mkworld (data_file w) (writable w) (photo_files w ++ [(path, content)])%list
          (cache w) (screen w).

(** Code that reads and changes the world and may raise; what was done
    before an exception stays done. *)
Definition M (A : Type) : Type := world -> result A * world.

Definition ret {A : Type} (a : A) : M A := fun w => (Ok a, w).

Definition bind {A B : Type} (m : M A) (k : A -> M B) : M B :=
  fun w => match m w with
           | (Ok a, w') => k a w'
           | (Raise e, w') => (Raise e, w')
           end.

Definition lift {A : Type} (r : result A) : M A := fun w => (r, w).

Definition update (f : world -> world) : M unit := fun w => (Ok tt, f w).

Notation "x <- m ;; k" := (bind m (fun x => k))
  (at level 61, m at next level, right associativity).
Notation "m ;;; k" := (bind m (fun _ => k))
  (at level 61, right associativity).

(** ** [load_data] and [save_data] *)

(** The loop that adds the missing columns. *)
Definition ensure_columns (df : DataFrame) : DataFrame :=
  fold_left (fun d col => if has_column (columns d) col then d
                          else add_column d col (Txt EmptyString))
            COLUMNS df.

(** The body of [load_data], run when the cache has no value. *)
Definition load_data_body `{Pandas} (file : option csv) : result DataFrame :=
  let df := match file with
            | Some f => read_csv f
            | None => empty_frame
            end in
  select (ensure_columns df) COLUMNS.

(** [load_data()] under [@st.cache_data]. *)
Definition load_data `{Pandas} : M DataFrame :=
  fun w => match cache w with
           | Some df => (Ok df, w)
           | None =>
               match load_data_body (data_file w) with
               | Ok df => (Ok df, set_cache (Some df) w)
               | Raise e => (Raise e, w)
               end
           end.

(** [st.cache_data.clear()] *)
Definition cache_clear : M unit := update (set_cache None).

(** [df.to_csv(DATA_FILE, sep=";", index=False, encoding="utf-8")]: the
    whole file is replaced, or [PermissionError] is raised and the file is
    left as it was. *)
Definition write_csv `{Pandas} (df : DataFrame) : M unit :=
  fun w => if writable w then (Ok tt, set_data_file (Some (to_csv df)) w)
           else (Raise PermissionError, w).

(** [save_data(df)]: a [PermissionError] is caught and shown as an error
    message; any other exception propagates. *)
Definition save_data `{Pandas} (df : DataFrame) : M unit :=
  fun w => match write_csv df w with
           | (Raise PermissionError, w') => (Ok tt, say ErrStoreLocked w')
           | r => r
           end.

(** ** The photo store *)

(** [pathlib.PurePosixPath]: whether the path starts at the root, and its
    components.  Empty components and "." are dropped when a text is read
    as a path, ".." is kept. *)
Module Path.

Record t : Type := mk { absolute : bool; parts : list string }.

Definition starts_with_slash (s : string) : bool :=
  match s with
  | String c _ => Ascii.eqb c "/"
  | EmptyString => false
  end.

Definition is_part (p : string) : bool :=
  negb (String.eqb p "" || String.eqb p ".").

Definition parse (s : string) : t :=
  mk (starts_with_slash s) (filter is_part (Py.split "/" s)).

(** [a / s] *)
Definition join (a : t) (s : string) : t :=
  let b := parse s in
  if absolute b then b else mk (absolute a) (parts a ++ parts b)%list.

(** [str(p)] *)
Definition str (p : t) : string :=
  match parts p with
  | [] => if absolute p then "/" else "."
  | ps => (if absolute p then "/" else "") ++ String.concat "/" ps
  end.

(** [p.parent] *)
Definition parent (p : t) : t := mk (absolute p) (removelast (parts p)).

End Path.

Definition PHOTOS_DIR : Path.t := Path.parse "photos".

Record upload : Type := mkupload
  { up_name : string;       (* file.name *)
    up_content : string }.  (* file.read() *)

(** [now.strftime("%Y%m%d_%H%M%S")], [now] being a reading of the clock:
    a year of four digits. *)
Definition strftime_stamp (now : Strptime.datetime) : string :=
  Py.show4 (Strptime.year now) ++ Py.show2 (Strptime.month now)
  ++ Py.show2 (Strptime.day now) ++ "_"
  ++ Py.show2 (Strptime.hour now) ++ Py.show2 (Strptime.minute now)
  ++ Py.show2 (Strptime.second now).

(** The path [enregistrer_photo] builds for an upload. *)
Definition photo_filepath (now : Strptime.datetime) (name : string) : Path.t :=
  let timestamp := strftime_stamp now in
  let safe_name := Py.replace " " "_" name in
  let filename := timestamp ++ "_" ++ safe_name in
  Path.join PHOTOS_DIR filename.

(** [enregistrer_photo(file)].  The directory "photos" exists, the program
    makes it when it starts, and takes a file under any name.  A path
    that leads through a directory below "photos" is written at all the
    same here, where [open] fails unless that directory exists: what is
    stated of the file written is stated of entries of "photos". *)
Definition enregistrer_photo (now : Strptime.datetime) (file : option upload)
  : M string :=
  match file with
  | None => ret ""
  | Some f =>
      let filepath := photo_filepath now (up_name f) in
      update (write_file (Path.str filepath) (up_content f)) ;;;
      ret (Path.str filepath)
  end.

(** ** The three actions of [main] *)

(** What the form holds when a button is pressed. *)
Record prise : Type := mkprise
  { p_date : date;
    p_heure_str : string;
    p_espece : string;
    p_taille : Qc;
    p_poids : Qc;
    p_unite_poids : string;
    p_spot : string;
    p_type_leurre : string;
    p_nom_leurre : string;
    p_conditions : string;
    p_remis_a_leau : string;
    p_commentaire : string;
    p_photo : option upload }.

(** The dictionary [new_row], and the values the edit form assigns. *)
Definition row_of (f : prise) (heure : time) (photo : cell)
  : list (string * cell) :=
  [ ("date", Txt (to_canonical (p_date f)));
    ("heure", Txt (strftime_HM heure));
    ("espece", Txt (p_espece f));
    ("taille_cm", Num (p_taille f));
    ("poids", Num (p_poids f));
    ("unite_poids", Txt (p_unite_poids f));
    ("spot", Txt (p_spot f));
    ("type_leurre", Txt (p_type_leurre f));
    ("nom_leurre", Txt (p_nom_leurre f));
    ("conditions", Txt (p_conditions f));
    ("remis_a_leau", Txt (p_remis_a_leau f));
    ("commentaire", Txt (p_commentaire f));
    ("photo_fichier", photo) ].

Fixpoint dict_get (c : string) (d : list (string * cell)) : cell :=
  match d with
  | [] => NaN
  | (k, v) :: d' => if String.eqb k c then v else dict_get c d'
  end.

(** [pd.concat([df, pd.DataFrame([row])], ignore_index=True)]: the columns
    of [df], then the keys of [row] it does not have; what a side lacks is
    the missing value. *)
Definition concat_row (df : DataFrame) (row : list (string * cell)) : DataFrame :=
  let extra := filter (fun c => negb (has_column (columns df) c)) (map fst row) in
  let cols := (columns df ++ extra)%list in
  mkDF cols
       (map (fun r => (r ++ map (fun _ => NaN) extra)%list) (rows df)
        ++ [map (fun c => dict_get c row) cols])%list.

Fixpoint update_at {A : Type} (i : nat) (f : A -> A) (l : list A) : list A :=
  match l, i with
  | [], _ => []
  | x :: l', 0 => f x :: l'
  | x :: l', S i' => x :: update_at i' f l'
  end.

(** [df.loc[i, c] = v] for a row [i] of the table (the edit form has read
    that row before); a column the table lacks is added.  The value is
    stored whatever the column holds, as pandas 2 does it; pandas 3
    refuses a value the type of the column cannot hold. *)
Definition set_loc (df : DataFrame) (i : nat) (c : string) (v : cell) : DataFrame :=
  let df := if has_column (columns df) c then df else add_column df c NaN in
  match index_of c (columns df) with
  | Some j => mkDF (columns df) (update_at i (update_at j (fun _ => v)) (rows df))
  | None => df
  end.

(** [df_with_idx[df_with_idx["id_interne"] == selected_id].iloc[0]] *)
Definition iloc0 (df : DataFrame) (selected_id : nat) : result (list cell) :=
  match nth_error (rows df) selected_id with
  | Some r => Ok r
  | None => Raise IndexError
  end.

Fixpoint remove_at {A : Type} (i : nat) (l : list A) : list A :=
  match l, i with
  | [], _ => []
  | _ :: l', 0 => l'
  | x :: l', S i' => x :: remove_at i' l'
  end.

(** [df.drop(index=i).reset_index(drop=True)] *)
Definition drop (df : DataFrame) (i : nat) : result DataFrame :=
  if i <? List.length (rows df) then Ok (mkDF (columns df) (remove_at i (rows df)))
  else Raise KeyError.

(** The block under the button "Enregistrer la prise". *)
Definition ajouter `{Pandas} (now : Strptime.datetime) (f : prise)
           (df : DataFrame) : M DataFrame :=
  match parse_time_from_text (p_heure_str f) with
  | Raise _ => update (say ErrHeureInvalideAdd) ;;; ret df
  | Ok heure_prise =>
      photo_path <- enregistrer_photo now (p_photo f) ;;
      let df := concat_row df (row_of f heure_prise (Txt photo_path)) in
      save_data df ;;;
      update (say OkPriseEnregistree) ;;;
      cache_clear ;;;
      load_data
  end.

(** The block under the button "Enregistrer les modifications". *)
Definition modifier `{Pandas} (now : Strptime.datetime) (selected_id : nat)
           (f : prise) (df : DataFrame) : M DataFrame :=
  row <- lift (iloc0 df selected_id) ;;
  match parse_time_from_text (p_heure_str f) with
  | Raise _ => update (say ErrHeureInvalideEdit) ;;; ret df
  | Ok heure_edit =>
      old <- lift (get (columns df) row "photo_fichier") ;;
      photo_path_edit <-
        match p_photo f with
        | None => ret old
        | Some _ => p <- enregistrer_photo now (p_photo f) ;; ret (Txt p)
        end ;;
      let df := fold_left (fun d cv => set_loc d selected_id (fst cv) (snd cv))
                          (row_of f heure_edit photo_path_edit) df in
      save_data df ;;;
      update (say OkPriseMiseAJour) ;;;
      cache_clear ;;;
      load_data
  end.

(** The block under the button "Supprimer cette prise"; the script is
    rerun afterwards and starts from [load_data] again. *)
Definition supprimer `{Pandas} (selected_id : nat) (df : DataFrame)
  : M DataFrame :=
  _ <- lift (iloc0 df selected_id) ;;
  df <- lift (drop df selected_id) ;;
  save_data df ;;;
  update (say OkPriseSupprimee) ;;;
  cache_clear ;;;
  ret df.

(** A run of [main] up to the end of an action: the table is loaded, then
    the block of the button pressed is run. *)
Definition main_ajouter `{Pandas} (now : Strptime.datetime) (f : prise)
  : M DataFrame :=
  df <- load_data ;; ajouter now f df.

Definition main_modifier `{Pandas} (now : Strptime.datetime) (selected_id : nat)
           (f : prise) : M DataFrame :=
  df <- load_data ;; modifier now selected_id f df.

Definition main_supprimer `{Pandas} (selected_id : nat) : M DataFrame :=
  df <- load_data ;; supprimer selected_id df.

(** ** Filters *)

Definition Qc_eqb (x y : Qc) : bool := Qeq_bool (this x) (this y).

(** Equality of two cells as values. *)
Definition cell_eqb (a b : cell) : bool :=
  match a, b with
  | Txt s, Txt t => String.eqb s t
  | Num x, Num y => Qc_eqb x y
  | NaN, NaN => true
  | _, _ => false
  end.

(** [value in values], as [Series.isin] tests it. *)
Definition isin (values : list cell) (c : cell) : bool :=
  existsb (cell_eqb c) values.

(** [df[df[col].isin(values)]] *)
Definition keep_isin (df : DataFrame) (col : string) (values : list cell)
  : result DataFrame :=
  match index_of col (columns df) with
  | Some j => Ok (mkDF (columns df)
                       (filter (fun r => isin values (nth j r NaN)) (rows df)))
  | None => Raise KeyError
  end.

(** One [if selection: filtered_df = ...] step: an empty selection leaves
    the table as it is. *)
Definition filter_step (col : string) (selection : list cell) (df : DataFrame)
  : result DataFrame :=
  match selection with
  | [] => Ok df
  | _ :: _ => keep_isin df col selection
  end.

(** The three filters of the list view. *)
Definition apply_filters (df : DataFrame)
           (espece_filter spot_filter leurre_filter : list cell)
  : result DataFrame :=
  rbind (filter_step "espece" espece_filter df) (fun d1 =>
  rbind (filter_step "spot" spot_filter d1) (fun d2 =>
  filter_step "nom_leurre" leurre_filter d2)).

(** ** Statistics by group *)

Record stat : Type := mkstat
  { group_key : cell;
    nb_prises : nat;
    taille_moy_cm : cell }.

(** The keys of [groupby]: the values of the column that are not missing,
    each once.  They are listed here in order of first appearance; pandas
    lists them by sorted key, which shows only among groups of equal count,
    where the order left by [sort_values] is unspecified. *)
Fixpoint group_keys (seen : list cell) (keys : list cell) : list cell :=
  match keys with
  | [] => []
  | k :: ks =>
      if isna k || existsb (cell_eqb k) seen then group_keys seen ks
      else k :: group_keys (k :: seen) ks
  end.

(** ["count"]: the cells that are not missing. *)
Definition count_notna (cells : list cell) : nat :=
  List.length (filter (fun c => negb (isna c)) cells).

Definition is_txt (c : cell) : bool :=
  match c with
  | Txt _ => true
  | _ => false
  end.

Fixpoint numbers (cells : list cell) : list Qc :=
  match cells with
  | [] => []
  | Num x :: cs => x :: numbers cs
  | _ :: cs => numbers cs
  end.

(** The arithmetic of [float64] the statistics use, kept abstract.  A
    number of the table is the rational its float holds.  [float_mean xs]
    is the mean of the floats [xs] of a group, [xs] not empty, as
    [groupby(...).agg("mean")] computes it: a sum in floating point,
    divided by the count.  [float_round1] is [round(1)] as numpy computes
    it.  Nothing is assumed of them. *)
Class Float64 : Type := {
  float_mean : list Qc -> Qc;
  float_round1 : Qc -> Qc
}.

(** ["mean"]: missing values are skipped, a group without a number has
    the missing value as mean, a text makes the aggregation fail. *)
Definition mean `{Float64} (cells : list cell) : result cell :=
  if existsb is_txt cells then Raise TypeError
  else match numbers cells with
       | [] => Ok NaN
       | xs => Ok (Num (float_mean xs))
       end.

(** [round(1)] on a cell. *)
Definition round1_cell `{Float64} (c : cell) : cell :=
  match c with
  | Num x => Num (float_round1 x)
  | _ => c
  end.

(** [sort_values("nb_prises", ascending=False)] *)
Fixpoint insert_desc (g : stat) (l : list stat) : list stat :=
  match l with
  | [] => [g]
  | h :: t => if nb_prises g <? nb_prises h then h :: insert_desc g t
              else g :: l
  end.

Definition sort_desc (l : list stat) : list stat := fold_right insert_desc [] l.

Fixpoint mapM {A B : Type} (f : A -> result B) (l : list A) : result (list B) :=
  match l with
  | [] => Ok []
  | x :: xs => rbind (f x) (fun y => rbind (mapM f xs) (fun ys => Ok (y :: ys)))
  end.

(** The rows of the group of key [k]. *)
Definition group_rows (j : nat) (k : cell) (rs : list (list cell))
  : list (list cell) :=
  filter (fun r => cell_eqb (nth j r NaN) k) rs.

(** [df.groupby(by).agg(nb_prises=("espece", "count"),
                       taille_moy_cm=("taille_cm", "mean"))
      .sort_values("nb_prises", ascending=False).round(1)] *)
Definition stats_par `{Float64} (by_col : string) (df : DataFrame)
  : result (list stat) :=
  match index_of by_col (columns df),
        index_of "espece" (columns df),
        index_of "taille_cm" (columns df) with
  | Some j, Some je, Some jt =>
      let keys := group_keys [] (map (fun r => nth j r NaN) (rows df)) in
      rbind
        (mapM (fun k =>
                 let g := group_rows j k (rows df) in
                 rbind (mean (map (fun r => nth jt r NaN) g)) (fun m =>
                 Ok (mkstat k (count_notna (map (fun r => nth je r NaN) g)) m)))
              keys)
        (fun agg =>
           Ok (map (fun s => mkstat (group_key s) (nb_prises s)
                                    (round1_cell (taille_moy_cm s)))
                   (sort_desc agg)))
  | _, _, _ => Raise KeyError
  end.

(** ** A reader of decimal columns

    An instance of the interface above, used to run the program on
    examples: numbers are written in decimal with at most six digits after
    the point, and a column is read as numbers when every field that is
    not empty is such a decimal, as texts otherwise. *)

Module DecimalReader.

Fixpoint digits_Z (acc : Z) (s : string) : option Z :=
  match s with
  | EmptyString => Some acc
  | String c s' =>
      match Py.digit c with
      | Some d => digits_Z (10 * acc + Z.of_nat d) s'
      | None => None
      end
  end.

Definition natural (s : string) : option Z :=
  match s with
  | EmptyString => None
  | _ => digits_Z 0 s
  end.

Definition unsigned (s : string) : option Qc :=
  match Py.split "." s with
  | [i] => option_map (fun v => Q2Qc (inject_Z v)) (natural i)
  | [i; f] =>
      match natural i, natural f with
      | Some vi, Some vf =>
          let scale := (10 ^ Z.of_nat (String.length f))%Z in
          Some (Q2Qc (Qmake (vi * scale + vf) (Z.to_pos scale)))
      | _, _ => None
      end
  | _ => None
  end.

Definition decimal (s : string) : option Qc :=
  match s with
  | String "-" s' => option_map Qcopp (unsigned s')
  | _ => unsigned s
  end.

Fixpoint fraction (fuel : nat) (r d : Z) : string :=
  match fuel with
  | 0 => EmptyString
  | S fuel' =>
      let r10 := (r * 10)%Z in
      String (Py.digit_char (Z.to_nat (r10 / d)))
             (if (r10 mod d =? 0)%Z then EmptyString
              else fraction fuel' (r10 mod d) d)
  end.

Definition show (x : Qc) : string :=
  let n := Qnum (this x) in
  let d := Zpos (Qden (this x)) in
  (if (n <? 0)%Z then "-" else "")
  ++ NilZero.string_of_uint (N.to_uint (Z.to_N (Z.abs n / d)))
  ++ "." ++ fraction 6 (Z.abs n mod d) d.

Definition read_text (s : string) : cell :=
  match s with
  | EmptyString => NaN
  | _ => Txt s
  end.

Definition read_number (s : string) : cell :=
  match decimal s with
  | Some x => Num x
  | None => NaN
  end.

Definition numeric_field (s : string) : bool :=
  match s with
  | EmptyString => true
  | _ => match decimal s with Some _ => true | None => false end
  end.

Definition infer_column (fs : list string) : list cell :=
  if forallb numeric_field fs then map read_number fs else map read_text fs.

End DecimalReader.

#[export, refine] Instance decimal_reader : Pandas :=
  {| float_str := DecimalReader.show;
     infer := DecimalReader.infer_column |}.
Proof.
  - intro fs. unfold DecimalReader.infer_column.
    destruct (forallb DecimalReader.numeric_field fs); apply length_map.
  - intros fs i E. unfold DecimalReader.infer_column.
    destruct (forallb DecimalReader.numeric_field fs);
      rewrite nth_error_map, E; reflexivity.
Defined.

(** ** Arithmetic without rounding errors

    An instance of [Float64], used to run the statistics on examples
    whose numbers float64 handles without a visible error: the mean is
    the exact quotient, and [round(1)] goes to the nearest tenth, a tie
    to the even one. *)

Module ExactArithmetic.

Definition Qc_sum (xs : list Qc) : Qc := fold_right Qcplus (Q2Qc 0) xs.

Definition Qc_of_nat (n : nat) : Qc := Q2Qc (inject_Z (Z.of_nat n)).

Definition quotient_mean (xs : list Qc) : Qc :=
  Qcdiv (Qc_sum xs) (Qc_of_nat (List.length xs)).

Definition round_half_even (x : Q) : Z :=
  let f := Qfloor x in
  match Qcompare (x - inject_Z f) (1 # 2) with
  | Lt => f
  | Gt => (f + 1)%Z
  | Eq => if Z.even f then f else (f + 1)%Z
  end.

Definition round1 (x : Qc) : Qc :=
  Q2Qc (inject_Z (round_half_even (this x * 10)) / 10).

End ExactArithmetic.

#[export] Instance exact_arithmetic : Float64 :=
  {| float_mean := ExactArithmetic.quotient_mean;
     float_round1 := ExactArithmetic.round1 |}.

(** ** Notions used in the statements, and examples *)

(** The matcher's backtracking: the second way is tried when the first
    fails. *)
Definition orelse {A : Type} (o1 o2 : option A) : option A :=
  match o1 with
  | Some a => Some a
  | None => o2
  end.

(** Two digits whose value passes the test [ok]. *)
Definition two_digits {A : Type} (ok : nat -> bool) (s : string)
           (k : string -> string -> option A) : option A :=
  match s with
  | String a (String b r) =>
      match Py.digit a, Py.digit b with
      | Some x, Some y =>
          if ok (10 * x + y) then k (String a (String b "")) r else None
      | _, _ => None
      end
  | _ => None
  end.

(** One digit that passes the test [ok]. *)
Definition one_digit {A : Type} (ok : nat -> bool) (s : string)
           (k : string -> string -> option A) : option A :=
  match s with
  | String a r =>
      match Py.digit a with
      | Some x => if ok x then k (String a "") r else None
      | None => None
      end
  | EmptyString => None
  end.

(** The last alternative of [%d]: a blank, then a digit from 1 to 9. *)
Definition blank_digit {A : Type} (s : string)
           (k : string -> string -> option A) : option A :=
  match s with
  | String a (String b r) =>
      if Ascii.eqb a " " then
        match Py.digit b with
        | Some y => if 1 <=? y then k (String a (String b "")) r else None
        | None => None
        end
      else None
  | _ => None
  end.

(** Four digits, the group of [%Y]. *)
Definition four_digits {A : Type} (s : string)
           (k : string -> string -> option A) : option A :=
  match s with
  | String a (String b (String c (String d r))) =>
      match Py.digit a, Py.digit b, Py.digit c, Py.digit d with
      | Some _, Some _, Some _, Some _ =>
          k (String a (String b (String c (String d "")))) r
      | _, _, _, _ => None
      end
  | _ => None
  end.

(** A text is normal when, cut at its only colon, both halves have at
    least two characters: what the padding step guarantees. *)
Definition normal (n : string) : Prop :=
  forall h m, Py.split ":" n = [h; m] ->
              2 <= String.length h /\ 2 <= String.length m.

(** The last character of a text is not a blank (or the text is empty). *)
Fixpoint ends_well (s : string) : bool :=
  match s with
  | EmptyString => true
  | String c EmptyString => negb (Py.isspace c)
  | String _ s' => ends_well s'
  end.

(** [df.loc[i, c]] read. *)
Definition cell_at (df : DataFrame) (i : nat) (c : string) : result cell :=
  match nth_error (rows df) i with
  | Some r => get (columns df) r c
  | None => Raise IndexError
  end.

(** Every row has one cell per column. *)
Definition well_formed (df : DataFrame) : Prop :=
  Forall (fun r => List.length r = List.length (columns df)) (rows df).

(** One turn of the loop of [load_data] over the canonical columns. *)
Definition ensure_step (d : DataFrame) (col : string) : DataFrame :=
  if has_column (columns d) col then d else add_column d col (Txt EmptyString).

(** The columns of [cs] that [cols] does not have. *)
Definition missing_in (cols : list string) (cs : list string) : list string :=
  filter (fun c => negb (has_column cols c)) cs.

(** A line [read_csv] skips: nothing on it, or blanks only. *)
Definition blank_line (l : list string) : bool :=
  match l with
  | [] => true
  | [s] => String.eqb (Py.strip s) ""
  | _ :: _ :: _ => false
  end.

Fixpoint distinct (names : list string) : bool :=
  match names with
  | [] => true
  | x :: xs => negb (has_column xs x) && distinct xs
  end.

(** The files [read_csv] reads as a table, line for line: the header line
    is not blank, its names are not empty and differ from one another, no
    data line is blank and none has more fields than the header. *)
Definition tabular (f : csv) : bool :=
  negb (blank_line (header f))
  && forallb (fun h => negb (String.eqb h "")) (header f)
  && distinct (header f)
  && forallb (fun l => negb (blank_line l)
                       && (List.length l <=? List.length (header f)))
             (lines f).

(** A file written before the weight columns existed. *)
Definition legacy_file : csv :=
  mkcsv ["espece"; "date"; "taille_cm"]
        [["Bar"; "2023-05-01"; "42.0"]; ["Lieu"; "2023-05-02"; ""]].

(** Example worlds and an example catch. *)
Definition locked_world : world := mkworld None false [] None [].

Definition fresh_world : world := mkworld None true [] None [].

Definition un_bar : prise :=
  mkprise (mkdate 2024 6 1) "06:30" "Bar" (Q2Qc 42) (Q2Qc (12 # 10)) "kg"
          "Le Havre" "Jig" "X" "" "Oui" "" None.

Definition midi : Strptime.datetime := Strptime.mkdatetime 2024 6 1 12 0 0.

(** The cells of the record built from the form, in canonical order. *)
Definition new_record (f : prise) (heure : time) (photo : cell) : list cell :=
  map snd (row_of f heure photo).

(** A catch entered with a time that does not exist, and a photo. *)
Definition heure_refusee : prise :=
  mkprise (mkdate 2024 6 1) "25:99" "Bar" (Q2Qc 42) (Q2Qc 1) "kg"
          "Le Havre" "Jig" "" "" "Oui" "" (Some (mkupload "bar.jpg" "JFIF")).

(** Three catches, two of them with a photo. *)
Definition trois_prises : DataFrame :=
  mkDF ["espece"; "photo_fichier"]
       [[Txt "Bar"; Txt "photos/a.jpg"]; [Txt "Lieu"; NaN];
        [Txt "Maquereau"; Txt "photos/c.jpg"]].

(** Whether a criterion lets a value through: an empty selection accepts
    everything, another one accepts its members. *)
Definition accepts (selection : list cell) (v : cell) : bool :=
  match selection with
  | [] => true
  | _ :: _ => isin selection v
  end.

(** Five catches in a table with the canonical columns. *)
Definition cinq_prises : DataFrame :=
  mkDF COLUMNS
       (map (fun p => [Txt "2024-06-01"; Txt "06:30"; Txt (fst p);
                       Num (Q2Qc 40); Num (Q2Qc 1); Txt "kg"; Txt (snd p);
                       Txt "Jig"; Txt "X"; NaN; Txt "Oui"; NaN; NaN])
            [("Bar", "Le Havre"); ("Lieu", "Etretat"); ("Bar", "Etretat");
             ("Maquereau", "Le Havre"); ("Bar", "Le Havre")]).

(** The mean of a group whose lengths are numbers or missing. *)
Definition mean_value `{Float64} (cells : list cell) : cell :=
  match numbers cells with
  | [] => NaN
  | xs => Num (float_mean xs)
  end.


(** [round(1)] on a line: the count is an integer and stays. *)
Definition round_stat `{Float64} (s : stat) : stat :=
  mkstat (group_key s) (nb_prises s) (round1_cell (taille_moy_cm s)).

(** The statistics of the group of key [k], before sorting and rounding. *)
Definition stat_of `{Float64} (j je jt : nat) (rs : list (list cell))
           (k : cell) : stat :=
  let g := group_rows j k rs in
  mkstat k (count_notna (map (fun r => nth je r NaN) g))
         (mean_value (map (fun r => nth jt r NaN) g)).


(** Eight catches: three at Etretat, five at Le Havre. *)
Definition huit_prises : DataFrame :=
  mkDF ["spot"; "espece"; "taille_cm"]
       [ [Txt "Etretat"; Txt "Bar"; Num (Q2Qc 40)];
         [Txt "Le Havre"; Txt "Bar"; Num (Q2Qc 41)];
         [Txt "Le Havre"; Txt "Lieu"; Num (Q2Qc 42)];
         [Txt "Etretat"; Txt "Bar"; Num (Q2Qc 43)];
         [Txt "Le Havre"; Txt "Bar"; Num (Q2Qc 44)];
         [Txt "Le Havre"; Txt "Bar"; Num (Q2Qc 45)];
         [Txt "Etretat"; Txt "Lieu"; Num (Q2Qc 47)];
         [Txt "Le Havre"; Txt "Bar"; Num (Q2Qc 47)] ].

(** The prefix put before the name: the time stamp and an underscore. *)
Definition stamp_ (now : Strptime.datetime) : string :=
  strftime_stamp now ++ "_".

(** A name of upload the file system takes in a file name: no NUL
    character in it, and at most 100 characters, so that with the stamp it
    stays below the 255 bytes an entry of a directory may have. *)
Definition storable (name : string) : bool :=
  negb (Py.contains "000" name) && (String.length name <=? 100).

(** ** [parse_time_str] and the values shown by the edit form *)

(** [datetime.strptime] as a whole: once the text is matched, the
    constructor of [datetime] checks the time of day.  The group of [%S]
    admits 60 and 61, which the constructor refuses. *)
Definition datetime_strptime (s fmt : string) : result Strptime.datetime :=
  rbind (Strptime.strptime s fmt)
        (fun t => if (Strptime.hour t <? 24) && (Strptime.minute t <? 60)
                     && (Strptime.second t <? 60)
                  then Ok t else Raise ValueError).

Fixpoint try_time_formats (s : string) (fmts : list string)
  : result (option time) :=
  match fmts with
  | [] => Ok None
  | fmt :: fmts' =>
      match datetime_strptime s fmt with
      | Ok t => Ok (Some (time_of t))
      | Raise ValueError => try_time_formats s fmts'
      | Raise e => Raise e
      end
  end.

Definition time_formats : list string := ["%H:%M"; "%H:%M:%S"].

(** [time(hour=now.hour, minute=now.minute)] *)
Definition clock_time (now : Strptime.datetime) : time :=
  mktime (Strptime.hour now) (Strptime.minute now) 0.

(** [value == ""] *)
Definition is_empty_text (c : cell) : bool :=
  match c with
  | Txt EmptyString => true
  | _ => false
  end.

Definition parse_time_str `{Pandas} (now : Strptime.datetime) (value : cell)
  : result time :=
  if isna value || is_empty_text value then Ok (clock_time now)
  else
    let s := Py.strip (py_str value) in
    rbind (try_time_formats s time_formats)
          (fun r => match r with
                    | Some t => Ok t
                    | None => Ok (clock_time now)
                    end).

(** [t.strftime("%H:%M:%S")], the form of a time of day with seconds. *)
Definition strftime_HMS (t : time) : string :=
  Py.show2 (thour t) ++ ":" ++ Py.show2 (tminute t) ++ ":" ++ Py.show2 (tsecond t).

(** A time of day the constructor of [time] accepts. *)
Definition is_time (t : time) : bool :=
  (thour t <? 24) && (tminute t <? 60) && (tsecond t <? 60).

(** ** The cache and the file agree *)

(** The table kept by [st.cache_data], when there is one, is what
    [load_data] would read from the file. *)
Definition coherent `{Pandas} (w : world) : Prop :=
  match cache w with
  | Some df => load_data_body (data_file w) = Ok df
  | None => True
  end.

(** The table after the thirteen assignments of the edit form. *)
Definition edited `{Pandas} (df : DataFrame) (selected_id : nat) (f : prise)
           (heure : time) (photo : cell) : DataFrame :=
  fold_left (fun d cv => set_loc d selected_id (fst cv) (snd cv))
            (row_of f heure photo) df.

(** ** The photo gallery *)

(** [filtered_df[filtered_df["photo_fichier"].astype(str) != ""]]: the
    rows the gallery shows. *)
Definition photos_df `{Pandas} (df : DataFrame) : result DataFrame :=
  match index_of "photo_fichier" (columns df) with
  | Some j =>
      Ok (mkDF (columns df)
               (filter (fun r => negb (String.eqb (py_str (nth j r NaN)) ""))
                       (rows df)))
  | None => Raise KeyError
  end.

(** ** The selector of the record to edit or delete *)

(** [str(n)] for an index label.  The labels of the table are the
    positions 0, 1, ...; [iterrows] hands them over as integers as long as
    some column of the table holds a text, which the date of a record
    is. *)
Definition str_int (n : nat) : string :=
  NilEmpty.string_of_uint (Nat.to_uint n).

(** The label of one option:
    [f'{id} | {date} {heure} - {espece} {taille_cm} cm à {spot}']. *)
Definition option_label `{Pandas} (cols : list string) (id : nat)
           (row : list cell) : result string :=
  rbind (get cols row "date") (fun d =>
  rbind (get cols row "heure") (fun h =>
  rbind (get cols row "espece") (fun e =>
  rbind (get cols row "taille_cm") (fun t =>
  rbind (get cols row "spot") (fun s =>
  Ok (str_int id ++ " | " ++ py_str d ++ " " ++ py_str h ++ " - "
      ++ py_str e ++ " " ++ py_str t ++ " cm " ++ String "224" " "
      ++ py_str s)))))).

(** [df.reset_index()]: the rows with their position in the table. *)
Definition reset_index (df : DataFrame) : list (nat * list cell) :=
  combine (seq 0 (List.length (rows df))) (rows df).

(** The list [options] of pairs of an id and a label. *)
Definition options `{Pandas} (df : DataFrame) : result (list (nat * string)) :=
  mapM (fun ir => rbind (option_label (columns df) (fst ir) (snd ir))
                        (fun l => Ok (fst ir, l)))
       (reset_index df).

(** The loop that finds the id of the label selected. *)
Fixpoint find_selected (options : list (nat * string)) (selected_label : string)
  : option nat :=
  match options with
  | [] => None
  | (id, label) :: rest =>
      if String.eqb label selected_label then Some id
      else find_selected rest selected_label
  end.

(** ** The list view *)

(** One [if selection: filtered_df = filtered_df[...isin(selection)]] step
    on rows that carry their index label: a mask keeps the label of each
    row it keeps. *)
Definition filter_step_labelled (cols : list string) (col : string)
           (selection : list cell) (rs : list (nat * list cell))
  : result (list (nat * list cell)) :=
  match selection with
  | [] => Ok rs
  | _ :: _ =>
      match index_of col cols with
      | Some j => Ok (filter (fun ir => isin selection (nth j (snd ir) NaN)) rs)
      | None => Raise KeyError
      end
  end.

(** [df_display]: the filtered rows without the photo column, each under
    its index label plus one. *)
Definition df_display (df : DataFrame)
           (espece_filter spot_filter leurre_filter : list cell)
  : result (list (nat * list cell)) :=
  rbind (filter_step_labelled (columns df) "espece" espece_filter
                              (reset_index df)) (fun r1 =>
  rbind (filter_step_labelled (columns df) "spot" spot_filter r1) (fun r2 =>
  rbind (filter_step_labelled (columns df) "nom_leurre" leurre_filter r2)
        (fun r3 =>
  match index_of "photo_fichier" (columns df) with
  | Some j => Ok (map (fun ir => (fst ir + 1, remove_at j (snd ir))) r3)
  | None => Raise KeyError
  end))).

(** ** The selectors of the edit form *)

(** What a [st.selectbox] or [st.radio] shows first: the option at
    [index]. *)
Definition selectbox (options : list string) (index : nat) : string :=
  nth index options "".

(** The types of lure; the fourth is "Créature". *)
Definition TYPES_LEURRE : list string :=
  ["Stickbait"; "Jig"; "Leurre souple";
   String "C" (String "r" (String "233" "ature")); "Autre"].

(** [options.index(x) if x in options else 0] *)
Definition index_or_first (options : list string) (x : string) : nat :=
  if existsb (String.eqb x) options then
    match index_of x options with
    | Some i => i
    | None => 0
    end
  else 0.

(** The unit, the type of lure and the release shown for a stored row. *)
Definition unite_poids_edit `{Pandas} (c : cell) : string :=
  selectbox ["kg"; "g"] (if String.eqb (py_str c) "kg" then 0 else 1).

Definition type_leurre_edit `{Pandas} (c : cell) : string :=
  selectbox TYPES_LEURRE (index_or_first TYPES_LEURRE (py_str c)).

Definition remis_edit `{Pandas} (c : cell) : string :=
  selectbox ["Oui"; "Non"] (if String.eqb (py_str c) "Oui" then 0 else 1).

(** [isinstance(row["photo_fichier"], str) and row["photo_fichier"]]: the
    test of the edit form for showing the photo of the record. *)
Definition photo_actuelle (c : cell) : bool :=
  match c with
  | Txt s => negb (String.eqb s "")
  | _ => false
  end.

(** ** Moments *)

(** A moment the calendar and the clock can show. *)
Definition in_range_moment (t : Strptime.datetime) : Prop :=
  Strptime.year t < 10 * 1000 /\ Strptime.month t < 100
  /\ Strptime.day t < 100 /\ Strptime.hour t < 100
  /\ Strptime.minute t < 100 /\ Strptime.second t < 100.

(** * Proofs *)

(** ** Characters as code points *)

Lemma ascii_eqb_nat (x y : ascii) :
  Ascii.eqb x y = (nat_of_ascii x =? nat_of_ascii y).
Proof.
  destruct (Ascii.eqb_spec x y) as [->|Hne].
  - now rewrite Nat.eqb_refl.
  - symmetry. apply Nat.eqb_neq. intro E. apply Hne.
    rewrite <- (ascii_nat_embedding x), <- (ascii_nat_embedding y).
    now rewrite E.
Qed.

Lemma digit_code (c : ascii) (x : nat) :
  Py.digit c = Some x <-> nat_of_ascii c = 48 + x /\ x <= 9.
Proof.
  unfold Py.digit.
  destruct ((48 <=? nat_of_ascii c) && (nat_of_ascii c <=? 57)) eqn:E.
  - apply andb_true_iff in E. destruct E as [E1 E2].
    apply Nat.leb_le in E1. apply Nat.leb_le in E2.
    split.
    + intro H. injection H as <-. lia.
    + intros [H1 H2]. f_equal. lia.
  - apply andb_false_iff in E.
    split; [discriminate|].
    intros [H1 H2].
    destruct E as [E|E]; apply Nat.leb_gt in E; lia.
Qed.

Lemma digit_none_code (c : ascii) :
  Py.digit c = None <-> nat_of_ascii c < 48 \/ 57 < nat_of_ascii c.
Proof.
  unfold Py.digit.
  destruct ((48 <=? nat_of_ascii c) && (nat_of_ascii c <=? 57)) eqn:E.
  - apply andb_true_iff in E. destruct E as [E1 E2].
    apply Nat.leb_le in E1. apply Nat.leb_le in E2.
    split; [discriminate | lia].
  - apply andb_false_iff in E. split; [|reflexivity].
    intros _. destruct E as [E|E]; apply Nat.leb_gt in E; lia.
Qed.

Lemma digit_char_code (x : nat) : x <= 9 -> nat_of_ascii (Py.digit_char x) = 48 + x.
Proof.
  intro H. unfold Py.digit_char. apply nat_ascii_embedding. lia.
Qed.

Lemma digit_digit_char (x : nat) : x <= 9 -> Py.digit (Py.digit_char x) = Some x.
Proof.
  intro H. apply digit_code. split; [now apply digit_char_code | exact H].
Qed.

(** Turning a test on a boolean into a fact of arithmetic. *)
Ltac props :=
  repeat match goal with
    | H : _ && _ = true |- _ => apply andb_true_iff in H; destruct H
    | H : _ || _ = false |- _ => apply orb_false_iff in H; destruct H
    | H : _ && _ = false |- _ => apply andb_false_iff in H; destruct H
    | H : _ || _ = true |- _ => apply orb_true_iff in H; destruct H
    | H : negb _ = true |- _ => apply negb_true_iff in H
    | H : negb _ = false |- _ => apply negb_false_iff in H
    | H : (_ <=? _) = true |- _ => apply Nat.leb_le in H
    | H : (_ <=? _) = false |- _ => apply Nat.leb_gt in H
    | H : (_ <? _) = true |- _ => apply Nat.ltb_lt in H
    | H : (_ <? _) = false |- _ => apply Nat.ltb_ge in H
    | H : (_ =? _) = true |- _ => apply Nat.eqb_eq in H
    | H : (_ =? _) = false |- _ => apply Nat.eqb_neq in H
    end.

(** The tests of a character class, as tests on the digit it holds. *)
Lemma rng_digit (lo hi : nat) (c : ascii) :
  lo <= 9 -> hi <= 9 ->
  Strptime.rng (Py.digit_char lo) (Py.digit_char hi) c =
  match Py.digit c with
  | Some x => (lo <=? x) && (x <=? hi)
  | None => false
  end.
Proof.
  intros Hlo Hhi. unfold Strptime.rng.
  rewrite !digit_char_code by assumption.
  destruct (Py.digit c) as [x|] eqn:E.
  - apply digit_code in E. destruct E as [-> _].
    destruct (lo <=? x) eqn:E1, (x <=? hi) eqn:E2;
      destruct (48 + lo <=? 48 + x) eqn:E3, (48 + x <=? 48 + hi) eqn:E4;
      try reflexivity; props; lia.
  - apply digit_none_code in E.
    destruct (48 + lo <=? nat_of_ascii c) eqn:E3,
             (nat_of_ascii c <=? 48 + hi) eqn:E4;
      try reflexivity; props; lia.
Qed.

Lemma chr_digit (x : nat) (c : ascii) :
  x <= 9 ->
  Ascii.eqb c (Py.digit_char x) =
  match Py.digit c with
  | Some y => y =? x
  | None => false
  end.
Proof.
  intro Hx. rewrite ascii_eqb_nat, digit_char_code by assumption.
  destruct (Py.digit c) as [y|] eqn:E.
  - apply digit_code in E. destruct E as [-> _].
    destruct (y =? x) eqn:E1, (48 + y =? 48 + x) eqn:E2;
      try reflexivity; props; lia.
  - apply digit_none_code in E.
    destruct (nat_of_ascii c =? 48 + x) eqn:E2; try reflexivity; props; lia.
Qed.

Lemma isdigit_digit (c : ascii) :
  Py.isdigit c = match Py.digit c with Some _ => true | None => false end.
Proof. reflexivity. Qed.

(** A character that is not a digit, met where a digit is tested. *)
Lemma not_digit_eqb (c : ascii) (x : nat) (k : ascii) :
  Py.digit c = Some x -> Py.digit k = None -> Ascii.eqb c k = false.
Proof.
  intros Hc Hk. destruct (Ascii.eqb_spec c k) as [->|]; congruence.
Qed.

(** ** What the groups of the directives match

    Each group is rewritten as a test on the digits it reads: two digits
    whose value passes a test, or else one digit.  [orelse] is the
    matcher's backtracking. *)

Ltac break_once :=
  match goal with
  | |- context [if ?b then _ else _] =>
      let E := fresh "E" in destruct b eqn:E; props; try lia
  end.

Ltac digits_of :=
  repeat match goal with
    | |- context [Py.digit ?c] =>
        is_var c;
        let x := fresh "x" in
        let E := fresh "D" in
        destruct (Py.digit c) as [x|] eqn:E;
        [ pose proof (proj2 (proj1 (digit_code c x) E)) | ];
        clear E
    end.

Ltac as_digit_tests :=
  change "0"%char with (Py.digit_char 0);
  change "1"%char with (Py.digit_char 1);
  change "2"%char with (Py.digit_char 2);
  change "3"%char with (Py.digit_char 3);
  change "5"%char with (Py.digit_char 5);
  change "6"%char with (Py.digit_char 6);
  change "9"%char with (Py.digit_char 9);
  rewrite ?chr_digit, ?rng_digit, ?isdigit_digit by lia.

Lemma exec_dH {A : Type} (s : string) (k : string -> string -> option A) :
  Strptime.exec (Strptime.regex_of Strptime.dH) s k =
  orelse (two_digits (fun v => v <? 24) s k) (one_digit (fun _ => true) s k).
Proof.
  unfold orelse, two_digits, one_digit.
  destruct s as [|a [|b r]]; cbn [Strptime.regex_of Strptime.exec Strptime.D];
    as_digit_tests; digits_of; cbn [String.append]; repeat break_once;
    try reflexivity;
    try (destruct (k _ _); reflexivity).
Qed.

Lemma exec_dM {A : Type} (s : string) (k : string -> string -> option A) :
  Strptime.exec (Strptime.regex_of Strptime.dM) s k =
  orelse (two_digits (fun v => v <? 60) s k) (one_digit (fun _ => true) s k).
Proof.
  unfold orelse, two_digits, one_digit.
  destruct s as [|a [|b r]]; cbn [Strptime.regex_of Strptime.exec Strptime.D];
    as_digit_tests; digits_of; cbn [String.append]; repeat break_once;
    try reflexivity;
    try (destruct (k _ _); reflexivity).
Qed.

Lemma exec_dm {A : Type} (s : string) (k : string -> string -> option A) :
  Strptime.exec (Strptime.regex_of Strptime.dm) s k =
  orelse (two_digits (fun v => (1 <=? v) && (v <=? 12)) s k)
         (one_digit (fun x => 1 <=? x) s k).
Proof.
  unfold orelse, two_digits, one_digit.
  destruct s as [|a [|b r]]; cbn [Strptime.regex_of Strptime.exec Strptime.D];
    as_digit_tests; digits_of; cbn [String.append]; repeat break_once;
    try reflexivity;
    try (destruct (k _ _); reflexivity).
Qed.

Lemma blank_not_digit : Py.digit " " = None.
Proof. reflexivity. Qed.

Lemma exec_dd {A : Type} (s : string) (k : string -> string -> option A) :
  Strptime.exec (Strptime.regex_of Strptime.dd) s k =
  orelse (two_digits (fun v => (1 <=? v) && (v <=? 31)) s k)
         (orelse (one_digit (fun x => 1 <=? x) s k) (blank_digit s k)).
Proof.
  unfold orelse, two_digits, one_digit, blank_digit.
  destruct s as [|a [|b r]]; cbn [Strptime.regex_of Strptime.exec Strptime.D];
    as_digit_tests.
  - reflexivity.
  - destruct (Py.digit a) as [x|] eqn:D; [|destruct (Ascii.eqb a " "); reflexivity].
    pose proof (proj2 (proj1 (digit_code a x) D)).
    repeat break_once; try reflexivity.
  - destruct (Py.digit a) as [x|] eqn:D.
    + rewrite (not_digit_eqb a x " " D blank_not_digit).
      pose proof (proj2 (proj1 (digit_code a x) D)). clear D.
      digits_of; cbn [String.append]; repeat break_once;
        try reflexivity; try (destruct (k _ _); reflexivity).
    + destruct (Ascii.eqb a " "); [|reflexivity].
      digits_of; cbn [String.append]; repeat break_once; reflexivity.
Qed.

Lemma exec_dY {A : Type} (s : string) (k : string -> string -> option A) :
  Strptime.exec (Strptime.regex_of Strptime.dY) s k = four_digits s k.
Proof.
  unfold four_digits.
  destruct s as [|a [|b [|c [|d r]]]];
    cbn [Strptime.regex_of Strptime.exec Strptime.D];
    rewrite ?isdigit_digit;
    repeat match goal with
      | |- context [Py.digit ?c] => is_var c; destruct (Py.digit c)
      end; reflexivity.
Qed.

(** ** [split] and [zfill] *)

Lemma split_not_nil (c : ascii) (s : string) : Py.split c s <> [].
Proof.
  destruct s as [|a s]; cbn; [discriminate|].
  destruct (Ascii.eqb a c); [discriminate|].
  destruct (Py.split c s); discriminate.
Qed.

Lemma split_without (c : ascii) (s : string) :
  Py.contains c s = false -> Py.split c s = [s].
Proof.
  induction s as [|a s IH]; cbn; [reflexivity|].
  intro H. apply orb_false_iff in H. destruct H as [H1 H2].
  rewrite H1, (IH H2). reflexivity.
Qed.

Lemma split_parts (c : ascii) (s : string) (p : string) :
  In p (Py.split c s) -> Py.contains c p = false.
Proof.
  revert p. induction s as [|a s IH]; cbn; intros p H.
  - destruct H as [<-|[]]. reflexivity.
  - destruct (Ascii.eqb a c) eqn:E.
    + destruct H as [<-|H]; [reflexivity | now apply IH].
    + destruct (Py.split c s) as [|q qs] eqn:S.
      * destruct H as [<-|[]]. cbn. now rewrite E.
      * destruct H as [<-|H].
        -- cbn. rewrite E. apply IH. now left.
        -- apply IH. now right.
Qed.

Lemma split_app (c : ascii) (a b : string) :
  Py.contains c a = false ->
  Py.split c (a ++ String c b) = a :: Py.split c b.
Proof.
  induction a as [|x a IH]; cbn; intro H.
  - now rewrite Ascii.eqb_refl.
  - apply orb_false_iff in H. destruct H as [H1 H2].
    rewrite H1, (IH H2). reflexivity.
Qed.

Lemma zfill2_length (s : string) : 2 <= String.length (Py.zfill2 s).
Proof.
  destruct s as [|a [|b s]]; cbn; try lia.
  destruct (Ascii.eqb a "+" || Ascii.eqb a "-"); cbn; lia.
Qed.

Lemma zfill2_without (s : string) :
  Py.contains ":" s = false -> Py.contains ":" (Py.zfill2 s) = false.
Proof.
  destruct s as [|a [|b s]]; cbn; intro H; try reflexivity; try exact H.
  destruct (Ascii.eqb a "+" || Ascii.eqb a "-"); cbn; rewrite ?orb_false_r in *;
    now rewrite ?H.
Qed.

(** ** The strict time parser *)

Lemma normalise_time_text_normal (s : string) : normal (normalise_time_text s).
Proof.
  unfold normal, normalise_time_text. intros h m.
  destruct (Py.contains ":" s) eqn:C.
  - destruct (Py.split ":" s) as [|p0 [|p1 [|p2 ps]]] eqn:S.
    + now rewrite S.
    + now rewrite S.
    + assert (H0 : Py.contains ":" p0 = false)
        by (apply (split_parts ":" s); rewrite S; now left).
      assert (H1 : Py.contains ":" p1 = false)
        by (apply (split_parts ":" s); rewrite S; right; now left).
      change (Py.zfill2 p0 ++ ":" ++ Py.zfill2 p1)
        with (Py.zfill2 p0 ++ String ":" (Py.zfill2 p1)).
      rewrite split_app by now apply zfill2_without.
      rewrite split_without by now apply zfill2_without.
      intro E. injection E as <- <-.
      split; apply zfill2_length.
    + now rewrite S.
  - rewrite split_without by assumption. discriminate.
Qed.

Lemma colon_not_digit : Py.digit ":" = None.
Proof. reflexivity. Qed.

Lemma valid_1900 : Strptime.valid_date 1900 1 1 = true.
Proof. reflexivity. Qed.

Ltac classify_chars :=
  repeat match goal with
    | |- context [Py.digit ?c] =>
        is_var c;
        let x := fresh "x" in
        let E := fresh "D" in
        destruct (Py.digit c) as [x|] eqn:E;
        [ pose proof (proj2 (proj1 (digit_code c x) E));
          pose proof (not_digit_eqb c x ":" E colon_not_digit) | ]
    end.

Ltac hm_step :=
  first
    [ progress cbn [rbind Py.int Py.int_acc Strptime.set_field time_of
                    Strptime.year Strptime.month Strptime.day
                    Strptime.hour Strptime.minute Strptime.second
                    Strptime.defaults]
    | rewrite valid_1900
    | rewrite exec_dM; unfold orelse, two_digits, one_digit
    | match goal with
      | E : Ascii.eqb ?c ":" = _ |- context [Ascii.eqb ?c ":"] => rewrite E
      | E : Py.digit ?c = _ |- context [Py.digit ?c] => rewrite E
      end
    | progress classify_chars
    | match goal with
      | |- context [if Ascii.eqb ?c ":" then _ else _] =>
          let E := fresh "C" in destruct (Ascii.eqb c ":") eqn:E
      end
    | break_once ].

(** In a leaf where the parser accepted a text that is not normal. *)
Ltac by_normal H :=
  exfalso; cbn [Py.split] in H;
  repeat match type of H with
    | context [Ascii.eqb ?c ":"] =>
        match goal with
        | E : Ascii.eqb c ":" = _ |- _ => rewrite E in H
        end
    end;
  specialize (H _ _ eq_refl); cbn in H; lia.

Lemma strptime_HM_normal (n : string) :
  normal n ->
  rbind (Strptime.strptime n "%H:%M") (fun t => Ok (time_of t)) =
  match hhmm n with
  | Some t => Ok t
  | None => Raise ValueError
  end.
Proof.
  intro H. unfold normal in H. unfold Strptime.strptime.
  change (Strptime.compile "%H:%M")
    with (Some [Strptime.Dir Strptime.dH; Strptime.Lit ":"; Strptime.Dir Strptime.dM]).
  cbn [Strptime.exec_format]. rewrite exec_dH.
  unfold orelse, two_digits, one_digit, hhmm.
  destruct n as [|a [|b [|c [|d [|e [|f r]]]]]].
  1: reflexivity.
  all: repeat hm_step; try reflexivity; try congruence.
  all: try (f_equal; f_equal; lia).
  all: try by_normal H.
Qed.

(** C3: [parse_time_from_text] pads the two halves of the text with
    zeros and then accepts exactly the texts of the form HH:MM: "7:5"
    is read as "07:05", and when the padded text is not a valid HH:MM
    (as "25:99") the call raises [ValueError], the program's
    InvalidTimeFormat. *)
Theorem parse_time_from_text_strict :
  parse_time_from_text "7:5" = Ok (mktime 7 5 0)
  /\ parse_time_from_text "7:5" = parse_time_from_text "07:05"
  /\ normalise_time_text (Py.strip "7:5") = "07:05"
  /\ parse_time_from_text "25:99" = Raise ValueError
  /\ forall s : string,
       parse_time_from_text s =
       match hhmm (normalise_time_text (Py.strip s)) with
       | Some t => Ok t
       | None => Raise ValueError
       end.
Proof.
  repeat split; try reflexivity.
  intro s. unfold parse_time_from_text.
  apply strptime_HM_normal, normalise_time_text_normal.
Qed.

(** ** Dates: reading back what [strftime] writes *)

Lemma mod10_le9 (n : nat) : n mod 10 <= 9.
Proof. pose proof (Nat.mod_upper_bound n 10). lia. Qed.

Lemma digit_show (n : nat) :
  Py.digit (Py.digit_char (n mod 10)) = Some (n mod 10).
Proof. apply digit_digit_char, mod10_le9. Qed.

Lemma digits2 (v : nat) : v < 100 -> 10 * (v / 10 mod 10) + v mod 10 = v.
Proof.
  intro H.
  pose proof (Nat.div_mod_eq v 10). pose proof (Nat.mod_upper_bound v 10).
  assert (v / 10 < 10) by (apply Nat.Div0.div_lt_upper_bound; lia).
  rewrite (Nat.mod_small (v / 10)) by lia. lia.
Qed.

Lemma digits4 (y : nat) :
  y < 10 * 1000 ->
  10 * (10 * (10 * (10 * 0 + y / 1000 mod 10) + y / 100 mod 10)
        + y / 10 mod 10) + y mod 10 = y.
Proof.
  intro H.
  pose proof (Nat.div_mod_eq y 10).
  pose proof (Nat.div_mod_eq (y / 10) 10).
  pose proof (Nat.div_mod_eq (y / 10 / 10) 10).
  pose proof (Nat.mod_upper_bound y 10).
  pose proof (Nat.mod_upper_bound (y / 10) 10).
  pose proof (Nat.mod_upper_bound (y / 10 / 10) 10).
  replace (y / 100) with (y / 10 / 10)
    by (rewrite Nat.Div0.div_div; reflexivity).
  replace (y / 1000) with (y / 10 / 10 / 10)
    by (rewrite !Nat.Div0.div_div; reflexivity).
  assert (y / 10 / 10 / 10 < 10)
    by (rewrite !Nat.Div0.div_div; apply Nat.Div0.div_lt_upper_bound;
        simpl; lia).
  rewrite (Nat.mod_small (y / 10 / 10 / 10)) by lia.
  lia.
Qed.

Lemma int_show2 (v : nat) : v < 100 -> Py.int (Py.show2 v) = v.
Proof.
  intro H. unfold Py.int, Py.show2. cbn [Py.int_acc].
  rewrite !digit_show. rewrite <- (digits2 v H) at 3. lia.
Qed.

Lemma int_show4 (y : nat) : y < 10 * 1000 -> Py.int (Py.show4 y) = y.
Proof.
  intro H. unfold Py.int, Py.show4, Py.show2. cbn [Py.int_acc].
  rewrite !digit_show. apply (digits4 y H).
Qed.

Lemma two_digits_chars {A : Type} (ok : nat -> bool) (v : nat) (r : string)
      (k : string -> string -> option A) :
  v < 100 -> ok v = true ->
  two_digits ok (String (Py.digit_char (v / 10 mod 10))
                   (String (Py.digit_char (v mod 10)) r)) k
  = k (Py.show2 v) r.
Proof.
  intros Hv Hok. unfold two_digits.
  rewrite !digit_show, (digits2 v Hv), Hok. reflexivity.
Qed.

Lemma four_digits_chars {A : Type} (y : nat) (r : string)
      (k : string -> string -> option A) :
  four_digits (String (Py.digit_char (y / 1000 mod 10))
                 (String (Py.digit_char (y / 100 mod 10))
                    (String (Py.digit_char (y / 10 mod 10))
                       (String (Py.digit_char (y mod 10)) r)))) k
  = k (Py.show4 y) r.
Proof.
  unfold four_digits. rewrite !digit_show. reflexivity.
Qed.

Lemma in_range (lo hi v : nat) :
  lo <= v <= hi -> (lo <=? v) && (v <=? hi) = true.
Proof.
  intro H. apply andb_true_iff. split; apply Nat.leb_le; lia.
Qed.

Lemma valid_date_bounds (y m d : nat) :
  Strptime.valid_date y m d = true ->
  y < 10 * 1000 /\ 1 <= m <= 12 /\ 1 <= d <= 31.
Proof.
  unfold Strptime.valid_date. intro H. props.
  repeat split; try lia.
  assert (Strptime.days_in_month y m <= 31); [|lia].
  unfold Strptime.days_in_month.
  do 12 (destruct m as [|m]; [destruct (Strptime.is_leap y); lia|]).
  lia.
Qed.

Ltac open_format :=
  unfold to_canonical, render_dmy, Py.show4, Py.show2;
  cbn [String.append Strptime.exec_format dyear dmonth dday].

Ltac read_field :=
  first
    [ rewrite exec_dY, four_digits_chars
    | rewrite exec_dm; unfold orelse at 1;
      rewrite two_digits_chars by (try apply in_range; lia)
    | rewrite exec_dd; unfold orelse at 1;
      rewrite two_digits_chars by (try apply in_range; lia) ];
  cbn [Ascii.eqb Bool.eqb Strptime.exec_format].

Ltac close_format V :=
  rewrite ?int_show2, ?int_show4 by lia;
  cbn [Strptime.set_field Strptime.defaults Strptime.year Strptime.month
       Strptime.day Strptime.hour Strptime.minute Strptime.second];
  rewrite V; reflexivity.

Lemma strptime_canonical (d : date) :
  is_date d = true ->
  Strptime.strptime (to_canonical d) "%Y-%m-%d" =
  Ok (Strptime.mkdatetime (dyear d) (dmonth d) (dday d) 0 0 0).
Proof.
  destruct d as [y m dd]. unfold is_date. cbn [dyear dmonth dday].
  intro V. destruct (valid_date_bounds _ _ _ V) as (Hy & Hm & Hd).
  unfold Strptime.strptime.
  change (Strptime.compile "%Y-%m-%d")
    with (Some [Strptime.Dir Strptime.dY; Strptime.Lit "-";
                Strptime.Dir Strptime.dm; Strptime.Lit "-";
                Strptime.Dir Strptime.dd]).
  open_format. do 3 read_field. close_format V.
Qed.

Lemma strptime_dmy (sep : ascii) (fmt : string) (d : date) :
  Strptime.compile fmt =
    Some [Strptime.Dir Strptime.dd; Strptime.Lit sep;
          Strptime.Dir Strptime.dm; Strptime.Lit sep;
          Strptime.Dir Strptime.dY] ->
  is_date d = true ->
  Strptime.strptime (render_dmy sep d) fmt =
  Ok (Strptime.mkdatetime (dyear d) (dmonth d) (dday d) 0 0 0).
Proof.
  destruct d as [y m dd]. unfold is_date. cbn [dyear dmonth dday].
  intros F V. destruct (valid_date_bounds _ _ _ V) as (Hy & Hm & Hd).
  unfold Strptime.strptime. rewrite F.
  open_format. read_field. rewrite Ascii.eqb_refl.
  cbn [Strptime.exec_format]. read_field. rewrite Ascii.eqb_refl.
  cbn [Strptime.exec_format]. read_field. close_format V.
Qed.

Lemma digit_char_is_not (n : nat) (c : ascii) :
  Py.digit c = None -> Ascii.eqb (Py.digit_char (n mod 10)) c = false.
Proof.
  intro H. exact (not_digit_eqb _ _ c (digit_show n) H).
Qed.

Lemma strptime_ymd_rejects_dmy (sep : ascii) (d : date) :
  Py.digit sep = None ->
  Strptime.strptime (render_dmy sep d) "%Y-%m-%d" = Raise ValueError.
Proof.
  intro H. unfold Strptime.strptime.
  change (Strptime.compile "%Y-%m-%d")
    with (Some [Strptime.Dir Strptime.dY; Strptime.Lit "-";
                Strptime.Dir Strptime.dm; Strptime.Lit "-";
                Strptime.Dir Strptime.dd]).
  open_format. rewrite exec_dY. unfold four_digits.
  rewrite !digit_show, H. reflexivity.
Qed.

Lemma strptime_slash_rejects_dash (d : date) :
  is_date d = true ->
  Strptime.strptime (render_dmy "-" d) "%d/%m/%Y" = Raise ValueError.
Proof.
  destruct d as [y m dd]. unfold is_date. cbn [dyear dmonth dday].
  intro V. destruct (valid_date_bounds _ _ _ V) as (Hy & Hm & Hd).
  unfold Strptime.strptime.
  change (Strptime.compile "%d/%m/%Y")
    with (Some [Strptime.Dir Strptime.dd; Strptime.Lit "/";
                Strptime.Dir Strptime.dm; Strptime.Lit "/";
                Strptime.Dir Strptime.dY]).
  open_format. rewrite exec_dd. unfold orelse.
  rewrite two_digits_chars by (try apply in_range; lia).
  cbn [Ascii.eqb Bool.eqb Strptime.exec_format].
  unfold one_digit, blank_digit. rewrite !digit_show.
  rewrite (digit_char_is_not (dd / 10) " ") by reflexivity.
  cbn [Strptime.exec_format].
  rewrite (digit_char_is_not dd "/") by reflexivity.
  destruct (1 <=? dd / 10 mod 10); reflexivity.
Qed.

Lemma try_formats_total (s : string) (fmts : list string) :
  exists r, try_formats s fmts = Ok r.
Proof.
  induction fmts as [|f fmts IH]; cbn.
  - now exists None.
  - unfold Strptime.strptime.
    destruct (Strptime.compile f) as [items|]; [|exact IH].
    destruct (Strptime.exec_format items s Strptime.defaults)
      as [[t [|c r]]|]; try exact IH.
    destruct (Strptime.valid_date _ _ _); [|exact IH].
    now exists (Some (date_of t)).
Qed.

Lemma digit_not_space (c : ascii) (x : nat) :
  Py.digit c = Some x -> Py.isspace c = false.
Proof.
  intro H. apply digit_code in H. destruct H as [H ?].
  unfold Py.isspace. cbv zeta. rewrite H.
  destruct (9 <=? 48 + x) eqn:E1, (48 + x <=? 13) eqn:E2,
    (28 <=? 48 + x) eqn:E3, (48 + x <=? 32) eqn:E4,
    (48 + x =? 133) eqn:E5, (48 + x =? 160) eqn:E6;
    try reflexivity; props; lia.
Qed.

Lemma digit_char_not_space (n : nat) :
  Py.isspace (Py.digit_char (n mod 10)) = false.
Proof. exact (digit_not_space _ _ (digit_show n)). Qed.

Lemma rstrip_ends_well (s : string) : ends_well s = true -> Py.rstrip s = s.
Proof.
  induction s as [|c s IH]; [reflexivity|].
  destruct s as [|c' s'].
  - cbn. intro H. apply negb_true_iff in H. now rewrite H.
  - intro H. change (ends_well (String c' s') = true) in H.
    cbn [Py.rstrip] in *. rewrite (IH H). reflexivity.
Qed.

Lemma strip_rendered (c : ascii) (s : string) :
  Py.isspace c = false -> ends_well (String c s) = true ->
  Py.strip (String c s) = String c s.
Proof.
  intros Hc He. unfold Py.strip. cbn [Py.lstrip]. rewrite Hc.
  now apply rstrip_ends_well.
Qed.

Lemma strip_to_canonical (d : date) : Py.strip (to_canonical d) = to_canonical d.
Proof.
  unfold to_canonical, Py.show4, Py.show2. cbn [String.append].
  apply strip_rendered; [apply digit_char_not_space|].
  cbn [ends_well]. now rewrite digit_char_not_space.
Qed.

Lemma strip_render_dmy (sep : ascii) (d : date) :
  Py.strip (render_dmy sep d) = render_dmy sep d.
Proof.
  unfold render_dmy, Py.show4, Py.show2. cbn [String.append].
  apply strip_rendered; [apply digit_char_not_space|].
  cbn [ends_well]. now rewrite digit_char_not_space.
Qed.

Section ParseDate.
Context `{Pandas}.

(** C8: a date rendered as YYYY-MM-DD (the canonical form), DD/MM/YYYY or
    DD-MM-YYYY is read back as that very date; a missing value, the empty
    text and any value none of the three formats accepts give today's
    date; the function never raises. *)
Theorem parse_date_str_round_trip (today : date) :
  (forall d : date,
      is_date d = true ->
      parse_date_str today (Txt (to_canonical d)) = Ok d
      /\ parse_date_str today (Txt (render_dmy "/" d)) = Ok d
      /\ parse_date_str today (Txt (render_dmy "-" d)) = Ok d)
  /\ parse_date_str today NaN = Ok today
  /\ parse_date_str today (Txt "") = Ok today
  /\ (forall v : cell,
         (forall fmt, In fmt date_formats ->
                      Strptime.strptime (Py.strip (py_str v)) fmt = Raise ValueError) ->
         parse_date_str today v = Ok today)
  /\ (forall v : cell, exists d, parse_date_str today v = Ok d).
Proof.
  split; [|split; [|split; [|split]]].
  - intros d V. unfold parse_date_str. cbn [isna py_str].
    rewrite strip_to_canonical, !strip_render_dmy.
    unfold date_formats. cbn [try_formats].
    rewrite (strptime_canonical d V).
    rewrite !(strptime_ymd_rejects_dmy) by reflexivity.
    rewrite (strptime_dmy "/" "%d/%m/%Y" d eq_refl V).
    rewrite (strptime_slash_rejects_dash d V).
    rewrite (strptime_dmy "-" "%d-%m-%Y" d eq_refl V).
    destruct d. repeat split; reflexivity.
  - reflexivity.
  - reflexivity.
  - intros v Hv. unfold parse_date_str.
    destruct (isna v); [reflexivity|].
    unfold date_formats in *. cbn [try_formats].
    rewrite !Hv by (cbn; auto). reflexivity.
  - intro v. unfold parse_date_str.
    destruct (isna v); [now exists today|].
    destruct (try_formats_total (Py.strip (py_str v)) date_formats) as [r ->].
    destruct r as [d|]; [now exists d | now exists today].
Qed.

End ParseDate.

Lemma parse_date_str_round_trip_witness :
  parse_date_str (mkdate 2025 1 15) (Txt "2024-06-01") = Ok (mkdate 2024 6 1)
  /\ parse_date_str (mkdate 2025 1 15) (Txt "29/02/2024") = Ok (mkdate 2024 2 29)
  /\ parse_date_str (mkdate 2025 1 15) (Txt "30-02-2024") = Ok (mkdate 2025 1 15).
Proof.
  pose proof (parse_date_str_round_trip (mkdate 2025 1 15)) as (R & _ & _ & F & _).
  split; [|split].
  - exact (proj1 (R (mkdate 2024 6 1) eq_refl)).
  - exact (proj1 (proj2 (R (mkdate 2024 2 29) eq_refl))).
  - apply (F (Txt "30-02-2024")).
    intros fmt [<-|[<-|[<-|[]]]]; reflexivity.
Defined.
Open Scope list_scope.

(** ** Columns and cells of a table *)

Lemma has_column_In (cols : list string) (c : string) :
  has_column cols c = true <-> In c cols.
Proof.
  unfold has_column. rewrite existsb_exists. split.
  - intros (x & Hx & E). apply String.eqb_eq in E. now subst.
  - intro Hc. exists c. split; [assumption | apply String.eqb_refl].
Qed.

Lemma has_column_app (a b : list string) (c : string) :
  has_column (a ++ b) c = has_column a c || has_column b c.
Proof. unfold has_column. apply existsb_app. Qed.

Lemma index_of_lt (cols : list string) (c : string) (j : nat) :
  index_of c cols = Some j -> j < List.length cols.
Proof.
  revert j. induction cols as [|x xs IH]; cbn; intros j H; [discriminate|].
  destruct (String.eqb x c).
  - injection H as <-. lia.
  - destruct (index_of c xs) as [k|]; [|discriminate].
    injection H as <-. specialize (IH k eq_refl). lia.
Qed.

Lemma index_of_has (cols : list string) (c : string) :
  has_column cols c = true -> exists j, index_of c cols = Some j.
Proof.
  induction cols as [|x xs IH]; cbn; [discriminate|].
  rewrite String.eqb_sym.
  destruct (String.eqb x c); cbn; [now exists 0|].
  intro H. destruct (IH H) as [j ->]. now exists (S j).
Qed.

Lemma index_of_none (cols : list string) (c : string) :
  has_column cols c = false -> index_of c cols = None.
Proof.
  induction cols as [|x xs IH]; cbn; [reflexivity|].
  rewrite String.eqb_sym.
  destruct (String.eqb x c); cbn; [discriminate|].
  intro H. now rewrite (IH H).
Qed.

Lemma index_of_app_l (a b : list string) (c : string) (j : nat) :
  index_of c a = Some j -> index_of c (a ++ b) = Some j.
Proof.
  revert j. induction a as [|x xs IH]; cbn; intros j H; [discriminate|].
  destruct (String.eqb x c); [assumption|].
  destruct (index_of c xs) as [k|]; [|discriminate].
  now rewrite (IH k eq_refl).
Qed.

Lemma index_of_app_r (a b : list string) (c : string) :
  index_of c a = None ->
  index_of c (a ++ b) = option_map (fun j => List.length a + j) (index_of c b).
Proof.
  induction a as [|x xs IH]; cbn; intro H.
  - destruct (index_of c b); reflexivity.
  - destruct (String.eqb x c); [discriminate|].
    destruct (index_of c xs); [discriminate|].
    rewrite (IH eq_refl). destruct (index_of c b); reflexivity.
Qed.

(** ** [load_data]: the columns of the result *)

Lemma missing_in_snoc (cols cs : list string) (c : string) :
  ~ In c cs -> missing_in (cols ++ [c]) cs = missing_in cols cs.
Proof.
  intro Hc. unfold missing_in. apply filter_ext_in. intros x Hx.
  rewrite has_column_app. cbn. rewrite orb_false_r.
  destruct (String.eqb_spec x c) as [->|]; [contradiction|].
  now rewrite orb_false_r.
Qed.

Lemma ensure_fold (cs : list string) (df : DataFrame) :
  NoDup cs ->
  fold_left ensure_step cs df =
  mkDF (columns df ++ missing_in (columns df) cs)
       (map (fun r => r ++ repeat (Txt EmptyString)
                                (List.length (missing_in (columns df) cs)))
            (rows df)).
Proof.
  revert df. induction cs as [|c cs IH]; intros df ND.
  - cbn. destruct df as [cols rs]. cbn. rewrite app_nil_r. f_equal.
    rewrite <- (map_id rs) at 1. apply map_ext. intro r. now rewrite app_nil_r.
  - inversion ND as [|? ? Hc ND']; subst.
    cbn [fold_left]. rewrite (IH _ ND'). unfold ensure_step, missing_in.
    cbn [filter].
    destruct (has_column (columns df) c) eqn:E; cbn [negb].
    + reflexivity.
    + cbn [add_column columns rows].
      fold (missing_in (columns df ++ [c]) cs).
      rewrite (missing_in_snoc _ _ _ Hc). fold (missing_in (columns df) cs).
      rewrite <- app_assoc. cbn [app]. f_equal.
      rewrite map_map. apply map_ext. intro r.
      rewrite <- app_assoc. reflexivity.
Qed.

Lemma COLUMNS_NoDup : NoDup COLUMNS.
Proof.
  unfold COLUMNS.
  repeat (constructor; [cbn; intuition discriminate|]). constructor.
Qed.

Lemma ensure_columns_eq (df : DataFrame) :
  ensure_columns df =
  mkDF (columns df ++ missing_in (columns df) COLUMNS)
       (map (fun r => r ++ repeat (Txt EmptyString)
                                (List.length (missing_in (columns df) COLUMNS)))
            (rows df)).
Proof. exact (ensure_fold COLUMNS df COLUMNS_NoDup). Qed.

Lemma ensure_columns_complete (df : DataFrame) (c : string) :
  In c COLUMNS -> has_column (columns (ensure_columns df)) c = true.
Proof.
  intro Hc. rewrite ensure_columns_eq. cbn [columns].
  rewrite has_column_app.
  destruct (has_column (columns df) c) eqn:E; [reflexivity|]. cbn [orb].
  apply has_column_In. unfold missing_in. apply filter_In.
  split; [assumption | now rewrite E].
Qed.

Lemma select_ensure (df : DataFrame) :
  select (ensure_columns df) COLUMNS =
  Ok (mkDF COLUMNS
           (map (fun r => map (fun c => match get (columns (ensure_columns df)) r c with
                                        | Ok v => v
                                        | Raise _ => NaN
                                        end) COLUMNS)
                (rows (ensure_columns df)))).
Proof.
  unfold select.
  replace (forallb (has_column (columns (ensure_columns df))) COLUMNS) with true;
    [reflexivity|].
  symmetry. apply forallb_forall. intros c Hc.
  now apply ensure_columns_complete.
Qed.

(** The cell of column [c] in a row extended by [ensure_columns]. *)
Lemma get_ensured (cols : list string) (r : list cell) (c : string) :
  List.length r = List.length cols ->
  In c COLUMNS ->
  get (cols ++ missing_in cols COLUMNS)
      (r ++ repeat (Txt EmptyString) (List.length (missing_in cols COLUMNS))) c
  = if has_column cols c then get cols r c else Ok (Txt EmptyString).
Proof.
  intros Hr Hc. unfold get.
  destruct (has_column cols c) eqn:E.
  - destruct (index_of_has _ _ E) as [j Hj].
    rewrite (index_of_app_l _ _ _ _ Hj), Hj.
    rewrite app_nth1 by (rewrite Hr; eapply index_of_lt; eassumption).
    reflexivity.
  - rewrite (index_of_app_r _ _ _ (index_of_none _ _ E)).
    assert (Hm : has_column (missing_in cols COLUMNS) c = true).
    { apply has_column_In. unfold missing_in. apply filter_In.
      split; [assumption | now rewrite E]. }
    destruct (index_of_has _ _ Hm) as [j Hj]. rewrite Hj. cbn [option_map].
    rewrite app_nth2 by lia. rewrite <- Hr.
    replace (List.length r + j - List.length r) with j by lia.
    f_equal. apply nth_repeat_lt. eapply index_of_lt; eassumption.
Qed.

Lemma index_of_nth_error (cols : list string) (c : string) (j : nat) :
  index_of c cols = Some j -> nth_error cols j = Some c.
Proof.
  revert j. induction cols as [|x xs IH]; cbn; intros j E; [discriminate|].
  destruct (String.eqb_spec x c) as [->|].
  - injection E as <-. reflexivity.
  - destruct (index_of c xs) as [k|]; [|discriminate].
    injection E as <-. cbn. now apply IH.
Qed.

(** A row built by reading each of the columns [cs] is read back by [get]. *)
Lemma get_map (cs : list string) (g : string -> cell) (c : string) :
  In c cs -> get cs (map g cs) c = Ok (g c).
Proof.
  intro Hc. unfold get.
  destruct (index_of_has cs c (proj2 (has_column_In cs c) Hc)) as [j Hj].
  rewrite Hj. f_equal.
  pose proof (index_of_nth_error _ _ _ Hj) as E.
  apply (map_nth_error g) in E.
  now apply nth_error_nth.
Qed.

Section LoadData.
Context `{Pandas}.

Lemma read_csv_well_formed (f : csv) : well_formed (read_csv f).
Proof.
  unfold well_formed, read_csv. cbn [rows columns].
  apply Forall_forall. intros r Hr.
  apply in_map_iff in Hr. destruct Hr as (i & <- & _).
  now rewrite !length_map, length_seq.
Qed.

Lemma read_csv_length (f : csv) :
  List.length (rows (read_csv f)) = List.length (lines f).
Proof. unfold read_csv. cbn [rows]. now rewrite length_map, length_seq. Qed.

(** What [load_data] computes from a table [df0] just read (or created). *)
Lemma load_from (df0 : DataFrame) :
  well_formed df0 ->
  exists df,
    select (ensure_columns df0) COLUMNS = Ok df
    /\ columns df = COLUMNS
    /\ well_formed df
    /\ List.length (rows df) = List.length (rows df0)
    /\ forall i c, i < List.length (rows df0) -> In c COLUMNS ->
         cell_at df i c =
         if has_column (columns df0) c then cell_at df0 i c
         else Ok (Txt EmptyString).
Proof.
  intro W. eexists. split; [apply select_ensure|].
  cbn [columns rows]. split; [reflexivity|].
  rewrite ensure_columns_eq. cbn [columns rows].
  split; [|split].
  - unfold well_formed. cbn [rows columns]. apply Forall_forall.
    intros r Hr. apply in_map_iff in Hr. destruct Hr as (r0 & <- & _).
    apply length_map.
  - now rewrite !length_map.
  - intros i c Hi Hc. unfold cell_at. cbn [rows columns].
    rewrite !nth_error_map.
    destruct (nth_error (rows df0) i) as [r|] eqn:E;
      [|apply nth_error_None in E; lia].
    cbn [option_map]. rewrite (get_map COLUMNS _ c Hc).
    assert (Hr : List.length r = List.length (columns df0)).
    { unfold well_formed in W. rewrite Forall_forall in W.
      apply W. eapply nth_error_In; eassumption. }
    rewrite (get_ensured _ _ _ Hr Hc).
    destruct (has_column (columns df0) c) eqn:Ec; [|reflexivity].
    unfold get. destruct (index_of_has _ _ Ec) as [j ->]. reflexivity.
Qed.

Lemma empty_frame_well_formed : well_formed empty_frame.
Proof. constructor. Qed.

Lemma load_data_body_ok (file : option csv) :
  exists df, load_data_body file = Ok df
             /\ columns df = COLUMNS /\ well_formed df.
Proof.
  unfold load_data_body.
  destruct file as [f|].
  - destruct (load_from (read_csv f) (read_csv_well_formed f))
      as (df & E & C & W & _).
    exists df. split; [exact E | split; assumption].
  - destruct (load_from empty_frame empty_frame_well_formed)
      as (df & E & C & W & _).
    exists df. split; [exact E | split; assumption].
Qed.

(** C5: without a file [load_data] gives the empty table with the
    canonical columns; from a file that holds a table it gives a table
    whose columns are exactly the canonical ones in the canonical order,
    one row per line of the file, where a canonical column the file has
    keeps the cells read from the file and one the file lacks is filled
    with the empty text. *)
Theorem load_data_canonical_columns :
  load_data_body None = Ok (mkDF COLUMNS [])
  /\ forall f : csv,
      tabular f = true ->
      exists df,
        load_data_body (Some f) = Ok df
        /\ columns df = COLUMNS
        /\ well_formed df
        /\ List.length (rows df) = List.length (lines f)
        /\ forall i c, i < List.length (lines f) -> In c COLUMNS ->
             cell_at df i c =
             if has_column (header f) c then cell_at (read_csv f) i c
             else Ok (Txt EmptyString).
Proof.
  split.
  - reflexivity.
  - intros f _. unfold load_data_body.
    destruct (load_from (read_csv f) (read_csv_well_formed f))
      as (df & E & C & W & L & Cells).
    exists df. rewrite read_csv_length in *.
    repeat split; assumption.
Qed.

End LoadData.

Lemma load_data_canonical_columns_witness :
  exists df,
    load_data_body (Some legacy_file) = Ok df
    /\ columns df = COLUMNS
    /\ cell_at df 0 "poids" = Ok (Txt "")
    /\ cell_at df 1 "espece" = Ok (Txt "Lieu").
Proof.
  destruct (proj2 load_data_canonical_columns legacy_file eq_refl)
    as (df & E & C & _ & _ & Cells).
  exists df. repeat split; try assumption.
  - rewrite (Cells 0 "poids"); [reflexivity | cbn; lia | cbn; tauto].
  - rewrite (Cells 1 "espece"); [reflexivity | cbn; lia | cbn; tauto].
Defined.

(** ** The actions: what a failed save leaves behind *)

(** Running the statements of a block one after the other. *)
Ltac run_actions :=
  cbv beta iota zeta delta
      [enregistrer_photo bind update ret lift save_data write_csv cache_clear
       load_data write_file say set_cache set_data_file
       data_file writable screen photo_files cache].

Section Actions.
Context `{Pandas}.

Lemma save_data_locked (df : DataFrame) (w : world) :
  writable w = false -> save_data df w = (Ok tt, say ErrStoreLocked w).
Proof. intro E. unfold save_data, write_csv. now rewrite E. Qed.

(** The value and the world after the append block, once the time has
    been accepted. *)
Lemma ajouter_accepted (now : Strptime.datetime) (f : prise) (df0 : DataFrame)
      (w : world) (heure : time) :
  parse_time_from_text (p_heure_str f) = Ok heure ->
  exists (photo : string) (w1 : world),
    enregistrer_photo now (p_photo f) w = (Ok photo, w1)
    /\ data_file w1 = data_file w /\ writable w1 = writable w
    /\ screen w1 = screen w
    /\ ajouter now f df0 w =
       let df1 := concat_row df0 (row_of f heure (Txt photo)) in
       let file := if writable w then Some (to_csv df1) else data_file w in
       let shown := if writable w then [OkPriseEnregistree]
                    else [ErrStoreLocked; OkPriseEnregistree] in
       match load_data_body file with
       | Ok df => (Ok df, mkworld file (writable w) (photo_files w1) (Some df)
                                  (screen w ++ shown))
       | Raise e => (Raise e, mkworld file (writable w) (photo_files w1) None
                                      (screen w ++ shown))
       end.
Proof.
  intro P. unfold ajouter. rewrite P.
  destruct w as [file wr photos c scr].
  destruct (p_photo f) as [u|]; (eexists; eexists; split; [reflexivity|]);
    run_actions; (repeat split);
    destruct wr; run_actions;
    destruct (load_data_body _); rewrite <- ?app_assoc; reflexivity.
Qed.

(** C1, as the program has it: when the file cannot be written,
    [save_data] shows an error instead of raising and leaves the file and
    the table it was given as they are; the append block then clears the
    cache and reloads, so that the table of the session is the one read
    back from the unchanged file, in which the record just appended is
    not. *)
Theorem failed_save_reloads_persisted_table
        (now : Strptime.datetime) (f : prise) (df0 : DataFrame) (w : world)
        (heure : time) :
  writable w = false ->
  parse_time_from_text (p_heure_str f) = Ok heure ->
  (forall df, save_data df w = (Ok tt, say ErrStoreLocked w))
  /\ exists df w',
      ajouter now f df0 w = (Ok df, w')
      /\ In ErrStoreLocked (screen w')
      /\ data_file w' = data_file w
      /\ load_data_body (data_file w) = Ok df
      /\ cache w' = Some df.
Proof.
  intros L P. split; [intro df; now apply save_data_locked|].
  destruct (ajouter_accepted now f df0 w heure P) as (photo & w1 & _ & _ & _ & _ & E).
  rewrite E, L. cbv zeta.
  destruct (load_data_body_ok (data_file w)) as (df & Eq & _).
  rewrite Eq. eexists. eexists. split; [reflexivity|].
  cbn [screen data_file cache]. repeat split; try assumption.
  apply in_or_app. right. now left.
Qed.

End Actions.

Lemma failed_save_reloads_persisted_table_witness :
  exists w', ajouter midi un_bar (mkDF COLUMNS []) locked_world
             = (Ok (mkDF COLUMNS []), w')
             /\ In ErrStoreLocked (screen w').
Proof.
  destruct (failed_save_reloads_persisted_table midi un_bar (mkDF COLUMNS [])
              locked_world (mktime 6 30 0) eq_refl eq_refl)
    as (_ & df & w' & E & S & _ & L & _).
  exists w'. split; [|exact S].
  rewrite E. f_equal. f_equal.
  vm_compute in L. injection L as <-. reflexivity.
Defined.

(** C1 as stated fails: a record appended just before a save that fails
    is not in the table of the session afterwards. *)
Lemma appended_record_lost_after_failed_save :
  writable locked_world = false
  /\ parse_time_from_text (p_heure_str un_bar) = Ok (mktime 6 30 0)
  /\ exists w',
      main_ajouter midi un_bar locked_world = (Ok (mkDF COLUMNS []), w')
      /\ screen w' = [ErrStoreLocked; OkPriseEnregistree]
      /\ data_file w' = None.
Proof.
  split; [reflexivity|]. split; [reflexivity|].
  exists (mkworld None false [] (Some (mkDF COLUMNS []))
                  [ErrStoreLocked; OkPriseEnregistree]).
  split; [vm_compute; reflexivity|]. split; reflexivity.
Qed.

(** ** Appending a record and loading the table again *)

Lemma concat_row_canonical (df0 : DataFrame) (f : prise) (heure : time)
      (photo : cell) :
  columns df0 = COLUMNS ->
  concat_row df0 (row_of f heure photo) =
  mkDF COLUMNS (rows df0 ++ [new_record f heure photo]).
Proof.
  intro C. unfold concat_row. rewrite C.
  change (filter (fun c => negb (has_column COLUMNS c))
                 (map fst (row_of f heure photo))) with (@nil string).
  rewrite app_nil_r. f_equal. f_equal.
  rewrite <- (map_id (rows df0)) at 2. apply map_ext.
  intro r. apply app_nil_r.
Qed.

Lemma new_record_cell (f : prise) (heure : time) (photo : cell)
      (c : string) (j : nat) :
  index_of c COLUMNS = Some j ->
  nth j (new_record f heure photo) NaN = dict_get c (row_of f heure photo).
Proof.
  intro E.
  assert (Hc : In c COLUMNS)
    by (eapply nth_error_In, index_of_nth_error; eassumption).
  unfold COLUMNS in Hc. cbn [In] in Hc.
  repeat (destruct Hc as [<-|Hc];
          [vm_compute in E; injection E as <-; reflexivity|]).
  contradiction.
Qed.

Section Append.
Context `{Pandas}.

(** A cell of a table just read from a file. *)
Lemma read_csv_cell (F : csv) (n : nat) (c : string) (j : nat) :
  index_of c (header F) = Some j ->
  n < List.length (lines F) ->
  cell_at (read_csv F) n c =
  Ok (nth n (infer (column_texts j (lines F))) NaN).
Proof.
  intros E Hn. unfold cell_at, read_csv. cbn [rows columns].
  rewrite nth_error_map, nth_error_seq.
  apply Nat.ltb_lt in Hn. rewrite Hn. cbn [option_map Nat.add].
  unfold get. rewrite E. f_equal.
  pose proof (index_of_lt _ _ _ E) as Hj.
  set (cols := map _ (seq 0 _)).
  assert (Ej : nth_error cols j = Some (infer (column_texts j (lines F)))).
  { unfold cols. rewrite nth_error_map, nth_error_seq.
    apply Nat.ltb_lt in Hj. now rewrite Hj. }
  apply (map_nth_error (fun col => nth n col NaN)) in Ej.
  now apply nth_error_nth.
Qed.

(** The text of column [j] in the last line of a file. *)
Lemma column_texts_last (j : nat) (ls : list (list string)) (l : list string) :
  nth_error (column_texts j (ls ++ [l])) (List.length ls)
  = Some (nth j l EmptyString).
Proof.
  unfold column_texts. rewrite map_app, nth_error_app2; rewrite length_map;
    [|lia].
  now rewrite Nat.sub_diag.
Qed.

(** C2, as the program has it: when the file can be written and the time
    entered is valid, the append block saves the table with the new record
    as last row and loads it again; the table then has the canonical
    columns and one more row, and the last row is what [read_csv] reads
    back from the fields written for the record.  An empty text is read
    back as the missing value; a cell whose column the reader returns as
    it was written is found again unchanged. *)
Theorem append_then_load
        (now : Strptime.datetime) (f : prise) (df0 : DataFrame) (w : world)
        (heure : time) :
  writable w = true ->
  parse_time_from_text (p_heure_str f) = Ok heure ->
  columns df0 = COLUMNS ->
  exists (photo : string) (df : DataFrame) (w' : world),
    fst (enregistrer_photo now (p_photo f) w) = Ok photo
    /\ ajouter now f df0 w = (Ok df, w')
    /\ let r := row_of f heure (Txt photo) in
       let written := mkDF COLUMNS (rows df0 ++ [map snd r]) in
       let n := List.length (rows df0) in
       data_file w' = Some (to_csv written)
       /\ columns df = COLUMNS
       /\ List.length (rows df) = S n
       /\ (forall c, In c COLUMNS ->
             cell_at df n c = cell_at (read_csv (to_csv written)) n c)
       /\ (forall c, In c COLUMNS ->
             field_text (dict_get c r) = EmptyString ->
             cell_at df n c = Ok NaN)
       /\ (forall c j, index_of c COLUMNS = Some j ->
             infer (column_texts j (lines (to_csv written)))
             = map (fun row => nth j row NaN) (rows written) ->
             cell_at df n c = Ok (dict_get c r)).
Proof.
  intros Wr P C.
  destruct (ajouter_accepted now f df0 w heure P)
    as (photo & w1 & Eph & _ & _ & _ & E).
  rewrite Wr, (concat_row_canonical _ _ _ _ C) in E. cbv zeta in E.
  fold (new_record f heure (Txt photo)) in *.
  set (written := mkDF COLUMNS (rows df0 ++ [new_record f heure (Txt photo)])) in *.
  destruct (load_from (read_csv (to_csv written)) (read_csv_well_formed _))
    as (df & El & Cdf & _ & Len & Cells).
  assert (Eb : load_data_body (Some (to_csv written)) = Ok df) by exact El.
  rewrite Eb in E.
  exists photo, df. eexists. split; [now rewrite Eph|]. split; [exact E|].
  cbv zeta. fold (new_record f heure (Txt photo)). fold written.
  cbn [data_file].
  rewrite read_csv_length in Len, Cells.
  assert (Hl : List.length (lines (to_csv written)) = S (List.length (rows df0))).
  { unfold to_csv, written. cbn [lines rows].
    rewrite length_map, length_app. cbn. lia. }
  rewrite Hl in Len, Cells.
  assert (Hcell : forall c, In c COLUMNS ->
            cell_at df (List.length (rows df0)) c
            = cell_at (read_csv (to_csv written)) (List.length (rows df0)) c).
  { intros c Hc. rewrite (Cells _ c (Nat.lt_succ_diag_r _) Hc).
    change (columns (read_csv (to_csv written))) with COLUMNS.
    now rewrite (proj2 (has_column_In COLUMNS c) Hc). }
  assert (Hread : forall c j, index_of c COLUMNS = Some j ->
            cell_at df (List.length (rows df0)) c
            = Ok (nth (List.length (rows df0))
                      (infer (column_texts j (lines (to_csv written)))) NaN)).
  { intros c j Ej.
    rewrite Hcell by (eapply nth_error_In, index_of_nth_error; eassumption).
    apply read_csv_cell; [exact Ej | rewrite Hl; lia]. }
  repeat split; try assumption.
  - intros c Hc Empty.
    destruct (index_of_has COLUMNS c (proj2 (has_column_In _ _) Hc)) as [j Ej].
    rewrite (Hread c j Ej). f_equal.
    apply nth_error_nth. apply infer_empty.
    unfold to_csv, written. cbn [lines rows].
    rewrite map_app. cbn [map].
    rewrite <- (length_map (map field_text) (rows df0)).
    rewrite column_texts_last.
    f_equal.
    transitivity (field_text (nth j (new_record f heure (Txt photo)) NaN)).
    + exact (map_nth field_text (new_record f heure (Txt photo)) NaN j).
    + now rewrite (new_record_cell f heure (Txt photo) c j Ej).
  - intros c j Ej Same. rewrite (Hread c j Ej), Same. f_equal.
    unfold written. cbn [rows].
    rewrite <- (new_record_cell f heure (Txt photo) c j Ej).
    transitivity (nth j (nth (List.length (rows df0))
                           (rows df0 ++ [new_record f heure (Txt photo)]) []) NaN).
    + destruct j; exact (map_nth (fun row : list cell => nth _ row NaN) _ [] _).
    + rewrite app_nth2 by lia. now rewrite Nat.sub_diag.
Qed.

End Append.

Lemma append_then_load_witness :
  exists df w',
    ajouter midi un_bar (mkDF COLUMNS []) fresh_world = (Ok df, w')
    /\ columns df = COLUMNS
    /\ List.length (rows df) = 1
    /\ cell_at df 0 "commentaire" = Ok NaN.
Proof.
  destruct (append_then_load midi un_bar (mkDF COLUMNS []) fresh_world
              (mktime 6 30 0) eq_refl eq_refl eq_refl)
    as (photo & df & w' & _ & E & _ & C & L & _ & Empty & _).
  exists df, w'. repeat split; try assumption.
  apply (Empty "commentaire"); [cbn; tauto | reflexivity].
Defined.

(** C2 as stated fails, on the scenario of the specification itself: the
    record is appended to the empty store with an empty text as
    conditions, and the table loaded afterwards has the missing value
    there, so that its last record is not the record appended. *)
Lemma empty_text_is_not_read_back :
  dict_get "conditions" (row_of un_bar (mktime 6 30 0) (Txt "")) = Txt ""
  /\ rbind (fst (main_ajouter midi un_bar fresh_world))
           (fun df => cell_at df 0 "conditions") = Ok NaN
  /\ rbind (fst (main_ajouter midi un_bar fresh_world))
           (fun df => Ok (List.length (rows df))) = Ok 1.
Proof.
  split; [reflexivity|]. split; vm_compute; reflexivity.
Qed.

(** ** A time that is refused *)

Section Refused.
Context `{Pandas}.

Lemma load_data_keeps_files (w : world) :
  exists r w', load_data w = (r, w')
               /\ data_file w' = data_file w
               /\ photo_files w' = photo_files w
               /\ writable w' = writable w
               /\ screen w' = screen w.
Proof.
  unfold load_data. destruct (cache w) as [df|].
  - eexists. eexists. split; [reflexivity|]. now repeat split.
  - destruct (load_data_body (data_file w)); eexists; eexists;
      (split; [reflexivity|]); now repeat split.
Qed.

(** C4: when the time entered is not accepted, the append block and the
    edit block show the error and do nothing else: the table of the
    session, the persisted file and the photo store are as before. *)
Theorem invalid_time_is_atomic
        (now : Strptime.datetime) (f : prise) (df : DataFrame) (w : world)
        (selected_id : nat) (e : exn) :
  parse_time_from_text (p_heure_str f) = Raise e ->
  ajouter now f df w = (Ok df, say ErrHeureInvalideAdd w)
  /\ (selected_id < List.length (rows df) ->
      modifier now selected_id f df w = (Ok df, say ErrHeureInvalideEdit w))
  /\ data_file (snd (main_ajouter now f w)) = data_file w
  /\ photo_files (snd (main_ajouter now f w)) = photo_files w
  /\ data_file (snd (main_modifier now selected_id f w)) = data_file w
  /\ photo_files (snd (main_modifier now selected_id f w)) = photo_files w.
Proof.
  intro P.
  assert (A : forall d v, ajouter now f d v = (Ok d, say ErrHeureInvalideAdd v)).
  { intros d v. unfold ajouter. rewrite P. reflexivity. }
  assert (Mo : forall d v,
             modifier now selected_id f d v =
             match nth_error (rows d) selected_id with
             | Some _ => (Ok d, say ErrHeureInvalideEdit v)
             | None => (Raise IndexError, v)
             end).
  { intros d v. unfold modifier, bind, lift, iloc0. rewrite P.
    destruct (nth_error (rows d) selected_id); reflexivity. }
  split; [apply A|]. split.
  - intro Hs. rewrite Mo.
    destruct (nth_error (rows df) selected_id) eqn:E; [reflexivity|].
    apply nth_error_None in E. lia.
  - unfold main_ajouter, main_modifier, bind.
    destruct (load_data_keeps_files w) as (r & w' & -> & Fd & Fp & _).
    destruct r as [d|x]; cbn [snd]; rewrite ?A, ?Mo; cbn [snd];
      try destruct (nth_error (rows d) selected_id);
      cbn [snd say data_file photo_files]; now repeat split.
Qed.

End Refused.

Lemma invalid_time_is_atomic_witness :
  ajouter midi heure_refusee (mkDF COLUMNS []) fresh_world
  = (Ok (mkDF COLUMNS []), say ErrHeureInvalideAdd fresh_world)
  /\ photo_files (snd (main_ajouter midi heure_refusee fresh_world)) = [].
Proof.
  destruct (invalid_time_is_atomic midi heure_refusee (mkDF COLUMNS [])
              fresh_world 0 ValueError eq_refl) as (A & _ & _ & _ & _).
  split; [exact A|].
  exact (proj1 (proj2 (proj2 (proj2
           (invalid_time_is_atomic midi heure_refusee (mkDF COLUMNS [])
              fresh_world 0 ValueError eq_refl))))).
Defined.

(** ** Deleting a record *)

Lemma remove_at_split {A : Type} (i : nat) (l : list A) :
  remove_at i l = firstn i l ++ skipn (S i) l.
Proof.
  revert i. induction l as [|x l IH]; intros [|i]; cbn; try reflexivity.
  now rewrite IH.
Qed.

Lemma remove_at_length {A : Type} (i : nat) (l : list A) :
  i < List.length l -> S (List.length (remove_at i l)) = List.length l.
Proof.
  revert i. induction l as [|x l IH]; intros [|i]; cbn; intro Hi; try lia.
  rewrite IH; lia.
Qed.

Lemma remove_at_before {A : Type} (i j : nat) (l : list A) :
  j < i -> nth_error (remove_at i l) j = nth_error l j.
Proof.
  revert i j. induction l as [|x l IH]; intros [|i] [|j] Hj; cbn;
    try reflexivity; try lia.
  apply IH. lia.
Qed.

Lemma remove_at_after {A : Type} (i j : nat) (l : list A) :
  i <= j -> nth_error (remove_at i l) j = nth_error l (S j).
Proof.
  revert i j. induction l as [|x l IH]; intros [|i] [|j] Hj; cbn;
    try reflexivity; try lia.
  apply IH. lia.
Qed.

Section Delete.
Context `{Pandas}.

(** C9: deleting the record at a position of the table removes that row
    and no other, the rows before it keep their positions and the rows
    after it move up by one, in the same order; the table is then saved;
    no file of the photo store is touched. *)
Theorem supprimer_removes_one_row
        (selected_id : nat) (df : DataFrame) (w : world) :
  selected_id < List.length (rows df) ->
  let df' := mkDF (columns df) (remove_at selected_id (rows df)) in
  exists w',
    supprimer selected_id df w = (Ok df', w')
    /\ photo_files w' = photo_files w
    /\ data_file w' = (if writable w then Some (to_csv df') else data_file w)
    /\ rows df' = firstn selected_id (rows df) ++ skipn (S selected_id) (rows df)
    /\ S (List.length (rows df')) = List.length (rows df)
    /\ (forall j, j < selected_id ->
                  nth_error (rows df') j = nth_error (rows df) j)
    /\ (forall j, selected_id <= j ->
                  nth_error (rows df') j = nth_error (rows df) (S j)).
Proof.
  intros Hs df'.
  unfold supprimer, iloc0, drop.
  destruct (nth_error (rows df) selected_id) eqn:E;
    [|apply nth_error_None in E; lia].
  apply Nat.ltb_lt in Hs. 
  destruct w as [file wr photos c scr].
  run_actions. rewrite Hs. fold df'.
  apply Nat.ltb_lt in Hs.
  destruct wr; eexists; (split; [reflexivity|]);
    cbn [photo_files data_file rows df'];
    (repeat split);
    auto using remove_at_split, remove_at_length, remove_at_before,
      remove_at_after.
Qed.

End Delete.

Lemma supprimer_removes_one_row_witness :
  exists w',
    supprimer 1 trois_prises
              (mkworld None true [("photos/a.jpg", "A"); ("photos/c.jpg", "C")]
                       None [])
    = (Ok (mkDF ["espece"; "photo_fichier"]
                [[Txt "Bar"; Txt "photos/a.jpg"];
                 [Txt "Maquereau"; Txt "photos/c.jpg"]]), w')
    /\ photo_files w' = [("photos/a.jpg", "A"); ("photos/c.jpg", "C")].
Proof.
  destruct (supprimer_removes_one_row 1 trois_prises
              (mkworld None true [("photos/a.jpg", "A"); ("photos/c.jpg", "C")]
                       None [])) as (w' & E & P & _).
  - cbn. lia.
  - exists w'. split; [exact E | exact P].
Defined.

(** ** Filters *)

Lemma filter_and {A : Type} (f g : A -> bool) (l : list A) :
  filter g (filter f l) = filter (fun x => f x && g x) l.
Proof.
  induction l as [|x l IH]; cbn; [reflexivity|].
  destruct (f x); cbn; [|exact IH].
  destruct (g x); now rewrite IH.
Qed.

Lemma filter_all {A : Type} (l : list A) : filter (fun _ => true) l = l.
Proof. induction l as [|x l IH]; cbn; now rewrite ?IH. Qed.

Lemma filter_step_eq (col : string) (selection : list cell) (df : DataFrame)
      (j : nat) :
  index_of col (columns df) = Some j ->
  filter_step col selection df =
  Ok (mkDF (columns df)
           (filter (fun r => accepts selection (nth j r NaN)) (rows df))).
Proof.
  intro E. destruct selection as [|v vs].
  - cbn. rewrite filter_all. now destruct df.
  - unfold filter_step, keep_isin. now rewrite E.
Qed.

(** C6: the three filters keep exactly the rows whose species, spot and
    lure name each pass their criterion, in the order of the table; a
    criterion with an empty selection lets every row through, and the
    selection of "Bar" alone as species gives exactly the rows whose
    species is "Bar". *)
Theorem apply_filters_keeps_members
        (df : DataFrame) (je js jl : nat)
        (espece_filter spot_filter leurre_filter : list cell) :
  index_of "espece" (columns df) = Some je ->
  index_of "spot" (columns df) = Some js ->
  index_of "nom_leurre" (columns df) = Some jl ->
  let keep := fun r => accepts espece_filter (nth je r NaN)
                       && accepts spot_filter (nth js r NaN)
                       && accepts leurre_filter (nth jl r NaN) in
  apply_filters df espece_filter spot_filter leurre_filter
  = Ok (mkDF (columns df) (filter keep (rows df)))
  /\ (forall r, In r (filter keep (rows df)) <->
                In r (rows df)
                /\ (espece_filter = [] \/ isin espece_filter (nth je r NaN) = true)
                /\ (spot_filter = [] \/ isin spot_filter (nth js r NaN) = true)
                /\ (leurre_filter = [] \/ isin leurre_filter (nth jl r NaN) = true))
  /\ apply_filters df [] spot_filter leurre_filter
     = rbind (filter_step "spot" spot_filter df)
             (filter_step "nom_leurre" leurre_filter)
  /\ apply_filters df [] [] [] = Ok df
  /\ apply_filters df [Txt "Bar"] [] []
     = Ok (mkDF (columns df)
                (filter (fun r => cell_eqb (nth je r NaN) (Txt "Bar")) (rows df))).
Proof.
  intros Ee Es El keep.
  assert (G : forall e s l,
             apply_filters df e s l =
             Ok (mkDF (columns df)
                      (filter (fun r => accepts e (nth je r NaN)
                                        && accepts s (nth js r NaN)
                                        && accepts l (nth jl r NaN)) (rows df)))).
  { intros e s l. unfold apply_filters.
    rewrite (filter_step_eq _ e df je Ee). cbn [rbind].
    rewrite (filter_step_eq _ s _ js) by exact Es. cbn [rbind columns rows].
    rewrite (filter_step_eq _ l _ jl) by exact El. cbn [columns rows].
    rewrite !filter_and. f_equal. f_equal. apply filter_ext.
    intro r. now rewrite andb_assoc. }
  split; [apply G|]. split; [|split; [|split]].
  - intro r. unfold keep. rewrite filter_In, !andb_true_iff.
    assert (A : forall sel v, accepts sel v = true <->
                              sel = [] \/ isin sel v = true).
    { intros [|x sel] v; cbn [accepts].
      - split; auto.
      - split; [now right | intros [?|?]; [discriminate | assumption]]. }
    rewrite !A. tauto.
  - reflexivity.
  - reflexivity.
  - rewrite G. f_equal. f_equal. apply filter_ext. intro r.
    cbn [accepts isin existsb]. now rewrite orb_false_r, !andb_true_r.
Qed.

Lemma apply_filters_keeps_members_witness :
  rbind (apply_filters cinq_prises [Txt "Bar"] [Txt "Le Havre"] [])
        (fun d => Ok (List.length (rows d))) = Ok 2
  /\ apply_filters cinq_prises [] [] [] = Ok cinq_prises.
Proof.
  destruct (apply_filters_keeps_members cinq_prises 2 6 8
              [Txt "Bar"] [Txt "Le Havre"] [] eq_refl eq_refl eq_refl)
    as (E & _ & _ & N & _).
  split; [rewrite E; reflexivity | exact N].
Defined.

(** ** Statistics by group *)

Lemma Qc_eqb_eq (x y : Qc) : Qc_eqb x y = true <-> x = y.
Proof.
  unfold Qc_eqb. rewrite Qeq_bool_iff. split.
  - apply Qc_is_canon.
  - now intros ->.
Qed.

Lemma cell_eqb_eq (a b : cell) : cell_eqb a b = true <-> a = b.
Proof.
  destruct a as [s|x|], b as [t|y|]; cbn; try (split; [discriminate|discriminate]).
  - rewrite String.eqb_eq. split; [now intros -> | now intros [= ->]].
  - rewrite Qc_eqb_eq. split; [now intros -> | now intros [= ->]].
  - tauto.
Qed.

Lemma cell_eqb_refl (a : cell) : cell_eqb a a = true.
Proof. now apply cell_eqb_eq. Qed.

Lemma seen_In (k : cell) (seen : list cell) :
  existsb (cell_eqb k) seen = true <-> In k seen.
Proof.
  rewrite existsb_exists. split.
  - intros (x & Hx & E). apply cell_eqb_eq in E. now subst.
  - intro Hk. exists k. split; [assumption | apply cell_eqb_refl].
Qed.

Lemma isna_true (k : cell) : isna k = true <-> k = NaN.
Proof. destruct k; cbn; split; congruence. Qed.

Lemma group_keys_In (seen ks : list cell) (k : cell) :
  In k (group_keys seen ks) <-> In k ks /\ k <> NaN /\ ~ In k seen.
Proof.
  revert seen. induction ks as [|x ks IH]; intro seen; cbn [group_keys].
  - cbn. tauto.
  - destruct (isna x || existsb (cell_eqb x) seen) eqn:E.
    + rewrite IH. cbn [In]. apply orb_true_iff in E.
      rewrite isna_true, seen_In in E.
      split; [tauto|]. intros ([->|Hk] & Hn & Hs); [tauto|tauto].
    + apply orb_false_iff in E. destruct E as [En Es].
      assert (x <> NaN) by (intro Hx; apply isna_true in Hx; congruence).
      assert (~ In x seen) by (intro Hx; apply seen_In in Hx; congruence).
      cbn [In]. rewrite IH. cbn [In].
      split.
      * intros [<-|(Hk & Hn & Hs)]; [tauto|]. tauto.
      * intros ([->|Hk] & Hn & Hs); [tauto|].
        destruct (cell_eqb x k) eqn:Exk.
        -- apply cell_eqb_eq in Exk. now left.
        -- right. repeat split; try assumption.
           intros [->|]; [|contradiction].
           now rewrite cell_eqb_refl in Exk.
Qed.

Lemma group_keys_NoDup (seen ks : list cell) : NoDup (group_keys seen ks).
Proof.
  revert seen. induction ks as [|x ks IH]; intro seen; cbn [group_keys].
  - constructor.
  - destruct (isna x || existsb (cell_eqb x) seen); [apply IH|].
    constructor; [|apply IH].
    rewrite group_keys_In. cbn [In]. tauto.
Qed.

Lemma mapM_ok {A B : Type} (f : A -> result B) (g : A -> B) (l : list A) :
  (forall x, In x l -> f x = Ok (g x)) -> mapM f l = Ok (map g l).
Proof.
  induction l as [|x l IH]; intro Hf; cbn; [reflexivity|].
  rewrite (Hf x) by now left. cbn.
  rewrite IH by (intros y Hy; apply Hf; now right). reflexivity.
Qed.

Lemma mapM_raise {A B : Type} (f : A -> result B) (l : list A) (e : exn) :
  (forall x, In x l -> (exists y, f x = Ok y) \/ f x = Raise e) ->
  (exists x, In x l /\ f x = Raise e) ->
  mapM f l = Raise e.
Proof.
  induction l as [|a l IH]; intros Hall (x & Hx & Ex); [contradiction|].
  cbn [mapM].
  destruct (Hall a (or_introl eq_refl)) as [[y Ea]|Ea]; rewrite Ea;
    [|reflexivity].
  cbn [rbind]. rewrite IH; [reflexivity | |].
  - intros z Hz. apply Hall. now right.
  - destruct Hx as [->|Hx]; [congruence|]. now exists x.
Qed.

Section Statistics.
Context `{Float64}.

Lemma mean_numeric (cells : list cell) :
  (forall c, In c cells -> is_txt c = false) ->
  mean cells = Ok (mean_value cells).
Proof.
  intro Hc. unfold mean, mean_value.
  replace (existsb is_txt cells) with false.
  - now destruct (numbers cells).
  - symmetry. apply not_true_is_false. intro E.
    apply existsb_exists in E. destruct E as (c & Hin & Ht).
    rewrite (Hc c Hin) in Ht. discriminate.
Qed.

(** *** Sorting by decreasing count *)







(** *** The table of statistics *)


Lemma stats_par_eq (by_col : string) (df : DataFrame) (j je jt : nat) :
  index_of by_col (columns df) = Some j ->
  index_of "espece" (columns df) = Some je ->
  index_of "taille_cm" (columns df) = Some jt ->
  (forall r, In r (rows df) -> is_txt (nth jt r NaN) = false) ->
  stats_par by_col df =
  Ok (map round_stat
          (sort_desc (map (stat_of j je jt (rows df))
                          (group_keys [] (map (fun r => nth j r NaN) (rows df)))))).
Proof.
  intros Ej Ee Et Hnum. unfold stats_par. rewrite Ej, Ee, Et.
  rewrite (mapM_ok _ (stat_of j je jt (rows df))); [reflexivity|].
  intros k _. rewrite mean_numeric; [reflexivity|].
  intros c Hc. apply in_map_iff in Hc. destruct Hc as (r & <- & Hr).
  apply Hnum. unfold group_rows in Hr. now apply filter_In in Hr.
Qed.





End Statistics.


Open Scope string_scope.

(** ** The photo store *)

Lemma string_app_assoc (a b c : string) : (a ++ b) ++ c = a ++ (b ++ c).
Proof. induction a as [|x a IH]; cbn; now rewrite ?IH. Qed.

Lemma replace_length (a b : ascii) (s : string) :
  String.length (Py.replace a b s) = String.length s.
Proof. induction s as [|c s IH]; cbn; now rewrite ?IH. Qed.

Lemma replace_get (a b : ascii) (s : string) (i : nat) :
  String.get i (Py.replace a b s)
  = option_map (fun c => if Ascii.eqb c a then b else c) (String.get i s).
Proof.
  revert i. induction s as [|c s IH]; intro i; cbn; [reflexivity|].
  destruct i; [reflexivity | apply IH].
Qed.

Lemma replace_keeps_slash (s : string) :
  Py.contains "/" (Py.replace " " "_" s) = Py.contains "/" s.
Proof.
  induction s as [|c s IH]; cbn; [reflexivity|]. rewrite IH. f_equal.
  destruct (Ascii.eqb_spec c " ") as [->|]; reflexivity.
Qed.

Lemma stamp_shape (now : Strptime.datetime) :
  exists (c : ascii) (rest : string),
    stamp_ now = String c rest
    /\ Py.digit c <> None
    /\ Py.contains "/" (stamp_ now) = false
    /\ String.length (strftime_stamp now) = 15.
Proof.
  unfold stamp_, strftime_stamp, Py.show4, Py.show2.
  cbn [String.append]. eexists. eexists. split; [reflexivity|].
  split; [rewrite digit_show; discriminate|].
  split; [|reflexivity].
  cbn [Py.contains].
  rewrite !(fun n => digit_char_is_not n "/" eq_refl). reflexivity.
Qed.

Lemma split_prefix (c : ascii) (a s : string) :
  Py.contains c a = false ->
  Py.split c (a ++ s) =
  match Py.split c s with
  | p :: ps => (a ++ p) :: ps
  | [] => [a]
  end.
Proof.
  induction a as [|x a IH]; cbn [String.append Py.contains Py.split]; intro H.
  - destruct (Py.split c s) eqn:E; [|reflexivity].
    now destruct (split_not_nil c s).
  - apply orb_false_iff in H. destruct H as [H1 H2].
    rewrite H1, (IH H2). destruct (Py.split c s); reflexivity.
Qed.

Lemma photos_dir : PHOTOS_DIR = Path.mk false ["photos"].
Proof. reflexivity. Qed.

(** The components of the path built for an upload. *)
Lemma photo_filepath_parts (now : Strptime.datetime) (name : string)
      (p0 : string) (ps : list string) :
  Py.split "/" (Py.replace " " "_" name) = p0 :: ps ->
  photo_filepath now name
  = Path.mk false ("photos" :: (stamp_ now ++ p0) :: filter Path.is_part ps).
Proof.
  intro E. unfold photo_filepath, Path.join, Path.parse.
  change (strftime_stamp now ++ "_" ++ Py.replace " " "_" name)%string
    with (strftime_stamp now ++ String "_" (Py.replace " " "_" name))%string.
  replace (strftime_stamp now ++ String "_" (Py.replace " " "_" name))%string
    with (stamp_ now ++ Py.replace " " "_" name)%string
    by (unfold stamp_; now rewrite string_app_assoc).
  destruct (stamp_shape now) as (c & rest & Es & Hd & Hs & _).
  rewrite (split_prefix _ _ _ Hs), E.
  assert (Hc : forall k, Py.digit k = None -> Ascii.eqb c k = false).
  { intros k Hk. destruct (Ascii.eqb_spec c k) as [->|]; congruence. }
  cbn [Path.absolute Path.parts filter].
  replace (Path.starts_with_slash (stamp_ now ++ Py.replace " " "_" name)) with false
    by (rewrite Es; cbn; now rewrite (Hc "/"%char eq_refl)).
  replace (Path.is_part (stamp_ now ++ p0)) with true; [reflexivity|].
  rewrite Es. unfold Path.is_part. cbn [String.append String.eqb].
  now rewrite (Hc "."%char eq_refl).
Qed.

Lemma removelast_two {A : Type} (a b : A) (l : list A) :
  removelast (a :: b :: l) = [a] <-> l = [].
Proof.
  destruct l as [|c l]; cbn; [tauto|].
  split; [|discriminate]. destruct l; discriminate.
Qed.

(** C10, as the program has it: the name is changed only in that each
    blank becomes an underscore, and the path built for the file is the
    directory "photos" joined with the time stamp, an underscore and that
    name.  Read as a path, the name is cut at its separators: the path is
    an entry of "photos" itself exactly when no component other than "."
    follows a separator, and then, for a name the file system takes, the
    file is written there and the path is the reference returned.  A name
    with a further component gives a
    path with as many components more, ".." among them if the name has
    it; what [open] does with such a path is left out. *)
Theorem photo_reference
        (now : Strptime.datetime) (name content : string) (w : world) :
  let safe := Py.replace " " "_" name in
  let p := photo_filepath now name in
  String.length safe = String.length name
  /\ (forall i, String.get i safe
                = option_map (fun c => if Ascii.eqb c " " then "_"%char else c)
                             (String.get i name))
  /\ p = Path.join PHOTOS_DIR (strftime_stamp now ++ "_" ++ safe)%string
  /\ String.length (strftime_stamp now) = 15
  /\ (Path.parent p = PHOTOS_DIR -> storable name = true ->
      enregistrer_photo now (Some (mkupload name content)) w
      = (Ok (Path.str p), write_file (Path.str p) content w))
  /\ (Py.contains "/" name = false ->
      Path.str p = ("photos/" ++ strftime_stamp now ++ "_" ++ safe)%string
      /\ Path.parent p = PHOTOS_DIR)
  /\ (forall p0 ps,
         Py.split "/" safe = p0 :: ps ->
         Path.parts p = "photos" :: (strftime_stamp now ++ "_" ++ p0)%string
                                 :: filter Path.is_part ps
         /\ (Path.parent p = PHOTOS_DIR <-> filter Path.is_part ps = [])).
Proof.
  intros safe p.
  split; [apply replace_length|]. split; [apply replace_get|].
  split; [reflexivity|].
  split; [now destruct (stamp_shape now) as (? & ? & _ & _ & _ & L)|].
  split; [reflexivity|].
  assert (St : forall s, (stamp_ now ++ s = strftime_stamp now ++ "_" ++ s)%string).
  { intro s. unfold stamp_. now rewrite string_app_assoc. }
  split.
  - intro Hn.
    assert (E : Py.split "/" safe = [safe]).
    { apply split_without. unfold safe. now rewrite replace_keeps_slash. }
    unfold p. rewrite (photo_filepath_parts now name safe [] E).
    split; [|reflexivity].
    unfold Path.str. cbn [Path.parts Path.absolute filter String.concat].
    now rewrite St.
  - intros p0 ps E. unfold p. rewrite (photo_filepath_parts now name p0 ps E).
    cbn [Path.parts]. rewrite St. split; [reflexivity|].
    rewrite photos_dir. unfold Path.parent. cbn [Path.parts Path.absolute].
    split.
    + intro R. apply (f_equal Path.parts) in R.
      exact (proj1 (removelast_two _ _ _) R).
    + intros ->. reflexivity.
Qed.

(** C10 as stated fails on its last part: a name can hold a separator and
    the file still be written in "photos" itself, under the reference
    returned (a separator at the end of the name). *)
Lemma separator_does_not_leave_photos :
  Py.contains "/" "a/" = true
  /\ storable "a/" = true
  /\ enregistrer_photo midi (Some (mkupload "a/" "JFIF")) fresh_world
     = (Ok "photos/20240601_120000_a",
        mkworld None true [("photos/20240601_120000_a", "JFIF")] None [])
  /\ Path.parent (photo_filepath midi "a/") = PHOTOS_DIR.
Proof. repeat split; reflexivity. Qed.

Lemma photo_reference_witness :
  Path.str (photo_filepath midi "mon bar.jpg")
  = "photos/20240601_120000_mon_bar.jpg"
  /\ Path.parent (photo_filepath midi "mon bar.jpg") = PHOTOS_DIR
  /\ enregistrer_photo midi (Some (mkupload "mon bar.jpg" "JFIF")) fresh_world
     = (Ok "photos/20240601_120000_mon_bar.jpg",
        mkworld None true [("photos/20240601_120000_mon_bar.jpg", "JFIF")]
                None []).
Proof.
  destruct (photo_reference midi "mon bar.jpg" "JFIF" fresh_world)
    as (_ & _ & _ & _ & W & F & _).
  destruct (F eq_refl) as [S P]. split; [exact S|]. split; [exact P|].
  exact (W P eq_refl).
Defined.

Open Scope nat_scope.

(** * Further properties of the program *)

(** ** Times of day *)

Lemma exec_dS {A : Type} (s : string) (k : string -> string -> option A) :
  Strptime.exec (Strptime.regex_of Strptime.dS) s k =
  orelse (two_digits (fun v => v <? 62) s k) (one_digit (fun _ => true) s k).
Proof.
  unfold orelse, two_digits, one_digit.
  destruct s as [|a [|b r]]; cbn [Strptime.regex_of Strptime.exec Strptime.D];
    as_digit_tests; digits_of; cbn [String.append]; repeat break_once;
    try reflexivity;
    try (destruct (k _ _); reflexivity).
Qed.

Lemma hhmm_range (s : string) (t : time) :
  hhmm s = Some t -> thour t < 24 /\ tminute t < 60 /\ tsecond t = 0.
Proof.
  unfold hhmm.
  destruct s as [|a [|b [|c [|d [|e [|f r]]]]]]; try discriminate.
  destruct (Py.digit a), (Py.digit b), (Py.digit d), (Py.digit e);
    try discriminate.
  destruct (Ascii.eqb c ":" && (10 * n + n0 <? 24) && (10 * n1 + n2 <? 60)) eqn:E;
    [|discriminate].
  intros [= <-]. cbn. props. auto.
Qed.

Lemma hhmm_strftime (t : time) :
  thour t < 24 -> tminute t < 60 -> tsecond t = 0 ->
  hhmm (strftime_HM t) = Some t.
Proof.
  destruct t as [h m s]. cbn [thour tminute tsecond]. intros Hh Hm ->.
  unfold strftime_HM, Py.show2. cbn [thour tminute String.append hhmm].
  rewrite !digit_show, !digits2 by lia.
  replace (h <? 24) with true by (symmetry; now apply Nat.ltb_lt).
  replace (m <? 60) with true by (symmetry; now apply Nat.ltb_lt).
  reflexivity.
Qed.

Lemma strip_strftime_HM (t : time) : Py.strip (strftime_HM t) = strftime_HM t.
Proof.
  unfold strftime_HM, Py.show2. cbn [String.append].
  apply strip_rendered; [apply digit_char_not_space|].
  cbn [ends_well]. now rewrite digit_char_not_space.
Qed.

Lemma normalise_strftime_HM (t : time) :
  normalise_time_text (strftime_HM t) = strftime_HM t.
Proof.
  unfold strftime_HM, Py.show2, normalise_time_text.
  cbn [String.append Py.contains Py.split].
  rewrite !(fun n => digit_char_is_not n ":" eq_refl).
  cbn [Ascii.eqb Bool.eqb orb Py.zfill2 String.append]. reflexivity.
Qed.

(** What the strict parser accepts is what the padded text reads as. *)
Lemma accepted_time (s : string) (t : time) :
  parse_time_from_text s = Ok t ->
  hhmm (normalise_time_text (Py.strip s)) = Some t.
Proof.
  intro P.
  pose proof (strptime_HM_normal _ (normalise_time_text_normal (Py.strip s))) as E.
  fold (parse_time_from_text s) in E. rewrite P in E.
  destruct (hhmm (normalise_time_text (Py.strip s))) as [t'|];
    [|discriminate].
  now injection E as <-.
Qed.

(** A time rendered as HH:MM is accepted by the strict parser. *)
Lemma rendered_time_accepted (t : time) :
  thour t < 24 -> tminute t < 60 -> tsecond t = 0 ->
  parse_time_from_text (strftime_HM t) = Ok t.
Proof.
  intros R1 R2 R3. unfold parse_time_from_text.
  rewrite strip_strftime_HM, normalise_strftime_HM.
  pose proof (strptime_HM_normal (strftime_HM t)) as E'.
  rewrite (hhmm_strftime t R1 R2 R3) in E'. apply E'.
  rewrite <- (normalise_strftime_HM t). apply normalise_time_text_normal.
Qed.

(** X1: what the strict parser accepts is a time of day with hour below
    24, minute below 60 and no seconds, and the rendering of that time as
    HH:MM is accepted again as the same time. *)
Theorem parse_time_from_text_round_trip (s : string) (t : time) :
  parse_time_from_text s = Ok t ->
  thour t < 24 /\ tminute t < 60 /\ tsecond t = 0
  /\ parse_time_from_text (strftime_HM t) = Ok t.
Proof.
  intro P. pose proof (accepted_time s t P) as Hh.
  destruct (hhmm_range _ _ Hh) as (R1 & R2 & R3).
  repeat split; try assumption.
  now apply rendered_time_accepted.
Qed.

Lemma parse_time_from_text_round_trip_witness :
  parse_time_from_text (strftime_HM (mktime 7 5 0)) = Ok (mktime 7 5 0).
Proof.
  now destruct (parse_time_from_text_round_trip " 7:5 " (mktime 7 5 0) eq_refl)
    as (_ & _ & _ & R).
Defined.

Lemma strptime_HM_of_time (t : time) :
  thour t < 24 -> tminute t < 60 -> tsecond t = 0 ->
  exists dt, Strptime.strptime (strftime_HM t) "%H:%M" = Ok dt
             /\ time_of dt = t.
Proof.
  intros Hh Hm Hs.
  pose proof (strptime_HM_normal (strftime_HM t)) as E.
  rewrite (hhmm_strftime t Hh Hm Hs) in E.
  destruct (Strptime.strptime (strftime_HM t) "%H:%M") as [dt|e].
  - exists dt. split; [reflexivity|].
    assert (N : normal (strftime_HM t))
      by (rewrite <- (normalise_strftime_HM t); apply normalise_time_text_normal).
    specialize (E N). cbn in E. now injection E.
  - assert (N : normal (strftime_HM t))
      by (rewrite <- (normalise_strftime_HM t); apply normalise_time_text_normal).
    specialize (E N). discriminate.
Qed.

Lemma strptime_HM_rejects_HMS (t : time) :
  Strptime.strptime (strftime_HMS t) "%H:%M" = Raise ValueError.
Proof.
  pose proof (strptime_HM_normal (strftime_HMS t)) as E.
  assert (N : normal (strftime_HMS t)).
  { unfold normal, strftime_HMS, Py.show2. intros h m.
    cbn [String.append Py.split].
    rewrite !(fun n => digit_char_is_not n ":" eq_refl).
    cbn [Ascii.eqb Bool.eqb]. discriminate. }
  specialize (E N).
  replace (hhmm (strftime_HMS t)) with (@None time) in E by reflexivity.
  destruct (Strptime.strptime (strftime_HMS t) "%H:%M") as [dt|e] eqn:S;
    [discriminate|].
  unfold Strptime.strptime in S.
  destruct (Strptime.compile "%H:%M"); [|congruence].
  destruct (Strptime.exec_format l (strftime_HMS t) Strptime.defaults)
    as [[d [|c r]]|]; try congruence.
  destruct (Strptime.valid_date _ _ _); congruence.
Qed.

Lemma strptime_HMS_of_time (t : time) :
  is_time t = true ->
  Strptime.strptime (strftime_HMS t) "%H:%M:%S"
  = Ok (Strptime.mkdatetime 1900 1 1 (thour t) (tminute t) (tsecond t)).
Proof.
  destruct t as [h m s]. unfold is_time. cbn [thour tminute tsecond].
  intro V. props.
  unfold Strptime.strptime.
  change (Strptime.compile "%H:%M:%S")
    with (Some [Strptime.Dir Strptime.dH; Strptime.Lit ":";
                Strptime.Dir Strptime.dM; Strptime.Lit ":";
                Strptime.Dir Strptime.dS]).
  unfold strftime_HMS, Py.show2.
  cbn [String.append Strptime.exec_format thour tminute tsecond].
  rewrite exec_dH. unfold orelse at 1.
  rewrite two_digits_chars by (cbv beta; first [lia | apply Nat.ltb_lt; lia]).
  cbn [Ascii.eqb Bool.eqb Strptime.exec_format].
  rewrite exec_dM. unfold orelse at 1.
  rewrite two_digits_chars by (cbv beta; first [lia | apply Nat.ltb_lt; lia]).
  cbn [Ascii.eqb Bool.eqb Strptime.exec_format].
  rewrite exec_dS. unfold orelse at 1.
  rewrite two_digits_chars by (cbv beta; first [lia | apply Nat.ltb_lt; lia]).
  rewrite !int_show2 by lia.
  cbn [Strptime.set_field Strptime.defaults Strptime.year Strptime.month
       Strptime.day Strptime.hour Strptime.minute Strptime.second].
  rewrite valid_1900. reflexivity.
Qed.

Lemma try_time_formats_total (s : string) (fmts : list string) :
  exists r, try_time_formats s fmts = Ok r.
Proof.
  induction fmts as [|f fmts IH]; cbn [try_time_formats].
  - now exists None.
  - unfold datetime_strptime, Strptime.strptime.
    destruct (Strptime.compile f) as [items|]; [|exact IH].
    destruct (Strptime.exec_format items s Strptime.defaults)
      as [[t [|c r]]|]; try exact IH.
    destruct (Strptime.valid_date _ _ _); [|exact IH].
    cbn [rbind].
    destruct ((Strptime.hour t <? 24) && (Strptime.minute t <? 60)
              && (Strptime.second t <? 60)); [|exact IH].
    now exists (Some (time_of t)).
Qed.

Lemma strip_strftime_HMS (t : time) : Py.strip (strftime_HMS t) = strftime_HMS t.
Proof.
  unfold strftime_HMS, Py.show2. cbn [String.append].
  apply strip_rendered; [apply digit_char_not_space|].
  cbn [ends_well]. now rewrite digit_char_not_space.
Qed.

Section StoredTimes.
Context `{Pandas}.

(** X2: the lenient parser of stored times reads back a time written as
    HH:MM or as HH:MM:SS; a missing value, the empty text, a text in
    neither form and a leap second (23:59:60, which the pattern admits and
    the constructor refuses) give the time of the clock, to the minute; it
    never raises.  In particular the time saved by the add form is the
    one the edit form shows. *)
Theorem parse_time_str_reads_stored_times (now : Strptime.datetime) :
  (forall t, thour t < 24 -> tminute t < 60 -> tsecond t = 0 ->
             parse_time_str now (Txt (strftime_HM t)) = Ok t)
  /\ (forall t, is_time t = true ->
                parse_time_str now (Txt (strftime_HMS t)) = Ok t)
  /\ (forall s t, parse_time_from_text s = Ok t ->
                  parse_time_str now (Txt (strftime_HM t)) = Ok t)
  /\ parse_time_str now NaN = Ok (clock_time now)
  /\ parse_time_str now (Txt "") = Ok (clock_time now)
  /\ parse_time_str now (Txt "23:59:60") = Ok (clock_time now)
  /\ (forall v,
         (forall fmt, In fmt time_formats ->
                      datetime_strptime (Py.strip (py_str v)) fmt = Raise ValueError) ->
         parse_time_str now v = Ok (clock_time now))
  /\ (forall v, exists t, parse_time_str now v = Ok t).
Proof.
  assert (HM : forall t, thour t < 24 -> tminute t < 60 -> tsecond t = 0 ->
                         parse_time_str now (Txt (strftime_HM t)) = Ok t).
  { intros t Hh Hm Hs. unfold parse_time_str.
    replace (isna (Txt (strftime_HM t)) || is_empty_text (Txt (strftime_HM t)))
      with false by reflexivity.
    cbn [py_str]. rewrite strip_strftime_HM.
    unfold time_formats. cbn [try_time_formats]. unfold datetime_strptime.
    destruct (strptime_HM_of_time t Hh Hm Hs) as (dt & -> & <-).
    cbn [rbind]. destruct dt as [y mo d h m s]. cbn in Hh, Hm, Hs. subst s.
    cbn [Strptime.hour Strptime.minute Strptime.second].
    replace (h <? 24) with true by (symmetry; now apply Nat.ltb_lt).
    replace (m <? 60) with true by (symmetry; now apply Nat.ltb_lt).
    reflexivity. }
  split; [exact HM|]. split; [|split; [|split; [|split; [|split; [|split]]]]].
  - intros t V. unfold parse_time_str.
    replace (isna (Txt (strftime_HMS t)) || is_empty_text (Txt (strftime_HMS t)))
      with false by reflexivity.
    cbn [py_str]. rewrite strip_strftime_HMS.
    unfold time_formats. cbn [try_time_formats]. unfold datetime_strptime.
    rewrite strptime_HM_rejects_HMS, (strptime_HMS_of_time t V).
    cbn [rbind Strptime.hour Strptime.minute Strptime.second].
    unfold is_time in V. rewrite V. now destruct t.
  - intros s t P.
    destruct (hhmm_range _ _ (accepted_time s t P)) as (R1 & R2 & R3).
    now apply HM.
  - reflexivity.
  - reflexivity.
  - reflexivity.
  - intros v Hv. unfold parse_time_str.
    destruct (isna v || is_empty_text v); [reflexivity|].
    unfold time_formats in *. cbn [try_time_formats].
    rewrite !Hv by (cbn; auto). reflexivity.
  - intro v. unfold parse_time_str.
    destruct (isna v || is_empty_text v); [now exists (clock_time now)|].
    destruct (try_time_formats_total (Py.strip (py_str v)) time_formats) as [r ->].
    destruct r as [t|]; [now exists t | now exists (clock_time now)].
Qed.


Lemma try_time_formats_range (s : string) (fmts : list string) (t : time) :
  try_time_formats s fmts = Ok (Some t) -> is_time t = true.
Proof.
  induction fmts as [|f fmts IH]; cbn [try_time_formats]; [discriminate|].
  unfold datetime_strptime.
  destruct (Strptime.strptime s f) as [dt|[]]; cbn [rbind]; try discriminate;
    try exact IH.
  destruct ((Strptime.hour dt <? 24) && (Strptime.minute dt <? 60)
            && (Strptime.second dt <? 60)) eqn:V; [|exact IH].
  intros [= <-]. exact V.
Qed.

(** X3: when the clock shows a time of day, the default text of the time
    field is always one the strict parser accepts, in the add form (the
    clock rendered as HH:MM) and in the edit form (what the lenient parser
    reads from the stored value, rendered as HH:MM): saving a form as
    shown never fails on the time, and the edit form then stores the hour
    and the minute read, without the seconds. *)
Theorem form_default_times_are_accepted (now : Strptime.datetime) :
  Strptime.hour now < 24 -> Strptime.minute now < 60 ->
  parse_time_from_text (strftime_HM (clock_time now)) = Ok (clock_time now)
  /\ forall (value : cell) (t : time),
       parse_time_str now value = Ok t ->
       thour t < 24 /\ tminute t < 60 /\ tsecond t < 60
       /\ parse_time_from_text (strftime_HM t)
          = Ok (mktime (thour t) (tminute t) 0).
Proof.
  intros Nh Nm. split; [now apply rendered_time_accepted|].
  intros value t E.
  assert (V : is_time t = true).
  { unfold parse_time_str in E.
    destruct (isna value || is_empty_text value).
    - injection E as <-. unfold is_time, clock_time.
      cbn [thour tminute tsecond].
      apply Nat.ltb_lt in Nh, Nm. now rewrite Nh, Nm.
    - destruct (try_time_formats _ time_formats) as [[t'|]|e] eqn:T;
        cbn [rbind] in E; [| |discriminate].
      + injection E as <-. exact (try_time_formats_range _ _ _ T).
      + injection E as <-. unfold is_time, clock_time.
        cbn [thour tminute tsecond].
        apply Nat.ltb_lt in Nh, Nm. now rewrite Nh, Nm. }
  unfold is_time in V. props.
  repeat split; try assumption.
  change (strftime_HM t) with (strftime_HM (mktime (thour t) (tminute t) 0)).
  now apply rendered_time_accepted.
Qed.

End StoredTimes.

Lemma parse_time_str_reads_stored_times_witness :
  parse_time_str midi (Txt "06:30") = Ok (mktime 6 30 0)
  /\ parse_time_str midi (Txt "06:30:15") = Ok (mktime 6 30 15)
  /\ parse_time_str midi (Txt "6h30") = Ok (mktime 12 0 0).
Proof.
  pose proof (parse_time_str_reads_stored_times midi)
    as (A & B & _ & _ & _ & _ & F & _).
  split; [|split].
  - apply (A (mktime 6 30 0)); cbn; lia.
  - apply (B (mktime 6 30 15)). reflexivity.
  - apply (F (Txt "6h30")). intros fmt [<-|[<-|[]]]; reflexivity.
Defined.

Lemma form_default_times_are_accepted_witness :
  parse_time_from_text (strftime_HM (clock_time midi)) = Ok (clock_time midi)
  /\ parse_time_from_text (strftime_HM (mktime 6 30 15)) = Ok (mktime 6 30 0).
Proof.
  destruct (form_default_times_are_accepted midi) as [A B].
  - cbn. lia.
  - cbn. lia.
  - split; [exact A|].
    now destruct (B (Txt "06:30:15") (mktime 6 30 15) eq_refl) as (_ & _ & _ & R).
Defined.

(** ** Dates that are not in the calendar *)

Lemma strptime_canonical_fields (y m d : nat) :
  y < 10 * 1000 -> 1 <= m <= 12 -> 1 <= d <= 31 ->
  Strptime.strptime (to_canonical (mkdate y m d)) "%Y-%m-%d" =
  if Strptime.valid_date y m d
  then Ok (Strptime.mkdatetime y m d 0 0 0) else Raise ValueError.
Proof.
  intros Hy Hm Hd. unfold Strptime.strptime.
  change (Strptime.compile "%Y-%m-%d")
    with (Some [Strptime.Dir Strptime.dY; Strptime.Lit "-";
                Strptime.Dir Strptime.dm; Strptime.Lit "-";
                Strptime.Dir Strptime.dd]).
  open_format. do 3 read_field.
  rewrite ?int_show2, ?int_show4 by lia.
  cbn [Strptime.set_field Strptime.defaults Strptime.year Strptime.month
       Strptime.day Strptime.hour Strptime.minute Strptime.second].
  reflexivity.
Qed.

Lemma strptime_dmy_fields (sep : ascii) (fmt : string) (y m d : nat) :
  Strptime.compile fmt =
    Some [Strptime.Dir Strptime.dd; Strptime.Lit sep;
          Strptime.Dir Strptime.dm; Strptime.Lit sep;
          Strptime.Dir Strptime.dY] ->
  y < 10 * 1000 -> 1 <= m <= 12 -> 1 <= d <= 31 ->
  Strptime.strptime (render_dmy sep (mkdate y m d)) fmt =
  if Strptime.valid_date y m d
  then Ok (Strptime.mkdatetime y m d 0 0 0) else Raise ValueError.
Proof.
  intros F Hy Hm Hd. unfold Strptime.strptime. rewrite F.
  open_format. read_field. rewrite Ascii.eqb_refl.
  cbn [Strptime.exec_format]. read_field. rewrite Ascii.eqb_refl.
  cbn [Strptime.exec_format]. read_field.
  rewrite ?int_show2, ?int_show4 by lia.
  cbn [Strptime.set_field Strptime.defaults Strptime.year Strptime.month
       Strptime.day Strptime.hour Strptime.minute Strptime.second].
  reflexivity.
Qed.

(** A text that starts with three digits is no day followed by a
    separator. *)
Lemma strptime_dmy_rejects_canonical (sep : ascii) (fmt : string) (d : date) :
  Strptime.compile fmt =
    Some [Strptime.Dir Strptime.dd; Strptime.Lit sep;
          Strptime.Dir Strptime.dm; Strptime.Lit sep;
          Strptime.Dir Strptime.dY] ->
  Py.digit sep = None ->
  Strptime.strptime (to_canonical d) fmt = Raise ValueError.
Proof.
  intros F S. unfold Strptime.strptime. rewrite F.
  open_format. rewrite exec_dd.
  unfold orelse, two_digits, one_digit, blank_digit.
  rewrite !digit_show.
  rewrite (digit_char_is_not (dyear d / 1000) " ") by reflexivity.
  cbn [Strptime.exec_format].
  rewrite (digit_char_is_not (dyear d / 10) sep S).
  rewrite (digit_char_is_not (dyear d / 100) sep S).
  repeat match goal with
         | |- context [if ?b then _ else _] => destruct b
         end; reflexivity.
Qed.

(** A day followed by another separator than the one of the format. *)
Lemma strptime_dmy_rejects_separator (sep other : ascii) (fmt : string)
      (y m d : nat) :
  Strptime.compile fmt =
    Some [Strptime.Dir Strptime.dd; Strptime.Lit other;
          Strptime.Dir Strptime.dm; Strptime.Lit other;
          Strptime.Dir Strptime.dY] ->
  Ascii.eqb sep other = false -> Py.digit other = None ->
  Strptime.strptime (render_dmy sep (mkdate y m d)) fmt = Raise ValueError.
Proof.
  intros F N S. unfold Strptime.strptime. rewrite F.
  open_format. rewrite exec_dd.
  unfold orelse, two_digits, one_digit, blank_digit.
  rewrite !digit_show.
  rewrite (digit_char_is_not (d / 10) " ") by reflexivity.
  cbn [Strptime.exec_format].
  rewrite N, (digit_char_is_not d other S).
  repeat match goal with
         | |- context [if ?b then _ else _] => destruct b
         end; reflexivity.
Qed.

Section Calendar.
Context `{Pandas}.

(** X4: a text in one of the three accepted forms whose day does not
    exist in its month (or whose year is 0) is not refused: as the date of
    a record it is read as today's date. *)
Theorem parse_date_str_impossible_date (today d : date) :
  dyear d < 10 * 1000 -> 1 <= dmonth d <= 12 -> 1 <= dday d <= 31 ->
  is_date d = false ->
  parse_date_str today (Txt (to_canonical d)) = Ok today
  /\ parse_date_str today (Txt (render_dmy "/" d)) = Ok today
  /\ parse_date_str today (Txt (render_dmy "-" d)) = Ok today.
Proof.
  destruct d as [y m dd]. unfold is_date. cbn [dyear dmonth dday].
  intros Hy Hm Hd V. unfold parse_date_str. cbn [isna py_str].
  rewrite strip_to_canonical, !strip_render_dmy.
  unfold date_formats. cbn [try_formats].
  rewrite (strptime_canonical_fields y m dd Hy Hm Hd), V.
  rewrite (strptime_dmy_rejects_canonical "/" "%d/%m/%Y") by reflexivity.
  rewrite (strptime_dmy_rejects_canonical "-" "%d-%m-%Y") by reflexivity.
  rewrite !strptime_ymd_rejects_dmy by reflexivity.
  rewrite (strptime_dmy_fields "/" "%d/%m/%Y" y m dd eq_refl Hy Hm Hd), V.
  rewrite (strptime_dmy_rejects_separator "/" "-" "%d-%m-%Y") by reflexivity.
  rewrite (strptime_dmy_rejects_separator "-" "/" "%d/%m/%Y") by reflexivity.
  rewrite (strptime_dmy_fields "-" "%d-%m-%Y" y m dd eq_refl Hy Hm Hd), V.
  repeat split; reflexivity.
Qed.

End Calendar.

Lemma parse_date_str_impossible_date_witness :
  parse_date_str (mkdate 2025 1 15) (Txt "2023-02-29") = Ok (mkdate 2025 1 15)
  /\ parse_date_str (mkdate 2025 1 15) (Txt "31/04/2024") = Ok (mkdate 2025 1 15).
Proof.
  split.
  - apply (parse_date_str_impossible_date (mkdate 2025 1 15) (mkdate 2023 2 29));
      cbn; try lia; reflexivity.
  - apply (parse_date_str_impossible_date (mkdate 2025 1 15) (mkdate 2024 4 31));
      cbn; try lia; reflexivity.
Defined.

(** ** Editing a record *)

Section Edit.
Context `{Pandas}.

(** The value and the world after the edit block, once the row has been
    found and the time accepted. *)
Lemma modifier_accepted (now : Strptime.datetime) (selected_id : nat)
      (f : prise) (df : DataFrame) (w : world) (heure : time)
      (row : list cell) (old : cell) :
  nth_error (rows df) selected_id = Some row ->
  parse_time_from_text (p_heure_str f) = Ok heure ->
  get (columns df) row "photo_fichier" = Ok old ->
  let photo := match p_photo f with
               | None => old
               | Some u => Txt (Path.str (photo_filepath now (up_name u)))
               end in
  let files := match p_photo f with
               | None => photo_files w
               | Some u => (photo_files w
                            ++ [(Path.str (photo_filepath now (up_name u)),
                                 up_content u)])%list
               end in
  let df1 := edited df selected_id f heure photo in
  let file := if writable w then Some (to_csv df1) else data_file w in
  let shown := if writable w then [OkPriseMiseAJour]
               else [ErrStoreLocked; OkPriseMiseAJour] in
  modifier now selected_id f df w =
  match load_data_body file with
  | Ok d => (Ok d, mkworld file (writable w) files (Some d)
                           (screen w ++ shown)%list)
  | Raise e => (Raise e, mkworld file (writable w) files None
                                 (screen w ++ shown)%list)
  end.
Proof.
  intros R P G. unfold modifier, iloc0. rewrite R.
  destruct w as [file wr photos c scr].
  unfold bind at 1, lift at 1. rewrite P.
  unfold bind at 1, lift at 1. rewrite G.
  unfold edited.
  destruct (p_photo f) as [u|]; run_actions;
    destruct wr; run_actions;
    destruct (load_data_body _); rewrite <- ?app_assoc; reflexivity.
Qed.

End Edit.

(** ** The cache and the file *)

Section Cache.
Context `{Pandas}.

Lemma load_data_coherent (w : world) :
  coherent w -> coherent (snd (load_data w)).
Proof.
  unfold coherent, load_data. destruct (cache w) as [df|] eqn:C.
  - cbn [snd]. now rewrite C.
  - intros _. destruct (load_data_body (data_file w)) eqn:L;
      cbn [snd set_cache cache data_file]; [exact L | now rewrite C].
Qed.

Lemma bind_coherent {A B : Type} (m : M A) (k : A -> M B) (w : world) :
  (forall v, coherent v -> coherent (snd (m v))) ->
  (forall a v, coherent v -> coherent (snd (k a v))) ->
  coherent w -> coherent (snd (bind m k w)).
Proof.
  intros Hm Hk Hw. unfold bind. specialize (Hm w Hw).
  destruct (m w) as [[a|e] w1]; cbn [snd] in *; auto.
Qed.

Lemma say_coherent (msg : message) (w : world) :
  coherent w -> coherent (say msg w).
Proof. destruct w. exact (fun c => c). Qed.

Lemma ajouter_coherent (now : Strptime.datetime) (f : prise) (df : DataFrame)
      (w : world) :
  coherent w -> coherent (snd (ajouter now f df w)).
Proof.
  intro Hw. destruct (parse_time_from_text (p_heure_str f)) as [heure|e] eqn:P.
  - destruct (ajouter_accepted now f df w heure P)
      as (photo & w1 & _ & _ & _ & _ & E).
    rewrite E. cbv zeta.
    destruct (load_data_body _) eqn:L; cbn [snd]; [exact L | exact I].
  - unfold ajouter. rewrite P. now apply say_coherent.
Qed.

Lemma modifier_coherent (now : Strptime.datetime) (selected_id : nat)
      (f : prise) (df : DataFrame) (w : world) :
  coherent w -> coherent (snd (modifier now selected_id f df w)).
Proof.
  intro Hw.
  destruct (nth_error (rows df) selected_id) as [row|] eqn:R.
  - destruct (parse_time_from_text (p_heure_str f)) as [heure|e] eqn:P.
    + destruct (get (columns df) row "photo_fichier") as [old|e] eqn:G.
      * rewrite (modifier_accepted now selected_id f df w heure row old R P G).
        cbv zeta.
        destruct (load_data_body _) eqn:L; cbn [snd]; [exact L | exact I].
      * unfold modifier, iloc0. rewrite R.
        unfold bind at 1, lift at 1. rewrite P.
        unfold bind at 1, lift at 1. rewrite G. exact Hw.
    + unfold modifier, iloc0. rewrite R.
      unfold bind at 1, lift at 1. rewrite P. now apply say_coherent.
  - unfold modifier, iloc0. rewrite R. exact Hw.
Qed.

Lemma supprimer_coherent (selected_id : nat) (df : DataFrame) (w : world) :
  coherent w -> coherent (snd (supprimer selected_id df w)).
Proof.
  intro Hw. unfold supprimer, iloc0, drop.
  destruct (nth_error (rows df) selected_id) as [row|]; [|exact Hw].
  destruct (selected_id <? List.length (rows df)); [|exact Hw].
  destruct w as [file wr photos c scr]. run_actions.
  destruct wr; exact I.
Qed.

(** X7: if the table kept by the cache is what [load_data] reads from the
    file, this is still so after a run that appends, edits or deletes a
    record, whatever the form holds and whether or not the file can be
    written; [load_data] then returns what a fresh reading of the file
    gives. *)
Theorem actions_keep_cache_coherent
        (now : Strptime.datetime) (selected_id : nat) (f : prise) (w : world) :
  coherent w ->
  coherent (snd (main_ajouter now f w))
  /\ coherent (snd (main_modifier now selected_id f w))
  /\ coherent (snd (main_supprimer selected_id w))
  /\ fst (load_data w) = load_data_body (data_file w).
Proof.
  intro Hw. repeat split.
  - apply bind_coherent; auto using load_data_coherent, ajouter_coherent.
  - apply bind_coherent; auto using load_data_coherent, modifier_coherent.
  - apply bind_coherent; auto using load_data_coherent, supprimer_coherent.
  - unfold coherent in Hw. unfold load_data.
    destruct (cache w) as [df|]; [now rewrite Hw|].
    now destruct (load_data_body (data_file w)).
Qed.

End Cache.

Lemma actions_keep_cache_coherent_witness :
  coherent (snd (main_ajouter midi un_bar fresh_world))
  /\ coherent (snd (main_modifier midi 0 un_bar fresh_world))
  /\ coherent (snd (main_supprimer 0 fresh_world)).
Proof.
  destruct (actions_keep_cache_coherent midi 0 un_bar fresh_world I)
    as (A & B & C & _).
  split; [exact A|]. split; [exact B | exact C].
Defined.

(** ** The photo gallery *)

Lemma filter_none {A : Type} (f : A -> bool) (l : list A) :
  (forall x, In x l -> f x = false) -> filter f l = [].
Proof.
  induction l as [|x l IH]; intro E; [reflexivity|].
  cbn [filter]. rewrite (E x) by now left.
  apply IH. intros y Hy. apply E. now right.
Qed.

Section Gallery.
Context `{Pandas}.

(** The cell read back, after an append, for a field written empty. *)
Lemma appended_empty_field
      (now : Strptime.datetime) (f : prise) (df0 : DataFrame) (w : world)
      (heure : time) :
  writable w = true ->
  parse_time_from_text (p_heure_str f) = Ok heure ->
  columns df0 = COLUMNS ->
  exists (photo : string) (df : DataFrame) (w' : world),
    fst (enregistrer_photo now (p_photo f) w) = Ok photo
    /\ ajouter now f df0 w = (Ok df, w')
    /\ columns df = COLUMNS
    /\ List.length (rows df) = S (List.length (rows df0))
    /\ forall c, In c COLUMNS ->
         field_text (dict_get c (row_of f heure (Txt photo))) = EmptyString ->
         cell_at df (List.length (rows df0)) c = Ok NaN.
Proof.
  intros Wr P C.
  destruct (ajouter_accepted now f df0 w heure P)
    as (photo & w1 & Eph & _ & _ & _ & E).
  rewrite Wr, (concat_row_canonical _ _ _ _ C) in E. cbv zeta in E.
  set (written := mkDF COLUMNS (rows df0 ++ [new_record f heure (Txt photo)])) in *.
  destruct (load_from (read_csv (to_csv written)) (read_csv_well_formed _))
    as (df & El & Cdf & _ & Len & Cells).
  assert (Eb : load_data_body (Some (to_csv written)) = Ok df) by exact El.
  rewrite Eb in E.
  exists photo, df. eexists. split; [now rewrite Eph|]. split; [exact E|].
  rewrite read_csv_length in Len, Cells.
  assert (Hl : List.length (lines (to_csv written)) = S (List.length (rows df0))).
  { unfold to_csv, written. cbn [lines rows].
    rewrite length_map, length_app. cbn. lia. }
  rewrite Hl in Len, Cells.
  split; [exact Cdf|]. split; [exact Len|].
  intros c Hc Empty.
  rewrite (Cells _ c (Nat.lt_succ_diag_r _) Hc).
  change (columns (read_csv (to_csv written))) with COLUMNS.
  rewrite (proj2 (has_column_In COLUMNS c) Hc).
  destruct (index_of_has COLUMNS c (proj2 (has_column_In _ _) Hc)) as [j Ej].
  rewrite (read_csv_cell (to_csv written) _ c j Ej) by (rewrite Hl; lia).
  f_equal. apply nth_error_nth. apply infer_empty.
  unfold to_csv, written. cbn [lines rows].
  rewrite map_app. cbn [map].
  rewrite <- (length_map (map field_text) (rows df0)).
  rewrite column_texts_last.
  f_equal.
  transitivity (field_text (nth j (new_record f heure (Txt photo)) NaN)).
  - exact (map_nth field_text (new_record f heure (Txt photo)) NaN j).
  - now rewrite (new_record_cell f heure (Txt photo) c j Ej).
Qed.

(** X8: the gallery keeps the rows whose photo cell, as text, is not
    empty, and the missing value counts as the text "nan".  A record
    appended without a photo has the missing value there once the table
    has been read again, so it is among the rows of the gallery, while the
    edit form, which asks for a text that is not empty, finds no photo
    for it; every record for which the edit form finds a photo is in the
    gallery; a table loaded from a file that has no photo column has the
    empty text everywhere, and its gallery is empty. *)
Theorem gallery_keeps_records_without_photo
        (now : Strptime.datetime) (f : prise) (df0 : DataFrame) (w : world)
        (heure : time) :
  writable w = true ->
  parse_time_from_text (p_heure_str f) = Ok heure ->
  columns df0 = COLUMNS ->
  p_photo f = None ->
  (exists df w' r out,
      ajouter now f df0 w = (Ok df, w')
      /\ photo_files w' = photo_files w
      /\ nth_error (rows df) (List.length (rows df0)) = Some r
      /\ get (columns df) r "photo_fichier" = Ok NaN
      /\ rbind (get (columns df) r "photo_fichier")
               (fun c => Ok (photo_actuelle c)) = Ok false
      /\ photos_df df = Ok out
      /\ In r (rows out))
  /\ (forall df out r c,
         photos_df df = Ok out -> In r (rows df) ->
         get (columns df) r "photo_fichier" = Ok c ->
         photo_actuelle c = true -> In r (rows out))
  /\ (forall file,
         has_column (header file) "photo_fichier" = false ->
         exists df, load_data_body (Some file) = Ok df
                    /\ List.length (rows df) = List.length (lines file)
                    /\ photos_df df = Ok (mkDF COLUMNS [])).
Proof.
  intros Wr P C Ph. split; [|split].
  - destruct (appended_empty_field now f df0 w heure Wr P C)
      as (photo & df & w' & Eph & E & Cdf & Len & Empty).
    rewrite Ph in Eph. cbn in Eph. injection Eph as <-.
    specialize (Empty "photo_fichier").
    unfold cell_at in Empty.
    destruct (nth_error (rows df) (List.length (rows df0))) as [r|] eqn:R.
    2:{ apply nth_error_None in R. lia. }
    assert (G : get (columns df) r "photo_fichier" = Ok NaN).
    { apply Empty; [cbn; tauto | reflexivity]. }
    exists df, w', r. eexists. split; [exact E|]. split.
    { destruct (ajouter_accepted now f df0 w heure P)
        as (photo & w1 & Eph & _ & _ & _ & E').
      rewrite E in E'. cbv zeta in E'. rewrite Ph in Eph.
      destruct w as [file wr photos c scr]. cbn in Eph.
      injection Eph as <- <-.
      destruct (load_data_body _); injection E' as _ ->; reflexivity. }
    split; [exact R|]. split; [exact G|]. split; [now rewrite G|].
    unfold photos_df. rewrite Cdf in *.
    change (index_of "photo_fichier" COLUMNS) with (Some 12).
    split; [reflexivity|]. cbn [rows].
    apply filter_In. split; [eapply nth_error_In; eassumption|].
    unfold get in G. change (index_of "photo_fichier" COLUMNS) with (Some 12) in G.
    injection G as ->. reflexivity.
  - intros df out r c G Hr Gc Hc. unfold photos_df, get in *.
    destruct (index_of "photo_fichier" (columns df)) as [j|]; [|discriminate].
    injection G as <-. injection Gc as <-. cbn [rows].
    apply filter_In. split; [exact Hr|].
    destruct (nth j r NaN) as [s| |]; try discriminate. exact Hc.
  - intros file Hno. unfold load_data_body.
    destruct (load_from (read_csv file) (read_csv_well_formed file))
      as (df & E & Cdf & _ & Len & Cells).
    exists df. split; [exact E|]. rewrite read_csv_length in Len, Cells.
    split; [exact Len|].
    unfold photos_df. rewrite Cdf.
    change (index_of "photo_fichier" COLUMNS) with (Some 12).
    cbv iota beta. f_equal. f_equal.
    apply filter_none. intros r Hr.
    destruct (In_nth_error _ _ Hr) as [i Hi].
    assert (Li : i < List.length (lines file)).
    { rewrite <- Len. apply nth_error_Some. now rewrite Hi. }
    specialize (Cells i "photo_fichier" Li).
    change (columns (read_csv file)) with (header file) in Cells.
    rewrite Hno in Cells. unfold cell_at in Cells. rewrite Hi, Cdf in Cells.
    unfold get in Cells.
    change (index_of "photo_fichier" COLUMNS) with (Some 12) in Cells.
    injection Cells as ->; [reflexivity | cbn; tauto].
Qed.

End Gallery.

Lemma gallery_keeps_records_without_photo_witness :
  exists df w' r out,
    ajouter midi un_bar (mkDF COLUMNS []) fresh_world = (Ok df, w')
    /\ nth_error (rows df) 0 = Some r
    /\ photos_df df = Ok out
    /\ In r (rows out).
Proof.
  destruct (gallery_keeps_records_without_photo midi un_bar (mkDF COLUMNS [])
              fresh_world (mktime 6 30 0) eq_refl eq_refl eq_refl eq_refl)
    as ((df & w' & r & out & E & _ & R & _ & _ & G & I) & _).
  exists df, w', r, out. repeat split; assumption.
Defined.

(** ** The selector of the record to edit or delete *)

Lemma string_of_uint_no_space (d : Decimal.uint) (i : nat) :
  String.get i (NilEmpty.string_of_uint d) <> Some " "%char.
Proof.
  revert i. induction d; intros [|i]; cbn; try discriminate; apply IHd.
Qed.

Lemma str_int_inj (n m : nat) : str_int n = str_int m -> n = m.
Proof.
  unfold str_int. intro E.
  apply (f_equal NilEmpty.uint_of_string) in E.
  rewrite !NilEmpty.usu in E. injection E as E.
  now apply DecimalNat.Unsigned.to_uint_inj.
Qed.

(** Two texts without a blank that are followed by a blank are the same
    text when the whole texts are. *)
Lemma cut_at_blank (a b s t : string) :
  (forall i, String.get i a <> Some " "%char) ->
  (forall i, String.get i b <> Some " "%char) ->
  (a ++ String " " s = b ++ String " " t)%string -> a = b.
Proof.
  revert b. induction a as [|c a IH]; intros [|d b] Ha Hb E; cbn in E.
  - reflexivity.
  - injection E as E _. exfalso. apply (Hb 0). cbn. now rewrite E.
  - injection E as E _. exfalso. apply (Ha 0). cbn. now rewrite E.
  - injection E as -> E. f_equal.
    apply IH; [intro i; exact (Ha (S i)) | intro i; exact (Hb (S i)) | exact E].
Qed.

Lemma find_selected_first (opts : list (nat * string)) (k id : nat)
      (label : string) :
  nth_error opts k = Some (id, label) ->
  (forall j o, j < k -> nth_error opts j = Some o -> snd o <> label) ->
  find_selected opts label = Some id.
Proof.
  revert k. induction opts as [|[i l] opts IH]; intros [|k] E D;
    try discriminate.
  - cbn in E. injection E as -> ->. cbn. now rewrite String.eqb_refl.
  - cbn [find_selected].
    destruct (String.eqb l label) eqn:Q.
    + apply String.eqb_eq in Q. exfalso.
      apply (D 0 (i, l)); [lia | reflexivity | exact Q].
    + apply (IH k E). intros j o Hj Ho. apply (D (S j) o); [lia | exact Ho].
Qed.

Lemma mapM_nth {A B : Type} (f : A -> result B) (l : list A) (out : list B)
      (k : nat) (x : A) :
  mapM f l = Ok out -> nth_error l k = Some x ->
  exists y, f x = Ok y /\ nth_error out k = Some y.
Proof.
  revert out k. induction l as [|a l IH]; intros out [|k] E Hk;
    try discriminate; cbn in E, Hk.
  - injection Hk as ->. destruct (f x) as [y|]; [|discriminate].
    cbn in E. destruct (mapM f l); [|discriminate].
    injection E as <-. now exists y.
  - destruct (f a) as [y|]; [|discriminate]. cbn in E.
    destruct (mapM f l) as [ys|]; [|discriminate].
    injection E as <-. now apply (IH ys k).
Qed.

Lemma mapM_length {A B : Type} (f : A -> result B) (l : list A) (out : list B) :
  mapM f l = Ok out -> List.length out = List.length l.
Proof.
  revert out. induction l as [|a l IH]; intros out E; cbn in E.
  - now injection E as <-.
  - destruct (f a); [|discriminate]. cbn in E.
    destruct (mapM f l) as [ys|]; [|discriminate].
    injection E as <-. cbn. now rewrite (IH ys).
Qed.

Lemma reset_index_nth (df : DataFrame) (k : nat) (row : list cell) :
  nth_error (rows df) k = Some row ->
  nth_error (reset_index df) k = Some (k, row).
Proof.
  intro R. unfold reset_index.
  assert (Hk : k < List.length (rows df))
    by (apply nth_error_Some; now rewrite R).
  rewrite (nth_error_nth' _ (0, []))
    by (rewrite length_combine, length_seq; lia).
  rewrite (combine_nth _ _ _ 0 []) by now rewrite length_seq.
  rewrite seq_nth by exact Hk.
  now rewrite (nth_error_nth _ _ [] R).
Qed.

Section Selector.
Context `{Pandas}.

Lemma option_label_canonical (id : nat) (row : list cell) :
  option_label COLUMNS id row
  = Ok (str_int id
        ++ String " " ("| " ++ py_str (nth 0 row NaN) ++ " "
           ++ py_str (nth 1 row NaN) ++ " - " ++ py_str (nth 2 row NaN) ++ " "
           ++ py_str (nth 3 row NaN) ++ " cm " ++ String "224" " "
           ++ py_str (nth 6 row NaN)))%string.
Proof. reflexivity. Qed.

(** X9: in a table with the canonical columns every record has an
    option, whose label starts with its position; the loop over the
    options gives, for the label of the record at position [k], the id
    [k], also when other records have the same date, time, species,
    length and spot; the row the forms then work on is that record. *)
Theorem selected_label_resolves_to_its_row
        (df : DataFrame) (k : nat) (row : list cell) :
  columns df = COLUMNS ->
  nth_error (rows df) k = Some row ->
  exists opts label,
    options df = Ok opts
    /\ List.length opts = List.length (rows df)
    /\ nth_error opts k = Some (k, label)
    /\ find_selected opts label = Some k
    /\ iloc0 df k = Ok row.
Proof.
  intros C R.
  set (lab := fun ir : nat * list cell =>
                (str_int (fst ir)
                 ++ String " " ("| " ++ py_str (nth 0 (snd ir) NaN) ++ " "
                    ++ py_str (nth 1 (snd ir) NaN) ++ " - "
                    ++ py_str (nth 2 (snd ir) NaN) ++ " "
                    ++ py_str (nth 3 (snd ir) NaN) ++ " cm "
                    ++ String "224" " " ++ py_str (nth 6 (snd ir) NaN)))%string).
  assert (E : options df
              = Ok (map (fun ir => (fst ir, lab ir)) (reset_index df))).
  { unfold options. apply mapM_ok. intros ir _. rewrite C.
    now rewrite option_label_canonical. }
  exists (map (fun ir => (fst ir, lab ir)) (reset_index df)), (lab (k, row)).
  split; [exact E|]. split.
  { unfold reset_index. rewrite length_map, length_combine, length_seq. lia. }
  assert (Nk : nth_error (map (fun ir => (fst ir, lab ir)) (reset_index df)) k
               = Some (k, lab (k, row))).
  { rewrite nth_error_map, (reset_index_nth df k row R). reflexivity. }
  split; [exact Nk|]. split.
  - apply (find_selected_first _ k k _ Nk).
    intros j o Hj Ho Q.
    rewrite nth_error_map in Ho.
    destruct (nth_error (rows df) j) as [rj|] eqn:Rj.
    2:{ apply nth_error_None in Rj.
        assert (k < List.length (rows df))
          by (apply nth_error_Some; now rewrite R).
        lia. }
    rewrite (reset_index_nth df j rj Rj) in Ho. cbn in Ho.
    injection Ho as <-. cbn [snd] in Q. unfold lab in Q. cbn [fst snd] in Q.
    apply cut_at_blank in Q;
      try (intro i; apply string_of_uint_no_space).
    apply str_int_inj in Q. lia.
  - unfold iloc0. now rewrite R.
Qed.

End Selector.

Lemma selected_label_resolves_to_its_row_witness :
  exists opts label,
    options cinq_prises = Ok opts
    /\ nth_error opts 4 = Some (4, label)
    /\ find_selected opts label = Some 4.
Proof.
  destruct (selected_label_resolves_to_its_row cinq_prises 4
              [Txt "2024-06-01"; Txt "06:30"; Txt "Bar"; Num (Q2Qc 40);
               Num (Q2Qc 1); Txt "kg"; Txt "Le Havre"; Txt "Jig"; Txt "X";
               NaN; Txt "Oui"; NaN; NaN] eq_refl eq_refl)
    as (opts & label & E & _ & N & F & _).
  exists opts, label. split; [exact E|]. split; [exact N | exact F].
Defined.

(** ** The list view *)

Lemma filter_step_labelled_eq (cols : list string) (col : string)
      (selection : list cell) (rs : list (nat * list cell)) (j : nat) :
  index_of col cols = Some j ->
  filter_step_labelled cols col selection rs
  = Ok (filter (fun ir => accepts selection (nth j (snd ir) NaN)) rs).
Proof.
  intro E. destruct selection as [|v vs].
  - cbn. now rewrite filter_all.
  - unfold filter_step_labelled. now rewrite E.
Qed.

Lemma labelled_In (a : nat) (l : list (list cell)) (i : nat) (row : list cell) :
  In (i, row) (combine (seq a (List.length l)) l)
  <-> a <= i /\ nth_error l (i - a) = Some row.
Proof.
  revert a. induction l as [|x l IH]; intro a; cbn [List.length seq combine In].
  - split; [tauto|]. intros [_ E]. now destruct (i - a).
  - rewrite IH. split.
    + intros [[= <- <-]|[L E]].
      * rewrite Nat.sub_diag. split; [lia | reflexivity].
      * split; [lia|]. replace (i - a) with (S (i - S a)) by lia. exact E.
    + intros [L E]. destruct (i - a) as [|d] eqn:D.
      * left. cbn in E. injection E as <-. f_equal. lia.
      * right. split; [lia|]. cbn in E. now replace (i - S a) with d by lia.
Qed.

Lemma labelled_sorted (a : nat) (l : list (list cell)) :
  StronglySorted (fun x y : nat * list cell => fst x < fst y)
                 (combine (seq a (List.length l)) l).
Proof.
  revert a. induction l as [|x l IH]; intro a; cbn [List.length seq combine].
  - constructor.
  - constructor; [apply IH|].
    apply Forall_forall. intros [i row] Hi.
    apply labelled_In in Hi. cbn. lia.
Qed.

Lemma filter_sorted {A : Type} (R : A -> A -> Prop) (f : A -> bool)
      (l : list A) :
  StronglySorted R l -> StronglySorted R (filter f l).
Proof.
  induction 1 as [|x l S IH F]; cbn [filter]; [constructor|].
  destruct (f x); [|exact IH].
  constructor; [exact IH|].
  apply Forall_forall. intros y Hy. apply filter_In in Hy.
  rewrite Forall_forall in F. now apply F.
Qed.

Lemma map_sorted {A B : Type} (R : A -> A -> Prop) (Q : B -> B -> Prop)
      (g : A -> B) (l : list A) :
  (forall x y, R x y -> Q (g x) (g y)) ->
  StronglySorted R l -> StronglySorted Q (map g l).
Proof.
  intro Hg. induction 1 as [|x l S IH F]; cbn [map]; constructor.
  - exact IH.
  - apply Forall_forall. intros y Hy. apply in_map_iff in Hy.
    destruct Hy as (z & <- & Hz). apply Hg.
    rewrite Forall_forall in F. now apply F.
Qed.

Lemma labelled_filter (k : list cell -> bool) (a : nat) (l : list (list cell)) :
  map snd (filter (fun ir => k (snd ir)) (combine (seq a (List.length l)) l))
  = filter k l.
Proof.
  revert a. induction l as [|x l IH]; intro a; [reflexivity|].
  cbn [List.length seq combine filter snd].
  destruct (k x); cbn [map snd]; now rewrite IH.
Qed.

(** X10: the list view shows exactly the records the three filters let
    through, each under its position in the whole table plus one and not
    under its rank among the rows shown, in increasing order and without
    the photo column; the number shown minus one is therefore the
    position under which the selector of the edit form lists the
    record. *)
Theorem df_display_numbers_by_position
        (df : DataFrame) (je js jl jp : nat)
        (espece_filter spot_filter leurre_filter : list cell) :
  index_of "espece" (columns df) = Some je ->
  index_of "spot" (columns df) = Some js ->
  index_of "nom_leurre" (columns df) = Some jl ->
  index_of "photo_fichier" (columns df) = Some jp ->
  let keep := fun r => accepts espece_filter (nth je r NaN)
                       && accepts spot_filter (nth js r NaN)
                       && accepts leurre_filter (nth jl r NaN) in
  exists shown,
    df_display df espece_filter spot_filter leurre_filter = Ok shown
    /\ (forall n r,
           In (n, r) shown <->
           exists row, 1 <= n /\ nth_error (rows df) (n - 1) = Some row
                       /\ keep row = true /\ r = remove_at jp row)
    /\ StronglySorted (fun a b => fst a < fst b) shown
    /\ map snd shown = map (remove_at jp) (filter keep (rows df))
    /\ (forall i row, nth_error (rows df) i = Some row -> keep row = true ->
                      In (i + 1, remove_at jp row) shown
                      /\ iloc0 df (i + 1 - 1) = Ok row).
Proof.
  intros Ee Es El Ep keep.
  set (keepl := fun ir : nat * list cell => keep (snd ir)).
  assert (E : df_display df espece_filter spot_filter leurre_filter
              = Ok (map (fun ir => (fst ir + 1, remove_at jp (snd ir)))
                        (filter keepl (reset_index df)))).
  { unfold df_display.
    rewrite (filter_step_labelled_eq _ _ _ _ je Ee). cbn [rbind].
    rewrite (filter_step_labelled_eq _ _ _ _ js Es). cbn [rbind].
    rewrite (filter_step_labelled_eq _ _ _ _ jl El). cbn [rbind].
    rewrite Ep, !filter_and. f_equal. f_equal. apply filter_ext.
    intro ir. unfold keepl, keep. now rewrite andb_assoc. }
  assert (Hin : forall n r,
             In (n, r) (map (fun ir => (fst ir + 1, remove_at jp (snd ir)))
                            (filter keepl (reset_index df))) <->
             exists row, 1 <= n /\ nth_error (rows df) (n - 1) = Some row
                         /\ keep row = true /\ r = remove_at jp row).
  { intros n r. rewrite in_map_iff. split.
    - intros ([i row] & [= <- <-] & Hf). apply filter_In in Hf.
      destruct Hf as [Hi Hk]. apply labelled_In in Hi. cbn [fst snd].
      exists row. rewrite Nat.sub_0_r in Hi.
      replace (i + 1 - 1) with i by lia.
      split; [lia|]. split; [tauto|]. split; [exact Hk | reflexivity].
    - intros (row & Hn & R & Hk & ->). exists (n - 1, row). cbn [fst snd].
      split; [f_equal; lia|]. apply filter_In. split; [|exact Hk].
      apply labelled_In. rewrite Nat.sub_0_r. split; [lia | exact R]. }
  eexists. split; [exact E|]. split; [exact Hin|]. split; [|split].
  - apply (map_sorted (fun x y : nat * list cell => fst x < fst y)).
    + intros x y L. cbn. lia.
    + apply filter_sorted, labelled_sorted.
  - rewrite map_map. cbn [snd].
    rewrite <- (labelled_filter keep 0 (rows df)), map_map. reflexivity.
  - intros i row R Hk. split.
    + apply Hin. exists row. replace (i + 1 - 1) with i by lia.
      split; [lia|]. split; [exact R|]. split; [exact Hk | reflexivity].
    + replace (i + 1 - 1) with i by lia. unfold iloc0. now rewrite R.
Qed.

Lemma df_display_numbers_by_position_witness :
  exists shown,
    df_display cinq_prises [Txt "Bar"] [] [] = Ok shown
    /\ map fst shown = [1; 3; 5].
Proof.
  destruct (df_display_numbers_by_position cinq_prises 2 6 8 12
              [Txt "Bar"] [] [] eq_refl eq_refl eq_refl eq_refl)
    as (shown & E & _).
  exists shown. split; [exact E|].
  vm_compute in E. injection E as <-. reflexivity.
Defined.

(** ** Statistics: every record is counted once *)

Lemma insert_desc_sum (g : stat) (l : list stat) :
  list_sum (map nb_prises (insert_desc g l))
  = nb_prises g + list_sum (map nb_prises l).
Proof.
  unfold list_sum.
  induction l as [|h t IH]; cbn [insert_desc]; [reflexivity|].
  destruct (nb_prises g <? nb_prises h); cbn [map fold_right]; [|reflexivity].
  rewrite IH. cbn [map fold_right]. lia.
Qed.

Lemma sort_desc_sum (l : list stat) :
  list_sum (map nb_prises (sort_desc l)) = list_sum (map nb_prises l).
Proof.
  induction l as [|x l IH]; [reflexivity|].
  change (sort_desc (x :: l)) with (insert_desc x (sort_desc l)).
  rewrite insert_desc_sum, IH. reflexivity.
Qed.

Lemma one_key_matches (x : cell) (keys : list cell) :
  NoDup keys ->
  list_sum (map (fun k => if cell_eqb x k then 1 else 0) keys)
  = if existsb (cell_eqb x) keys then 1 else 0.
Proof.
  induction 1 as [|k keys Hk ND IH]; [reflexivity|].
  change (list_sum (map (fun k => if cell_eqb x k then 1 else 0) (k :: keys)))
    with ((if cell_eqb x k then 1 else 0)
          + list_sum (map (fun k => if cell_eqb x k then 1 else 0) keys)).
  cbn [existsb]. rewrite IH.
  destruct (cell_eqb x k) eqn:E; [|reflexivity].
  apply cell_eqb_eq in E. subst k.
  destruct (existsb (cell_eqb x) keys) eqn:F; [|reflexivity].
  exfalso. apply Hk. apply existsb_exists in F.
  destruct F as (y & Hy & E). apply cell_eqb_eq in E. now subst y.
Qed.

Lemma list_sum_plus {A : Type} (f g : A -> nat) (l : list A) :
  list_sum (map (fun x => f x + g x) l)
  = list_sum (map f l) + list_sum (map g l).
Proof.
  unfold list_sum. induction l as [|x l IH]; cbn [map fold_right];
    [reflexivity | rewrite IH; lia].
Qed.

Lemma list_sum_zero {A : Type} (l : list A) :
  list_sum (map (fun _ => 0) l) = 0.
Proof. unfold list_sum. induction l; cbn [map fold_right]; auto. Qed.

(** Counting group by group, over keys that are pairwise distinct, counts
    each row whose key is among them once. *)
Lemma sum_over_keys {A : Type} (key : A -> cell) (p : A -> bool)
      (keys : list cell) (l : list A) :
  NoDup keys ->
  list_sum (map (fun k => List.length
                            (filter (fun r => cell_eqb (key r) k && p r) l))
                keys)
  = List.length (filter (fun r => existsb (cell_eqb (key r)) keys && p r) l).
Proof.
  intro ND. induction l as [|r l IH]; cbn [filter].
  - apply list_sum_zero.
  - rewrite (map_ext _ (fun k => (if cell_eqb (key r) k && p r then 1 else 0)
                                 + List.length
                                     (filter (fun r => cell_eqb (key r) k && p r) l)))
      by (intro k; now destruct (cell_eqb (key r) k && p r)).
    rewrite list_sum_plus, IH.
    destruct (p r).
    + rewrite (map_ext _ (fun k => if cell_eqb (key r) k then 1 else 0))
        by (intro k; now rewrite andb_true_r).
      rewrite (one_key_matches _ _ ND), andb_true_r.
      now destruct (existsb (cell_eqb (key r)) keys).
    + rewrite (map_ext _ (fun _ => 0)) by (intro k; now rewrite andb_false_r).
      rewrite list_sum_zero, andb_false_r. reflexivity.
Qed.

Lemma filter_map_length {A B : Type} (f : A -> B) (p : B -> bool) (l : list A) :
  List.length (filter p (map f l)) = List.length (filter (fun x => p (f x)) l).
Proof.
  induction l as [|x l IH]; [reflexivity|]. cbn [map filter].
  destruct (p (f x)); cbn [List.length]; now rewrite IH.
Qed.

Section Counts.
Context `{Float64}.

(** X11: the counts of the statistics add up to the number of records
    that have both a group key and a species: such a record is counted in
    one line and in one only, and a record without key or without species
    in none.  A text in the length of a record that has a key makes the
    statistics fail. *)
Theorem stats_par_counts_every_record_once
        (by_col : string) (df : DataFrame) (j je jt : nat) :
  index_of by_col (columns df) = Some j ->
  index_of "espece" (columns df) = Some je ->
  index_of "taille_cm" (columns df) = Some jt ->
  ((forall r, In r (rows df) -> is_txt (nth jt r NaN) = false) ->
   exists out,
     stats_par by_col df = Ok out
     /\ list_sum (map nb_prises out)
        = List.length (filter (fun r => negb (isna (nth j r NaN))
                                        && negb (isna (nth je r NaN)))
                              (rows df)))
  /\ ((exists r, In r (rows df) /\ isna (nth j r NaN) = false
                 /\ is_txt (nth jt r NaN) = true) ->
      stats_par by_col df = Raise TypeError).
Proof.
  intros Ej Ee Et. split.
  - intro Hnum. eexists.
    split; [exact (stats_par_eq by_col df j je jt Ej Ee Et Hnum)|].
    rewrite map_map. cbn [round_stat nb_prises].
    rewrite sort_desc_sum, map_map. cbn [stat_of nb_prises].
    set (keys := group_keys [] (map (fun r => nth j r NaN) (rows df))).
    rewrite (map_ext _ (fun k => List.length
               (filter (fun r => cell_eqb (nth j r NaN) k
                                 && negb (isna (nth je r NaN))) (rows df)))).
    2:{ intro k. unfold count_notna, group_rows.
        now rewrite filter_map_length, filter_and. }
    rewrite (sum_over_keys (fun r => nth j r NaN)
                           (fun r => negb (isna (nth je r NaN))) keys (rows df))
      by apply group_keys_NoDup.
    f_equal. apply filter_ext_in. intros r Hr. f_equal.
    destruct (isna (nth j r NaN)) eqn:Na; cbn [negb].
    + destruct (existsb _ keys) eqn:F; [|reflexivity].
      apply existsb_exists in F. destruct F as (k & Hk & E).
      apply cell_eqb_eq in E. subst k.
      apply group_keys_In in Hk. destruct Hk as (_ & Hn & _).
      destruct (nth j r NaN); try discriminate. now contradiction Hn.
    + apply existsb_exists. exists (nth j r NaN).
      split; [|apply cell_eqb_refl].
      apply group_keys_In.
        split; [exact (in_map (fun r => nth j r NaN) _ _ Hr)|]. split; [|tauto].
      intro E. now rewrite E in Na.
  - intros (r & Hr & Na & Tx). unfold stats_par. rewrite Ej, Ee, Et.
    rewrite (mapM_raise _ _ TypeError); [reflexivity | |].
    + intros k _. unfold mean.
      destruct (existsb is_txt _); [now right|]. left.
      destruct (numbers _); cbn [rbind]; eexists; reflexivity.
    + exists (nth j r NaN). split.
      * apply group_keys_In.
        split; [exact (in_map (fun r => nth j r NaN) _ _ Hr)|]. split; [|tauto].
        intro E. now rewrite E in Na.
      * unfold mean.
        replace (existsb is_txt _) with true; [reflexivity|].
        symmetry. apply existsb_exists. exists (nth jt r NaN).
        split; [|exact Tx]. apply (in_map (fun r => nth jt r NaN)).
        unfold group_rows.
        apply filter_In. split; [exact Hr | apply cell_eqb_refl].
Qed.

End Counts.

Lemma stats_par_counts_every_record_once_witness :
  exists out,
    stats_par "spot" huit_prises = Ok out
    /\ list_sum (map nb_prises out) = 8.
Proof.
  destruct (stats_par_counts_every_record_once "spot" huit_prises 0 1 2
              eq_refl eq_refl eq_refl) as [A _].
  destruct A as (out & E & S).
  - intros r Hr. cbn in Hr.
    repeat (destruct Hr as [<-|Hr]; [reflexivity|]). contradiction.
  - exists out. split; [exact E|]. rewrite S. reflexivity.
Defined.

(** ** The selectors of the edit form *)

Lemma index_or_first_found (options : list string) (x : string) :
  In x options -> selectbox options (index_or_first options x) = x.
Proof.
  intro Hx. unfold index_or_first, selectbox.
  fold (has_column options x).
  rewrite (proj2 (has_column_In options x) Hx).
  destruct (index_of_has options x (proj2 (has_column_In options x) Hx))
    as [j Ej].
  rewrite Ej. apply nth_error_nth. now apply index_of_nth_error.
Qed.

Lemma index_or_first_absent (options : list string) (x : string) :
  ~ In x options -> index_or_first options x = 0.
Proof.
  intro Hx. unfold index_or_first. fold (has_column options x).
  destruct (has_column options x) eqn:E; [|reflexivity].
  now apply has_column_In in E.
Qed.

Section Selectors.
Context `{Pandas}.

(** X12: for the unit of the weight, the type of lure and the release,
    the edit form shows the stored value when it is one of the options;
    any other stored value, the missing value among them, is shown as "g",
    "Stickbait" and "Non", which is what saving the form then stores. *)
Theorem edit_form_selectors (c : cell) :
  let s := py_str c in
  (In s ["kg"; "g"] -> unite_poids_edit c = s)
  /\ (~ In s ["kg"; "g"] -> unite_poids_edit c = "g")
  /\ (In s TYPES_LEURRE -> type_leurre_edit c = s)
  /\ (~ In s TYPES_LEURRE -> type_leurre_edit c = "Stickbait")
  /\ (In s ["Oui"; "Non"] -> remis_edit c = s)
  /\ (~ In s ["Oui"; "Non"] -> remis_edit c = "Non")
  /\ (isna c = true ->
      unite_poids_edit c = "g" /\ type_leurre_edit c = "Stickbait"
      /\ remis_edit c = "Non").
Proof.
  cbv zeta. unfold unite_poids_edit, remis_edit, type_leurre_edit.
  refine (conj _ (conj _ (conj _ (conj _ (conj _ (conj _ (fun Na => conj _ (conj _ _)))))))).
  - intros [E|[E|[]]]; rewrite <- E; reflexivity.
  - intro N. destruct (String.eqb_spec (py_str c) "kg") as [E|_];
      [|reflexivity].
    exfalso. apply N. left. now rewrite E.
  - apply index_or_first_found.
  - intro N. now rewrite (index_or_first_absent _ _ N).
  - intros [E|[E|[]]]; rewrite <- E; reflexivity.
  - intro N. destruct (String.eqb_spec (py_str c) "Oui") as [E|_];
      [|reflexivity].
    exfalso. apply N. left. now rewrite E.
  - destruct c; [discriminate.. | reflexivity].
  - destruct c; [discriminate.. | reflexivity].
  - destruct c; [discriminate.. | reflexivity].
Qed.

End Selectors.

Lemma edit_form_selectors_witness :
  unite_poids_edit (Txt "lb") = "g"
  /\ type_leurre_edit (Txt "Jig") = "Jig"
  /\ remis_edit (Txt "Oui") = "Oui".
Proof.
  split; [|split].
  - destruct (edit_form_selectors (Txt "lb")) as (_ & A & _).
    apply A. cbn. intros [E|[E|[]]]; discriminate.
  - destruct (edit_form_selectors (Txt "Jig")) as (_ & _ & A & _).
    apply A. cbn. tauto.
  - destruct (edit_form_selectors (Txt "Oui")) as (_ & _ & _ & _ & A & _).
    apply A. cbn. tauto.
Defined.

(** ** Photos stored under the same path *)

Lemma app_inj_length (a b s t : string) :
  String.length a = String.length b ->
  (a ++ s = b ++ t)%string -> a = b /\ s = t.
Proof.
  revert b. induction a as [|c a IH]; intros [|d b] L E; try discriminate.
  - now split.
  - cbn in L, E. injection L as L. injection E as -> E.
    destruct (IH b L E) as [-> ->]. now split.
Qed.

Lemma show2_inj (v w : nat) :
  v < 100 -> w < 100 -> Py.show2 v = Py.show2 w -> v = w.
Proof.
  intros Hv Hw E. rewrite <- (int_show2 v Hv), <- (int_show2 w Hw).
  now rewrite E.
Qed.

Lemma show4_inj (v w : nat) :
  v < 10 * 1000 -> w < 10 * 1000 -> Py.show4 v = Py.show4 w -> v = w.
Proof.
  intros Hv Hw E. rewrite <- (int_show4 v Hv), <- (int_show4 w Hw).
  now rewrite E.
Qed.

(** The reference of an upload whose name has no separator. *)
Lemma photo_str_flat (now : Strptime.datetime) (name : string) :
  Py.contains "/" name = false ->
  Path.str (photo_filepath now name)
  = ("photos/" ++ strftime_stamp now ++ "_" ++ Py.replace " " "_" name)%string.
Proof.
  intro Hn.
  assert (E : Py.split "/" (Py.replace " " "_" name)
              = [Py.replace " " "_" name]).
  { apply split_without. now rewrite replace_keeps_slash. }
  rewrite (photo_filepath_parts now name _ [] E).
  unfold Path.str. cbn [Path.parts Path.absolute filter String.concat].
  unfold stamp_. now rewrite string_app_assoc.
Qed.

Lemma strftime_stamp_inj (t u : Strptime.datetime) :
  in_range_moment t -> in_range_moment u ->
  strftime_stamp t = strftime_stamp u -> t = u.
Proof.
  destruct t as [y m d h mi s], u as [y' m' d' h' mi' s'].
  unfold in_range_moment, strftime_stamp.
  cbn [Strptime.year Strptime.month Strptime.day Strptime.hour
       Strptime.minute Strptime.second].
  intros (Hy & Hm & Hd & Hh & Hmi & Hs) (Hy' & Hm' & Hd' & Hh' & Hmi' & Hs') E.
  apply app_inj_length in E; [|reflexivity]. destruct E as [Ey E].
  apply app_inj_length in E; [|reflexivity]. destruct E as [Em E].
  apply app_inj_length in E; [|reflexivity]. destruct E as [Ed E].
  apply (app_inj_length "_" "_") in E; [|reflexivity]. destruct E as [_ E].
  apply app_inj_length in E; [|reflexivity]. destruct E as [Eh E].
  apply app_inj_length in E; [|reflexivity]. destruct E as [Emi Es].
  apply show4_inj in Ey; [|assumption..].
  apply show2_inj in Em, Ed, Eh, Emi, Es; try assumption.
  now subst.
Qed.

(** X13: two uploads whose names hold no separator are stored under the
    same path exactly when their time stamps agree and their names agree
    once each blank is an underscore; the time stamps of two moments agree
    only if the moments are the same to the second.  So a photo can be
    written over another one only within the same second, and then is:
    both references are the same and the store is written twice at that
    path. *)
Theorem photo_reference_collisions
        (t u : Strptime.datetime) (name1 name2 : string) :
  Py.contains "/" name1 = false -> Py.contains "/" name2 = false ->
  (Path.str (photo_filepath t name1) = Path.str (photo_filepath u name2)
   <-> strftime_stamp t = strftime_stamp u
       /\ Py.replace " " "_" name1 = Py.replace " " "_" name2)
  /\ (in_range_moment t -> in_range_moment u ->
      Path.str (photo_filepath t name1) = Path.str (photo_filepath u name2) ->
      t = u)
  /\ (Py.replace " " "_" name1 = Py.replace " " "_" name2 ->
      forall c1 c2 w,
        exists p,
          (_ <- enregistrer_photo t (Some (mkupload name1 c1)) ;;
           enregistrer_photo t (Some (mkupload name2 c2))) w
          = (Ok p, write_file p c2 (write_file p c1 w))).
Proof.
  intros H1 H2.
  assert (Iff : Path.str (photo_filepath t name1)
                = Path.str (photo_filepath u name2)
                <-> strftime_stamp t = strftime_stamp u
                    /\ Py.replace " " "_" name1 = Py.replace " " "_" name2).
  { rewrite (photo_str_flat t name1 H1), (photo_str_flat u name2 H2). split.
    - intro E.
      apply (app_inj_length "photos/" "photos/") in E; [|reflexivity].
      destruct E as [_ E].
      apply app_inj_length in E.
      + destruct E as [Es E]. split; [exact Es|].
        apply (app_inj_length "_" "_") in E; [tauto | reflexivity].
      + destruct (stamp_shape t) as (? & ? & _ & _ & _ & ->).
        now destruct (stamp_shape u) as (? & ? & _ & _ & _ & ->).
    - intros [-> ->]. reflexivity. }
  split; [exact Iff|]. split.
  - intros Rt Ru E. apply (strftime_stamp_inj t u Rt Ru).
    now apply Iff in E.
  - intros E c1 c2 w. eexists.
    unfold enregistrer_photo, bind, update, ret. cbn [up_name up_content].
    unfold photo_filepath. rewrite E. reflexivity.
Qed.

Lemma photo_reference_collisions_witness :
  Path.str (photo_filepath midi "mon bar.jpg")
  = Path.str (photo_filepath midi "mon_bar.jpg").
Proof.
  destruct (photo_reference_collisions midi midi "mon bar.jpg" "mon_bar.jpg"
              eq_refl eq_refl) as (Iff & _).
  apply Iff. split; reflexivity.
Defined.
